(** * CityCar funnel utility: a shallow embedding of [funnel_utility.py]

    The handler class [CityCarDataHandler] keeps five pandas data frames and a
    cached merged frame.  Its methods are embedded as state-passing functions
    over a record with the same fields; the pandas operations they call are
    embedded as pure functions on a positional model of a data frame (a list
    of column labels and a list of rows of nullable cells).

    Conventions of the model:
    - a cell is [option value]; [None] stands for NaN / NaT / None;
    - a time stamp is an integer number of nanoseconds since the epoch;
    - floating-point results (minutes, means, rates) are exact rationals;
    - a Python exception is a value of [exn] carried by [Err];
    - [print] output is not modelled, except that the numbers printed by
      [analyze_dropoff_gap] are returned as a record;
    - a column added to a local copy of a frame ([wait_time], [patience_time],
      [hour]) is kept as a series next to that copy;
    - [load_data] (file input) is outside the model: a handler state is one
      whose five tables are already loaded. *)

From Stdlib Require Import String Ascii List ZArith QArith Lia Bool.
From Stdlib Require Import Permutation Sorted Lqa.
Import ListNotations.

Local Open Scope nat_scope.
Local Open Scope string_scope.
Local Open Scope list_scope.

(** ** Cells, exceptions, results *)

Inductive value : Type :=
| VStr (s : string)
| VNum (n : Z)
| VTime (ns : Z).

Definition cell : Type := option value.

Definition value_eqb (a b : value) : bool :=
  match a, b with
  | VStr s, VStr t => String.eqb s t
  | VNum m, VNum n => Z.eqb m n
  | VTime m, VTime n => Z.eqb m n
  | _, _ => false
  end.

(** Key comparison of [pd.merge]: two null keys match each other. *)
Definition cell_eqb (a b : cell) : bool :=
  match a, b with
  | None, None => true
  | Some x, Some y => value_eqb x y
  | _, _ => false
  end.

(** Element-wise [series == scalar]: a null never compares equal. *)
Definition cell_eq_scalar (v : value) (c : cell) : bool :=
  match c with
  | Some x => value_eqb x v
  | None => false
  end.

Definition notna_cell (c : cell) : bool :=
  match c with Some _ => true | None => false end.

Definition isna_cell (c : cell) : bool := negb (notna_cell c).

Inductive exn : Type :=
| KeyError (label : string)
| TypeError
| ValueError
| AttributeError
| ZeroDivisionError.

Inductive result (A : Type) : Type :=
| Ok (a : A)
| Err (e : exn).

Arguments Ok {A} a.
Arguments Err {A} e.

Definition rbind {A B} (r : result A) (k : A -> result B) : result B :=
  match r with
  | Ok a => k a
  | Err e => Err e
  end.

Notation "x <~ r ;; k" := (rbind r (fun x => k))
  (at level 61, r at next level, right associativity).

Fixpoint rmap {A B} (f : A -> result B) (l : list A) : result (list B) :=
  match l with
  | [] => Ok []
  | a :: t => b <~ f a ;; bs <~ rmap f t ;; Ok (b :: bs)
  end.

(** ** Data frames and series *)

Record DataFrame : Type := mkDF {
  columns : list string;
  rows : list (list cell)
}.

Definition Series : Type := list cell.

Fixpoint index_of (c : string) (cs : list string) : option nat :=
  match cs with
  | [] => None
  | x :: t => if String.eqb x c then Some O
              else match index_of c t with
                   | Some i => Some (S i)
                   | None => None
                   end
  end.

(** [c in df.columns] *)
Definition has_column (df : DataFrame) (c : string) : bool :=
  existsb (String.eqb c) (columns df).

Definition cell_at (i : nat) (r : list cell) : cell := nth i r None.

(** [df[c]]: the column labelled [c], or [KeyError c]. *)
Definition getcol (df : DataFrame) (c : string) : result Series :=
  match index_of c (columns df) with
  | Some i => Ok (map (cell_at i) (rows df))
  | None => Err (KeyError c)
  end.

(** [len(df)] *)
Definition len (df : DataFrame) : nat := length (rows df).

(** [df[mask]]: the rows whose mask entry is [True]. *)
Definition select (df : DataFrame) (mask : list bool) : DataFrame :=
  mkDF (columns df) (map fst (filter snd (combine (rows df) mask))).

Definition notna (s : Series) : list bool := map notna_cell s.
Definition isna (s : Series) : list bool := map isna_cell s.
Definition eq_scalar (s : Series) (v : value) : list bool :=
  map (cell_eq_scalar v) s.

Fixpoint mask_and (a b : list bool) : list bool :=
  match a, b with
  | x :: a', y :: b' => (x && y) :: mask_and a' b'
  | _, _ => []
  end.

(** [series.dropna()] as the list of the non-null values. *)
Fixpoint dropna (s : Series) : list value :=
  match s with
  | [] => []
  | Some v :: t => v :: dropna t
  | None :: t => dropna t
  end.

(** First occurrences, in order of appearance ([unique()]). *)
Fixpoint uniq {A} (eqb : A -> A -> bool) (l : list A) : list A :=
  match l with
  | [] => []
  | x :: t => x :: filter (fun y => negb (eqb x y)) (uniq eqb t)
  end.

(** [series.nunique()]: number of distinct non-null values. *)
Definition nunique (s : Series) : nat := length (uniq value_eqb (dropna s)).

(** [series.count()]: number of non-null entries. *)
Definition count_notna (s : Series) : nat := length (dropna s).

(** [mask.sum()] *)
Definition mask_sum (m : list bool) : nat := length (filter (fun b => b) m).

(** [df.rename(columns={old: new}, inplace=True)] *)
Definition rename_label (old new c : string) : string :=
  if String.eqb c old then new else c.

Definition rename_column (df : DataFrame) (old new : string) : DataFrame :=
  mkDF (map (rename_label old new) (columns df)) (rows df).

(** ** [pd.merge(left, right, how='left', left_on=.., right_on=..)]

    The right key is looked up first, then the left key; a missing key raises
    [KeyError].  When both keys carry the same label ([on=..]) the right key
    column is dropped from the output.  Labels that remain on both sides get
    the suffixes [_x] (left) and [_y] (right).  Every left row is kept, in
    order: once per matching right row (in the right table's order), or once
    padded with nulls when no right row matches. *)

Definition remove_nth {A} (i : nat) (l : list A) : list A :=
  firstn i l ++ skipn (S i) l.

Definition suffix_overlap (sfx : string) (others cs : list string)
  : list string :=
  map (fun c => if existsb (String.eqb c) others then String.append c sfx else c) cs.

Definition right_part (same : bool) (j : nat) {A} (r : list A) : list A :=
  if same then remove_nth j r else r.

Definition join_row (i j : nat) (same : bool) (width : nat)
  (right_rows : list (list cell)) (l : list cell) : list (list cell) :=
  match filter (fun r => cell_eqb (cell_at i l) (cell_at j r)) right_rows with
  | [] => [l ++ repeat None width]
  | ms => map (fun r => l ++ right_part same j r) ms
  end.

Definition pd_merge (left right : DataFrame) (left_on right_on : string)
  : result DataFrame :=
  match index_of right_on (columns right) with
  | None => Err (KeyError right_on)
  | Some j =>
    match index_of left_on (columns left) with
    | None => Err (KeyError left_on)
    | Some i =>
      let same := String.eqb left_on right_on in
      let rcols := right_part same j (columns right) in
      Ok (mkDF
            (suffix_overlap "_x" rcols (columns left)
               ++ suffix_overlap "_y" (columns left) rcols)
            (flat_map (join_row i j same (length rcols) (rows right))
               (rows left)))
    end
  end.

(** ** The handler object *)

Record CityCarDataHandler : Type := mkHandler {
  df_downloads : DataFrame;
  df_signups : DataFrame;
  df_requests : DataFrame;
  df_transactions : DataFrame;
  df_reviews : DataFrame;
  df_funnel : option DataFrame
}.

Definition set_funnel (self : CityCarDataHandler) (f : DataFrame)
  : CityCarDataHandler :=
  mkHandler (df_downloads self) (df_signups self) (df_requests self)
    (df_transactions self) (df_reviews self) (Some f).

Definition set_requests (self : CityCarDataHandler) (r : DataFrame)
  : CityCarDataHandler :=
  mkHandler (df_downloads self) (df_signups self) r
    (df_transactions self) (df_reviews self) (df_funnel self).

(** The five input relations of a handler state. *)
Definition inputs (self : CityCarDataHandler)
  : DataFrame * DataFrame * DataFrame * DataFrame * DataFrame :=
  (df_downloads self, df_signups self, df_requests self,
   df_transactions self, df_reviews self).

(** A method: it may raise, and the object keeps whatever was assigned
    before the exception. *)
Definition M (A : Type) : Type :=
  CityCarDataHandler -> result A * CityCarDataHandler.

Definition ret {A} (a : A) : M A := fun self => (Ok a, self).

Definition bind {A B} (m : M A) (k : A -> M B) : M B :=
  fun self =>
    match m self with
    | (Ok a, self') => k a self'
    | (Err e, self') => (Err e, self')
    end.

Definition lift {A} (r : result A) : M A := fun self => (r, self).

Definition get {A} (field : CityCarDataHandler -> A) : M A :=
  fun self => (Ok (field self), self).

Definition assign_funnel (f : DataFrame) : M unit :=
  fun self => (Ok tt, set_funnel self f).

Definition assign_requests (r : DataFrame) : M unit :=
  fun self => (Ok tt, set_requests self r).

Notation "x <- m ;; k" := (bind m (fun x => k))
  (at level 61, m at next level, right associativity).
Notation "m ;;; k" := (bind m (fun _ => k))
  (at level 61, right associativity).

(** ** [get_raw_tables] *)

Definition get_raw_tables : M (list (string * DataFrame)) :=
  downloads <- get df_downloads ;;
  signups <- get df_signups ;;
  requests <- get df_requests ;;
  transactions <- get df_transactions ;;
  reviews <- get df_reviews ;;
  ret [("Downloads", downloads); ("Signups", signups);
       ("Requests", requests); ("Transactions", transactions);
       ("Reviews", reviews)].

(** ** [merge_all_data] *)

Definition repair_names (f : DataFrame) : DataFrame :=
  let f1 := if has_column f "driver_id_x"
            then rename_column f "driver_id_x" "driver_id" else f in
  if has_column f1 "user_id_x"
  then rename_column f1 "user_id_x" "user_id" else f1.

Definition merge_all_data : M DataFrame :=
  downloads <- get df_downloads ;;
  signups <- get df_signups ;;
  f1 <- lift (pd_merge downloads signups "app_download_key" "session_id") ;;
  assign_funnel f1 ;;;
  requests <- get df_requests ;;
  f2 <- lift (pd_merge f1 requests "user_id" "user_id") ;;
  assign_funnel f2 ;;;
  transactions <- get df_transactions ;;
  f3 <- lift (pd_merge f2 transactions "ride_id" "ride_id") ;;
  assign_funnel f3 ;;;
  reviews <- get df_reviews ;;
  f4 <- lift (pd_merge f3 reviews "ride_id" "ride_id") ;;
  assign_funnel f4 ;;;
  let f := repair_names f4 in
  assign_funnel f ;;;
  ret f.

(** [if self.df_funnel is None: self.merge_all_data()] followed by a read of
    [self.df_funnel]. *)
Definition funnel_table : M DataFrame :=
  cached <- get df_funnel ;;
  match cached with
  | Some f => ret f
  | None => merge_all_data
  end.

(** ** [calculate_funnel_steps] *)

Record FunnelData : Type := mkFunnelData {
  steps : list string;
  counts : list nat
}.

Definition calculate_funnel_steps : M FunnelData :=
  f <- funnel_table ;;
  lift (
    key <~ getcol f "app_download_key" ;;
    let step_1_downloads := nunique key in
    uid <~ getcol f "user_id" ;;
    let step_2_signups := nunique uid in
    req <~ getcol f "request_ts" ;;
    uid_req <~ getcol (select f (notna req)) "user_id" ;;
    let users_requested := nunique uid_req in
    acc <~ getcol f "accept_ts" ;;
    uid_acc <~ getcol (select f (notna acc)) "user_id" ;;
    let users_accepted := nunique uid_acc in
    dro <~ getcol f "dropoff_ts" ;;
    uid_dro <~ getcol (select f (notna dro)) "user_id" ;;
    let users_completed := nunique uid_dro in
    chg <~ getcol f "charge_status" ;;
    uid_chg <~ getcol (select f (eq_scalar chg (VStr "Approved"))) "user_id" ;;
    let users_paid := nunique uid_chg in
    rev <~ getcol f "review_id" ;;
    uid_rev <~ getcol (select f (notna rev)) "user_id" ;;
    let users_reviewed := nunique uid_rev in
    Ok (mkFunnelData
          ["Downloads"; "Signups"; "Requests"; "Accepted"; "Completed";
           "Payment"; "Reviews"]
          [step_1_downloads; step_2_signups; users_requested; users_accepted;
           users_completed; users_paid; users_reviewed])).

(** ** Time stamps, durations and descriptive statistics *)

Definition ns_per_minute : Z := 60000000000.
Definition ns_per_hour : Z := 3600000000000.

(** Difference of two datetime cells, in nanoseconds; a null on either side
    gives a null; a cell that is not a time stamp raises [TypeError]. *)
Definition ts_sub (a b : cell) : result (option Z) :=
  match a, b with
  | Some (VTime x), Some (VTime y) => Ok (Some (x - y)%Z)
  | None, None => Ok None
  | None, Some (VTime _) => Ok None
  | Some (VTime _), None => Ok None
  | _, _ => Err TypeError
  end.

Fixpoint series_sub (a b : Series) : result (list (option Z)) :=
  match a, b with
  | x :: a', y :: b' =>
      d <~ ts_sub x y ;; ds <~ series_sub a' b' ;; Ok (d :: ds)
  | _, _ => Ok []
  end.

(** [.dt.total_seconds() / 60] *)
Definition minutes (d : option Z) : option Q :=
  match d with
  | Some ns => Some (Qmake ns 60000000000)
  | None => None
  end.

Fixpoint dropnaQ (s : list (option Q)) : list Q :=
  match s with
  | [] => []
  | Some q :: t => q :: dropnaQ t
  | None :: t => dropnaQ t
  end.

Definition Qgtb (x y : Q) : bool := negb (Qle_bool x y).
Definition Qltb (x y : Q) : bool := negb (Qle_bool y x).

(** [s[s > bound].count()] and [s[s < bound].count()]: a null compares
    false and is not counted. *)
Definition count_gt (bound : Q) (s : list (option Q)) : nat :=
  length (filter (fun q => Qgtb q bound) (dropnaQ s)).

Definition count_lt (bound : Q) (s : list (option Q)) : nat :=
  length (filter (fun q => Qltb q bound) (dropnaQ s)).

Fixpoint insert_by {A} (leb : A -> A -> bool) (x : A) (l : list A) : list A :=
  match l with
  | [] => [x]
  | y :: t => if leb x y then x :: l else y :: insert_by leb x t
  end.

Fixpoint sort_by {A} (leb : A -> A -> bool) (l : list A) : list A :=
  match l with
  | [] => []
  | x :: t => insert_by leb x (sort_by leb t)
  end.

Definition Qsum (l : list Q) : Q := fold_right Qplus 0%Q l.

Definition Qnat (n : nat) : Q := inject_Z (Z.of_nat n).

Definition meanQ (l : list Q) : option Q :=
  match l with
  | [] => None
  | _ => Some (Qsum l / Qnat (length l))%Q
  end.

(** [series.mean()]: nulls are skipped; no value at all gives NaN. *)
Definition mean (s : list (option Q)) : option Q := meanQ (dropnaQ s).

(** Sample variance (the square of [std], which divides by [n - 1]). *)
Definition varianceQ (l : list Q) : option Q :=
  match meanQ l with
  | Some m =>
      if Nat.ltb 1 (length l)
      then Some (Qsum (map (fun x => (x - m) * (x - m)) l)
                 / Qnat (length l - 1))%Q
      else None
  | None => None
  end.

(** The [k]-th quartile of a sorted list, by linear interpolation. *)
Definition quartile (k : nat) (sorted : list Q) : option Q :=
  match sorted with
  | [] => None
  | _ =>
      let pos := ((length sorted - 1) * k)%nat in
      let i := Nat.div pos 4 in
      let r := Nat.modulo pos 4 in
      let lo := nth i sorted 0%Q in
      let hi := nth (S i) sorted lo in
      Some (lo + (Qmake (Z.of_nat r) 4) * (hi - lo))%Q
  end.

(** The report of [series.describe()].  [d_var] is the square of the [std]
    entry, whose root is in general not rational. *)
Record DescriptiveStats : Type := mkStats {
  d_count : nat;
  d_mean : option Q;
  d_var : option Q;
  d_min : option Q;
  d_q25 : option Q;
  d_q50 : option Q;
  d_q75 : option Q;
  d_max : option Q
}.

Definition describe (s : list (option Q)) : DescriptiveStats :=
  let xs := dropnaQ s in
  let sorted := sort_by Qle_bool xs in
  mkStats (length xs) (meanQ xs) (varianceQ xs)
    (hd_error sorted) (quartile 1 sorted) (quartile 2 sorted)
    (quartile 3 sorted) (hd_error (rev sorted)).

(** ** [analyze_ride_duration_quality] *)

Definition ride_durations (requests : DataFrame) : result (list (option Q)) :=
  dro <~ getcol requests "dropoff_ts" ;;
  pic <~ getcol requests "pickup_ts" ;;
  diff <~ series_sub dro pic ;;
  Ok (map minutes diff).

Definition analyze_ride_duration_quality
  : M (DescriptiveStats * nat * nat) :=
  requests <- get df_requests ;;
  durations <- lift (ride_durations requests) ;;
  let stats_report := describe durations in
  let long_rides := count_gt (300 # 1) durations in
  let negative_rides := count_lt (0 # 1) durations in
  ret (stats_report, long_rides, negative_rides).

(** ** [analyze_dropoff_gap]

    The method only prints; the three printed quantities are returned.
    [quote = None] is the branch that prints that no case was found. *)

Record DropoffReport : Type := mkDropoff {
  count_problems : nat;
  cancelled_count : nat;
  quote : option Q
}.

Definition analyze_dropoff_gap : M DropoffReport :=
  requests <- get df_requests ;;
  lift (
    acc <~ getcol requests "accept_ts" ;;
    dro <~ getcol requests "dropoff_ts" ;;
    let problem_rides := select requests (mask_and (notna acc) (isna dro)) in
    let count_problems := len problem_rides in
    can <~ getcol problem_rides "cancel_ts" ;;
    let cancelled_count := mask_sum (notna can) in
    Ok (mkDropoff count_problems cancelled_count
          (if Nat.ltb 0 count_problems
           then Some ((Qnat cancelled_count / Qnat count_problems) * (100 # 1))%Q
           else None))).

(** ** Hour of day and histograms *)

Definition hour_of (ns : Z) : Z := ((ns / ns_per_hour) mod 24)%Z.

(** [.dt.hour] on one cell; the accessor exists only for datetime data. *)
Definition dt_hour_cell (c : cell) : result (option Z) :=
  match c with
  | None => Ok None
  | Some (VTime t) => Ok (Some (hour_of t))
  | Some _ => Err AttributeError
  end.

Definition dt_hour (s : Series) : result (list (option Z)) :=
  rmap dt_hour_cell s.

Fixpoint dropnaZ (s : list (option Z)) : list Z :=
  match s with
  | [] => []
  | Some z :: t => z :: dropnaZ t
  | None :: t => dropnaZ t
  end.

Definition count_of {A} (eqb : A -> A -> bool) (k : A) (xs : list A) : nat :=
  length (filter (eqb k) xs).

(** The observed values with their frequencies, most frequent first. *)
Definition frequencies {A} (eqb : A -> A -> bool) (xs : list A)
  : list (A * nat) :=
  sort_by (fun a b => Nat.leb (snd b) (snd a))
    (map (fun k => (k, count_of eqb k xs)) (uniq eqb xs)).

Definition occurrences (k : Z) (xs : list Z) : nat := count_of Z.eqb k xs.

(** [series.value_counts()] on a column of hours and on a column of labels;
    nulls are not counted. *)
Definition value_counts (s : list (option Z)) : list (Z * nat) :=
  frequencies Z.eqb (dropnaZ s).

Definition value_counts_labels (s : Series) : list (value * nat) :=
  frequencies value_eqb (dropna s).

(** ** [get_warmup_stats]

    Numeric cells are integers in this embedding, and so is the revenue;
    [round(x, 2)] rounds the exact mean half to even. *)

Definition round_half_even (q : Q) : Z :=
  let n := Qnum q in
  let d := Zpos (Qden q) in
  let fl := (n / d)%Z in
  let r := (n mod d)%Z in
  if (2 * r <? d)%Z then fl
  else if (d <? 2 * r)%Z then (fl + 1)%Z
  else if Z.even fl then fl else (fl + 1)%Z.

Definition py_round2 (x : option Q) : option Q :=
  match x with
  | Some q => Some (Qmake (round_half_even (q * (100 # 1))) 100)
  | None => None
  end.

(** [series.sum()] of a numeric column: nulls are skipped. *)
Fixpoint series_sum (s : Series) : result Z :=
  match s with
  | [] => Ok 0%Z
  | None :: t => series_sum t
  | Some (VNum n) :: t => rest <~ series_sum t ;; Ok (n + rest)%Z
  | Some _ :: _ => Err TypeError
  end.

Record WarmupStats : Type := mkWarmup {
  downloads_1 : nat;
  signups_2 : nat;
  rides_requested_3 : nat;
  rides_completed_4 : nat;
  unique_users_requesting_5 : nat;
  avg_duration_minutes_6 : option Q;
  rides_accepted_7 : nat;
  total_revenue_8 : Z;
  platform_counts_9 : list (value * nat)
}.

Definition get_warmup_stats : M WarmupStats :=
  downloads <- get df_downloads ;;
  signups <- get df_signups ;;
  requests <- get df_requests ;;
  transactions <- get df_transactions ;;
  lift (
    dro <~ getcol requests "dropoff_ts" ;;
    uid <~ getcol requests "user_id" ;;
    dro' <~ getcol requests "dropoff_ts" ;;
    pic <~ getcol requests "pickup_ts" ;;
    diff <~ series_sub dro' pic ;;
    let duration := map minutes diff in
    acc <~ getcol requests "accept_ts" ;;
    amount <~ getcol transactions "purchase_amount_usd" ;;
    revenue <~ series_sum amount ;;
    plat <~ getcol downloads "platform" ;;
    Ok (mkWarmup (len downloads) (len signups) (len requests)
          (count_notna dro) (nunique uid) (py_round2 (mean duration))
          (count_notna acc) revenue (value_counts_labels plat))).

(** [.sort_index()] *)
Definition sort_index (h : list (Z * nat)) : list (Z * nat) :=
  sort_by (fun a b => Z.leb (fst a) (fst b)) h.

(** ** [analyze_cancellation_reasons] *)

(** Python's [a / b] on two [int]s. *)
Definition py_div (a b : nat) : result Q :=
  match b with
  | O => Err ZeroDivisionError
  | S _ => Ok (Qnat a / Qnat b)%Q
  end.

Definition analyze_cancellation_reasons : M (option Q * option Q) :=
  requests <- get df_requests ;;
  lift (
    dro <~ getcol requests "dropoff_ts" ;;
    let completed_rides := select requests (notna dro) in
    pic_c <~ getcol completed_rides "pickup_ts" ;;
    acc_c <~ getcol completed_rides "accept_ts" ;;
    wait_ns <~ series_sub pic_c acc_c ;;
    let wait_time := map minutes wait_ns in
    let avg_wait_completed := mean wait_time in
    acc <~ getcol requests "accept_ts" ;;
    dro' <~ getcol requests "dropoff_ts" ;;
    can <~ getcol requests "cancel_ts" ;;
    let cancelled_rides :=
      select requests
        (mask_and (mask_and (notna acc) (isna dro')) (notna can)) in
    can_c <~ getcol cancelled_rides "cancel_ts" ;;
    acc_k <~ getcol cancelled_rides "accept_ts" ;;
    patience_ns <~ series_sub can_c acc_k ;;
    let patience_time := map minutes patience_ns in
    let avg_wait_cancelled := mean patience_time in
    let long_waiters :=
      select cancelled_rides
        (map (fun p => match p with
                       | Some q => Qgtb q (10 # 1)
                       | None => false
                       end) patience_time) in
    share <~ py_div (len long_waiters) (len cancelled_rides) ;;
    let percent := (share * (100 # 1))%Q in
    can_h <~ getcol cancelled_rides "cancel_ts" ;;
    hour <~ dt_hour can_h ;;
    let busy_hours := sort_index (value_counts hour) in
    let top_hours := firstn 3 (value_counts hour) in
    Ok (avg_wait_completed, avg_wait_cancelled)).

(** ** [get_platform_metrics] *)

(** Order of group labels.  Within one kind it is Python's order; labels of
    different kinds do not occur in one column read from a CSV file, and are
    ordered numbers, time stamps, strings. *)
Definition value_leb (a b : value) : bool :=
  match a, b with
  | VNum m, VNum n => Z.leb m n
  | VTime m, VTime n => Z.leb m n
  | VStr s, VStr t => String.leb s t
  | VNum _, _ => true
  | VTime _, VStr _ => true
  | _, _ => false
  end.

(** An element-wise float quotient of two integer columns: division by zero
    yields an infinity or NaN, not an exception. *)
Inductive float : Type :=
| Finite (q : Q)
| Inf
| NaN.

Definition np_div (a b : nat) : float :=
  match b with
  | O => match a with O => NaN | S _ => Inf end
  | S _ => Finite (Qnat a / Qnat b)%Q
  end.

Definition np_scale (x : float) (k : Q) : float :=
  match x with
  | Finite q => Finite (q * k)%Q
  | Inf => Inf
  | NaN => NaN
  end.

Record PlatformRow : Type := mkPlatformRow {
  Platform : value;
  Downloads : nat;
  Completed_Rides : nat;
  Conversion_Rate : float
}.

(** [groupby('platform')] looks up the grouping column, [agg] the two
    aggregated columns (a missing one raises [KeyError] even when there is no
    group); groups are the distinct non-null labels in ascending order. *)
Definition get_platform_metrics : M (list PlatformRow) :=
  f <- funnel_table ;;
  lift (
    plat <~ getcol f "platform" ;;
    _ <~ getcol f "app_download_key" ;;
    _ <~ getcol f "dropoff_ts" ;;
    let groups := sort_by value_leb (uniq value_eqb (dropna plat)) in
    rmap (fun g =>
            let group_data := select f (eq_scalar plat g) in
            key <~ getcol group_data "app_download_key" ;;
            dro <~ getcol group_data "dropoff_ts" ;;
            let downloads := nunique key in
            let completed := mask_sum (notna dro) in
            Ok (mkPlatformRow g downloads completed
                  (np_scale (np_div completed downloads) (100 # 1))))
         groups).

(** ** [get_funnel_by_age] *)

Record AgeRow : Type := mkAgeRow {
  Age_Group : cell;
  Signups_1 : nat;
  Requests_2 : nat;
  Completed_3 : nat;
  Reviews_4 : nat
}.

(** [series == group] for a scalar that came out of [unique()]. *)
Definition eq_cell (s : Series) (g : cell) : list bool :=
  match g with
  | Some v => eq_scalar s v
  | None => map (fun _ => false) s
  end.

Definition same_kind (a b : value) : bool :=
  match a, b with
  | VStr _, VStr _ => true
  | VNum _, VNum _ => true
  | VTime _, VTime _ => true
  | _, _ => false
  end.

Definition homogeneous (l : list value) : bool :=
  match l with
  | [] => true
  | x :: t => forallb (same_kind x) t
  end.

Definition cell_leb (a b : cell) : bool :=
  match a, b with
  | Some x, Some y => value_leb x y
  | Some _, None => true
  | None, Some _ => false
  | None, None => true
  end.

(** [pd.DataFrame(results).sort_values('Age_Group')]: a frame built from an
    empty list has no column at all, so the sort key is missing; labels of
    different kinds cannot be compared; nulls sort last. *)
Definition sort_values_age (results : list AgeRow) : result (list AgeRow) :=
  match results with
  | [] => Err (KeyError "Age_Group")
  | _ =>
      if homogeneous (dropna (map Age_Group results))
      then Ok (sort_by (fun a b => cell_leb (Age_Group a) (Age_Group b))
                 results)
      else Err TypeError
  end.

Definition age_group_row (df_age : DataFrame) (group : cell)
  : result AgeRow :=
  age <~ getcol df_age "age_range" ;;
  let group_data := select df_age (eq_cell age group) in
  uid <~ getcol group_data "user_id" ;;
  let signups := nunique uid in
  req <~ getcol group_data "request_ts" ;;
  uid_req <~ getcol (select group_data (notna req)) "user_id" ;;
  let requests := nunique uid_req in
  dro <~ getcol group_data "dropoff_ts" ;;
  uid_dro <~ getcol (select group_data (notna dro)) "user_id" ;;
  let completed := nunique uid_dro in
  rev <~ getcol group_data "review_id" ;;
  uid_rev <~ getcol (select group_data (notna rev)) "user_id" ;;
  let reviews := nunique uid_rev in
  Ok (mkAgeRow group signups requests completed reviews).

Definition get_funnel_by_age : M (list AgeRow) :=
  f <- funnel_table ;;
  lift (
    age <~ getcol f "age_range" ;;
    let df_age := select f (notna age) in
    age' <~ getcol df_age "age_range" ;;
    let all_groups := uniq cell_eqb age' in
    results <~ rmap (age_group_row df_age) all_groups ;;
    sort_values_age results).

(** ** [analyze_surge_demand] *)

Fixpoint set_nth {A} (i : nat) (v : A) (l : list A) : list A :=
  match l, i with
  | [], _ => []
  | _ :: t, O => v :: t
  | x :: t, S i' => x :: set_nth i' v t
  end.

Fixpoint map2 {A B C} (f : A -> B -> C) (a : list A) (b : list B) : list C :=
  match a, b with
  | x :: a', y :: b' => f x y :: map2 f a' b'
  | _, _ => []
  end.

(** [df[c] = vals]: replaces the column when the label exists, appends it
    otherwise. *)
Definition set_column (df : DataFrame) (c : string) (vals : Series)
  : DataFrame :=
  match index_of c (columns df) with
  | Some i => mkDF (columns df) (map2 (set_nth i) vals (rows df))
  | None => mkDF (columns df ++ [c])
              (map2 (fun v r => r ++ [v]) vals (rows df))
  end.

(** [df[[c]].copy()] *)
Definition project1 (df : DataFrame) (c : string) : result DataFrame :=
  match index_of c (columns df) with
  | Some i => Ok (mkDF [c] (map (fun r => [cell_at i r]) (rows df)))
  | None => Err (KeyError c)
  end.

Section Demand.

(** The date parser behind [pd.to_datetime] on strings: the time stamp a
    string denotes, if it denotes one. *)
Variable parse_datetime : string -> option Z.

(** [pd.to_datetime] on one cell: datetimes and nulls are kept, an integer
    counts nanoseconds since the epoch, a string is parsed. *)
Definition to_datetime_cell (c : cell) : result cell :=
  match c with
  | None => Ok None
  | Some (VTime t) => Ok (Some (VTime t))
  | Some (VNum n) => Ok (Some (VTime n))
  | Some (VStr s) =>
      match parse_datetime s with
      | Some t => Ok (Some (VTime t))
      | None => Err ValueError
      end
  end.

Definition to_datetime (s : Series) : result Series :=
  rmap to_datetime_cell s.

Definition analyze_surge_demand : M (list (Z * nat)) :=
  requests <- get df_requests ;;
  ts <- lift (getcol requests "request_ts") ;;
  converted <- lift (to_datetime ts) ;;
  assign_requests (set_column requests "request_ts" converted) ;;;
  requests' <- get df_requests ;;
  df_temp <- lift (project1 requests' "request_ts") ;;
  ts' <- lift (getcol df_temp "request_ts") ;;
  hour <- lift (dt_hour ts') ;;
  let hourly_demand := sort_index (value_counts hour) in
  ret hourly_demand.

End Demand.

(** ** Specification vocabulary *)

(** The cell of row [r] under the label [c] of frame [f]. *)
Definition field (f : DataFrame) (c : string) (r : list cell) : cell :=
  match index_of c (columns f) with
  | Some i => cell_at i r
  | None => None
  end.

(** [n] is the number of distinct non-null values of column [c] over the
    rows of [f] that satisfy [keep]. *)
Definition distinct_count (f : DataFrame) (c : string)
  (keep : list cell -> Prop) (n : nat) : Prop :=
  exists vs : list value,
    NoDup vs /\ length vs = n /\
    forall v, In v vs <->
              exists r, In r (rows f) /\ keep r /\ field f c r = Some v.

Definition has_columns (f : DataFrame) (cs : list string) : bool :=
  forallb (has_column f) cs.

Definition funnel_step_columns : list string :=
  ["app_download_key"; "user_id"; "request_ts"; "accept_ts"; "dropoff_ts";
   "charge_status"; "review_id"].

(** Every row has one cell per column. *)
Definition well_formed (f : DataFrame) : Prop :=
  Forall (fun r => length r = length (columns f)) (rows f).

(** What a left join owes to its left table: no fewer rows than the left
    table has, every left row extended to at least one output row, and a left
    row whose key meets no right key extended by nulls only. *)
Definition left_join_complete (left right : DataFrame)
  (left_on right_on : string) (out : DataFrame) : Prop :=
  len left <= len out /\
  forall x, In x (rows left) ->
    (exists t, In (x ++ t) (rows out)) /\
    ((forall y, In y (rows right) ->
                field left left_on x <> field right right_on y) ->
     In (x ++ repeat None (length (columns out) - length (columns left)))
        (rows out)).

(** The key column [k] of [df] has no repeated entry, nulls included. *)
Definition unique_key (df : DataFrame) (k : string) : Prop :=
  match getcol df k with
  | Ok s => NoDup s
  | Err _ => True
  end.

(** The total number of columns of the five input tables. *)
Definition input_width (self : CityCarDataHandler) : nat :=
  length (columns (df_downloads self)) + length (columns (df_signups self))
  + length (columns (df_requests self))
  + length (columns (df_transactions self))
  + length (columns (df_reviews self)).

(** One cell of the mask [series == group]. *)
Definition cell_matches (g c : cell) : bool :=
  match g with
  | Some v => cell_eq_scalar v c
  | None => false
  end.

(** Within one age group no later stage counts more users than signed up. *)
Definition age_row_consistent (row : AgeRow) : Prop :=
  Requests_2 row <= Signups_1 row /\
  Completed_3 row <= Signups_1 row /\
  Reviews_4 row <= Signups_1 row.

Definition age_columns : list string :=
  ["age_range"; "user_id"; "request_ts"; "dropoff_ts"; "review_id"].

(** A ride that was accepted, never dropped off, and cancelled. *)
Definition cancelled_after_accept (requests : DataFrame) (r : list cell)
  : bool :=
  notna_cell (field requests "accept_ts" r)
  && isna_cell (field requests "dropoff_ts" r)
  && notna_cell (field requests "cancel_ts" r).

(** A ride that was accepted and never dropped off. *)
Definition problem_ride (requests : DataFrame) (r : list cell) : bool :=
  notna_cell (field requests "accept_ts" r)
  && isna_cell (field requests "dropoff_ts" r).

(** The minutes between acceptance and pick-up, and between acceptance and
    cancellation, of the ride of row [r]. *)
Definition wait_minutes (requests : DataFrame) (r : list cell) : option Q :=
  match field requests "pickup_ts" r, field requests "accept_ts" r with
  | Some (VTime p), Some (VTime a) => Some (Qmake (p - a) 60000000000)
  | _, _ => None
  end.

Definition patience_minutes (requests : DataFrame) (r : list cell)
  : option Q :=
  match field requests "cancel_ts" r, field requests "accept_ts" r with
  | Some (VTime c), Some (VTime a) => Some (Qmake (c - a) 60000000000)
  | _, _ => None
  end.

(** What one row of the platform table says about the merged table [f]:
    the distinct download keys and the dropped-off rides of the rows of its
    platform, and their quotient as a percentage. *)
Definition platform_row_correct (f : DataFrame) (row : PlatformRow) : Prop :=
  distinct_count f "app_download_key"
    (fun r => field f "platform" r = Some (Platform row)) (Downloads row) /\
  Completed_Rides row
    = length (filter (fun r => cell_eq_scalar (Platform row)
                                 (field f "platform" r)
                               && notna_cell (field f "dropoff_ts" r))
                (rows f)) /\
  Conversion_Rate row
    = match Downloads row with
      | O => match Completed_Rides row with O => NaN | S _ => Inf end
      | S _ => Finite ((Qnat (Completed_Rides row) / Qnat (Downloads row))
                       * (100 # 1))%Q
      end.

(** The difference of two datetime cells. *)
Definition sub_cells (a b : cell) : option Z :=
  match a, b with
  | Some (VTime x), Some (VTime y) => Some (x - y)%Z
  | _, _ => None
  end.

(** The duration in minutes of the ride of row [r], when the row carries
    both its pick-up and its drop-off time. *)
Definition ride_minutes (requests : DataFrame) (r : list cell) : option Q :=
  match field requests "dropoff_ts" r, field requests "pickup_ts" r with
  | Some (VTime d), Some (VTime p) => Some (Qmake (d - p) 60000000000)
  | _, _ => None
  end.

(** The rides with a drop-off time, and those that also have a pick-up
    time. *)
Definition dropped_off (requests : DataFrame) : list (list cell) :=
  filter (fun r => notna_cell (field requests "dropoff_ts" r))
    (rows requests).

Definition timed_rides (requests : DataFrame) : list (list cell) :=
  filter (fun r => notna_cell (field requests "dropoff_ts" r)
                   && notna_cell (field requests "pickup_ts" r))
    (rows requests).

Definition Qopt_eqb (a b : option Q) : bool :=
  match a, b with
  | Some x, Some y => Qeq_bool x y
  | None, None => true
  | _, _ => false
  end.

(** The hour of a datetime cell. *)
Definition hour_cell (c : cell) : option Z :=
  match c with
  | Some (VTime t) => Some (hour_of t)
  | _ => None
  end.

(** The number of requests whose [request_ts] falls in hour [h] of a day. *)
Definition requested_in_hour (requests : DataFrame) (h : Z) (r : list cell)
  : bool :=
  match field requests "request_ts" r with
  | Some (VTime t) => Z.eqb (hour_of t) h
  | _ => false
  end.

Definition requests_in_hour (requests : DataFrame) (h : Z) : nat :=
  length (filter (requested_in_hour requests h) (rows requests)).

(** What the two renames at the end of [merge_all_data] do to a label. *)
Definition repair_label (c : string) : string :=
  rename_label "user_id_x" "user_id" (rename_label "driver_id_x" "driver_id" c).

(** [missing_join_key self c]: the first join of the chain that cannot find
    one of its keys misses the column [c] on the side where it looks for it.
    The left side of the second, third and fourth join is the table merged
    so far. *)
Inductive missing_join_key (self : CityCarDataHandler) : string -> Prop :=
| missing_in_signups :
    ~ In "session_id" (columns (df_signups self)) ->
    missing_join_key self "session_id"
| missing_in_downloads :
    ~ In "app_download_key" (columns (df_downloads self)) ->
    missing_join_key self "app_download_key"
| missing_in_requests f1 :
    pd_merge (df_downloads self) (df_signups self)
      "app_download_key" "session_id" = Ok f1 ->
    ~ In "user_id" (columns (df_requests self)) ->
    missing_join_key self "user_id"
| missing_left_of_requests f1 :
    pd_merge (df_downloads self) (df_signups self)
      "app_download_key" "session_id" = Ok f1 ->
    ~ In "user_id" (columns f1) ->
    missing_join_key self "user_id"
| missing_in_transactions f1 f2 :
    pd_merge (df_downloads self) (df_signups self)
      "app_download_key" "session_id" = Ok f1 ->
    pd_merge f1 (df_requests self) "user_id" "user_id" = Ok f2 ->
    ~ In "ride_id" (columns (df_transactions self)) ->
    missing_join_key self "ride_id"
| missing_left_of_transactions f1 f2 :
    pd_merge (df_downloads self) (df_signups self)
      "app_download_key" "session_id" = Ok f1 ->
    pd_merge f1 (df_requests self) "user_id" "user_id" = Ok f2 ->
    ~ In "ride_id" (columns f2) ->
    missing_join_key self "ride_id"
| missing_in_reviews f1 f2 f3 :
    pd_merge (df_downloads self) (df_signups self)
      "app_download_key" "session_id" = Ok f1 ->
    pd_merge f1 (df_requests self) "user_id" "user_id" = Ok f2 ->
    pd_merge f2 (df_transactions self) "ride_id" "ride_id" = Ok f3 ->
    ~ In "ride_id" (columns (df_reviews self)) ->
    missing_join_key self "ride_id"
| missing_left_of_reviews f1 f2 f3 :
    pd_merge (df_downloads self) (df_signups self)
      "app_download_key" "session_id" = Ok f1 ->
    pd_merge f1 (df_requests self) "user_id" "user_id" = Ok f2 ->
    pd_merge f2 (df_transactions self) "ride_id" "ride_id" = Ok f3 ->
    ~ In "ride_id" (columns f3) ->
    missing_join_key self "ride_id".

(** The operations of the handler, as state transformers. *)
Inductive operation : Type :=
| OpRawTables
| OpWarmupStats
| OpMerge
| OpFunnelSteps
| OpDurationQuality
| OpDropoffGap
| OpCancellationReasons
| OpPlatformMetrics
| OpFunnelByAge
| OpSurgeDemand.

Definition state_after (parse_datetime : string -> option Z)
  (op : operation) (self : CityCarDataHandler) : CityCarDataHandler :=
  match op with
  | OpRawTables => snd (get_raw_tables self)
  | OpWarmupStats => snd (get_warmup_stats self)
  | OpMerge => snd (merge_all_data self)
  | OpFunnelSteps => snd (calculate_funnel_steps self)
  | OpDurationQuality => snd (analyze_ride_duration_quality self)
  | OpDropoffGap => snd (analyze_dropoff_gap self)
  | OpCancellationReasons => snd (analyze_cancellation_reasons self)
  | OpPlatformMetrics => snd (get_platform_metrics self)
  | OpFunnelByAge => snd (get_funnel_by_age self)
  | OpSurgeDemand => snd (analyze_surge_demand parse_datetime self)
  end.

Definition is_datetime_cell (c : cell) : bool :=
  match c with
  | None => true
  | Some (VTime _) => true
  | Some _ => false
  end.

(** Column [c] of [df], if present, holds datetimes (or nulls) only: the
    state in which [load_data] leaves the time columns of the requests. *)
Definition datetime_column (df : DataFrame) (c : string) : bool :=
  match getcol df c with
  | Ok s => forallb is_datetime_cell s
  | Err _ => true
  end.

(** The stage names paired with their counts, as the chart consumes them. *)
Definition stage_counts (r : result FunnelData) : result (list (string * nat)) :=
  d <~ r ;; Ok (combine (steps d) (counts d)).

(** ** Example data: three downloads, one signup, one cancelled ride *)

Module Scenario.

Definition str (x : string) : cell := Some (VStr x).
Definition time (x : Z) : cell := Some (VTime x).

Definition downloads : DataFrame :=
  mkDF ["app_download_key"; "platform"]
    [[str "D1"; str "ios"]; [str "D2"; str "ios"]; [str "D3"; str "android"]].

Definition signups : DataFrame :=
  mkDF ["user_id"; "session_id"; "age_range"]
    [[str "U1"; str "D1"; str "18-24"]].

Definition requests (request_ts accept_ts cancel_ts : Z) (pickup_ts : cell)
  : DataFrame :=
  mkDF ["ride_id"; "user_id"; "driver_id"; "request_ts"; "accept_ts";
        "pickup_ts"; "dropoff_ts"; "cancel_ts"]
    [[str "R1"; str "U1"; str "V1"; time request_ts; time accept_ts;
      pickup_ts; None; time cancel_ts]].

Definition transactions : DataFrame :=
  mkDF ["ride_id"; "purchase_amount_usd"; "charge_status"] [].

Definition reviews : DataFrame :=
  mkDF ["review_id"; "ride_id"; "user_id"; "driver_id"] [].

Definition handler (request_ts accept_ts cancel_ts : Z) (pickup_ts : cell)
  : CityCarDataHandler :=
  mkHandler downloads signups
    (requests request_ts accept_ts cancel_ts pickup_ts)
    transactions reviews None.

Definition loaded : CityCarDataHandler := handler 1000 2000 3000 None.

(** The merged table of [loaded], and the state that caches it. *)
Definition funnel : DataFrame :=
  Eval vm_compute in
    match fst (merge_all_data loaded) with
    | Ok f => f
    | Err _ => mkDF [] []
    end.

Definition merged : CityCarDataHandler := set_funnel loaded funnel.

(** A request table with one ride that was dropped off but has no pick-up
    time. *)
Definition no_pickup : CityCarDataHandler :=
  mkHandler downloads signups
    (mkDF ["ride_id"; "user_id"; "driver_id"; "request_ts"; "accept_ts";
           "pickup_ts"; "dropoff_ts"; "cancel_ts"]
       [[str "R1"; str "U1"; str "V1"; time 1000; time 2000;
         None; time 9000; None]])
    transactions reviews None.

(** A request table with one completed ride and no cancellation. *)
Definition completed_only : CityCarDataHandler :=
  mkHandler downloads signups
    (mkDF ["ride_id"; "user_id"; "driver_id"; "request_ts"; "accept_ts";
           "pickup_ts"; "dropoff_ts"; "cancel_ts"]
       [[str "R1"; str "U1"; str "V1"; time 1000; time 2000;
         time 3000; time 9000; None]])
    transactions reviews None.

(** A cached funnel table in which the download keys of two platform
    groups are null. *)
Definition null_keys : CityCarDataHandler :=
  mkHandler downloads signups (requests 1000 2000 3000 None)
    transactions reviews
    (Some (mkDF ["app_download_key"; "platform"; "dropoff_ts"]
             [[None; str "ios"; None]; [None; str "web"; time 9000]])).

(** Downloads only: nobody signed up, so no row has an age range. *)
Definition no_signups : CityCarDataHandler :=
  mkHandler downloads (mkDF ["user_id"; "session_id"; "age_range"] [])
    (mkDF ["ride_id"; "user_id"; "driver_id"; "request_ts"; "accept_ts";
           "pickup_ts"; "dropoff_ts"; "cancel_ts"] [])
    transactions reviews None.


(** Requests whose [request_ts] was not converted yet: an integer and a
    null. *)
Definition raw : CityCarDataHandler :=
  mkHandler downloads signups
    (mkDF ["ride_id"; "request_ts"]
       [[str "R1"; Some (VNum 7200000000000)]; [str "R2"; None]])
    transactions reviews None.

Definition converted : CityCarDataHandler :=
  mkHandler downloads signups
    (mkDF ["ride_id"; "request_ts"]
       [[str "R1"; time 7200000000000]; [str "R2"; None]])
    transactions reviews None.


(** The same tables, except that the signups lost their [session_id]. *)
Definition broken : CityCarDataHandler :=
  mkHandler downloads
    (mkDF ["user_id"; "age_range"] [[str "U1"; str "18-24"]])
    (requests 1000 2000 3000 None) transactions reviews None.

End Scenario.

(** * Properties *)

(** ** Labels and columns *)

Lemma value_eqb_eq (a b : value) : value_eqb a b = true <-> a = b.
Proof.
  destruct a, b; simpl; try (split; [discriminate | congruence]).
  - rewrite String.eqb_eq. split; congruence.
  - rewrite Z.eqb_eq. split; congruence.
  - rewrite Z.eqb_eq. split; congruence.
Qed.

Lemma cell_eqb_eq (a b : cell) : cell_eqb a b = true <-> a = b.
Proof.
  destruct a as [x|], b as [y|]; simpl;
    try (split; [discriminate | congruence]).
  - rewrite value_eqb_eq. split; congruence.
  - split; reflexivity.
Qed.

Lemma index_of_none (c : string) (cs : list string) :
  index_of c cs = None <-> ~ In c cs.
Proof.
  induction cs as [|x t IH]; simpl.
  - split; [intros _ [] | reflexivity].
  - destruct (String.eqb_spec x c) as [->|Hne].
    + split; [discriminate | intros H; exfalso; apply H; now left].
    + destruct (index_of c t) eqn:E.
      * split; [discriminate|].
        intros H. exfalso. apply H. right.
        destruct (in_dec string_dec c t) as [Hin|Hnin]; [exact Hin|].
        apply IH in Hnin. discriminate.
      * split; [|reflexivity].
        intros _ [Heq|Hin]; [congruence|].
        destruct IH as [IH1 _]. now apply IH1.
Qed.

Lemma index_of_some (c : string) (cs : list string) :
  In c cs -> exists i, index_of c cs = Some i.
Proof.
  intros Hin. destruct (index_of c cs) eqn:E; [eauto|].
  apply index_of_none in E. contradiction.
Qed.

Lemma index_of_bound (c : string) (cs : list string) (i : nat) :
  index_of c cs = Some i -> i < length cs /\ nth i cs "" = c.
Proof.
  revert i. induction cs as [|x t IH]; simpl; intros i H; [discriminate|].
  destruct (String.eqb_spec x c) as [->|Hne].
  - inversion H; subst. split; [lia | reflexivity].
  - destruct (index_of c t) eqn:E; [|discriminate].
    inversion H; subst. destruct (IH n eq_refl). split; [lia | assumption].
Qed.

Lemma has_column_In (f : DataFrame) (c : string) :
  has_column f c = true <-> In c (columns f).
Proof.
  unfold has_column. rewrite existsb_exists. split.
  - intros [x [Hin Heq]]. apply String.eqb_eq in Heq. now subst.
  - intros Hin. exists c. split; [assumption | apply String.eqb_refl].
Qed.

Lemma getcol_ok (f : DataFrame) (c : string) :
  In c (columns f) ->
  exists i, index_of c (columns f) = Some i /\
            getcol f c = Ok (map (cell_at i) (rows f)).
Proof.
  intros Hin. destruct (index_of_some _ _ Hin) as [i Hi].
  exists i. unfold getcol. rewrite Hi. split; reflexivity.
Qed.

Lemma getcol_missing (f : DataFrame) (c : string) :
  ~ In c (columns f) -> getcol f c = Err (KeyError c).
Proof.
  intros Hn. apply index_of_none in Hn. unfold getcol. now rewrite Hn.
Qed.

(** ** Row selection by a mask computed from a column *)

Lemma select_rows_filter (f : DataFrame) (p : list cell -> bool) :
  rows (select f (map p (rows f))) = filter p (rows f).
Proof.
  unfold select. simpl. induction (rows f) as [|r t IH]; simpl.
  - reflexivity.
  - destruct (p r); simpl; now rewrite IH.
Qed.

Lemma select_columns (f : DataFrame) (m : list bool) :
  columns (select f m) = columns f.
Proof. reflexivity. Qed.

Lemma mask_and_map {A} (p q : A -> bool) (l : list A) :
  mask_and (map p l) (map q l) = map (fun x => p x && q x) l.
Proof. induction l; simpl; congruence. Qed.

(** ** Distinct values *)

Lemma uniq_In {A} (eqb : A -> A -> bool)
  (Heqb : forall a b, eqb a b = true <-> a = b) (l : list A) (x : A) :
  In x (uniq eqb l) <-> In x l.
Proof.
  induction l as [|a t IH]; simpl; [tauto|].
  rewrite filter_In, IH. split.
  - intros [H|[H _]]; auto.
  - intros [H|H]; auto.
    destruct (eqb a x) eqn:E.
    + left. now apply Heqb.
    + right. split; [assumption | reflexivity].
Qed.

Lemma uniq_NoDup {A} (eqb : A -> A -> bool)
  (Heqb : forall a b, eqb a b = true <-> a = b) (l : list A) :
  NoDup (uniq eqb l).
Proof.
  induction l as [|a t IH]; simpl; constructor.
  - rewrite filter_In. intros [_ H].
    assert (eqb a a = true) as E by now apply Heqb.
    rewrite E in H. discriminate.
  - now apply NoDup_filter.
Qed.

Lemma dropna_In (s : Series) (v : value) : In v (dropna s) <-> In (Some v) s.
Proof.
  induction s as [|[x|] t IH]; simpl; [tauto| |].
  - rewrite IH. split; intros [H|H]; auto; left; congruence.
  - rewrite IH. split; [auto|]. intros [H|H]; [discriminate | assumption].
Qed.

Lemma nunique_distinct (s : Series) :
  NoDup (uniq value_eqb (dropna s)) /\
  forall v, In v (uniq value_eqb (dropna s)) <-> In (Some v) s.
Proof.
  split.
  - apply uniq_NoDup, value_eqb_eq.
  - intros v. rewrite (uniq_In _ value_eqb_eq). apply dropna_In.
Qed.

(** The distinct-count of a column over the rows kept by a mask. *)
Lemma nunique_select (f : DataFrame) (c : string) (p : list cell -> bool) :
  In c (columns f) ->
  exists uid,
    getcol (select f (map p (rows f))) c = Ok uid /\
    distinct_count f c (fun r => p r = true) (nunique uid).
Proof.
  intros Hin. destruct (index_of_some _ _ Hin) as [i Hi].
  exists (map (cell_at i) (filter p (rows f))). split.
  - unfold getcol. rewrite select_columns, Hi, select_rows_filter.
    reflexivity.
  - destruct (nunique_distinct (map (cell_at i) (filter p (rows f))))
      as [Hnd Hin'].
    eexists. split; [exact Hnd|]. split; [reflexivity|].
    intros v. rewrite Hin', in_map_iff. unfold field. rewrite Hi.
    split.
    + intros [r [Hr Hf]]. apply filter_In in Hf. exists r. tauto.
    + intros [r [Hr [Hp Hv]]]. exists r. rewrite filter_In. tauto.
Qed.

Lemma nunique_column (f : DataFrame) (c : string) :
  In c (columns f) ->
  exists col,
    getcol f c = Ok col /\ distinct_count f c (fun _ => True) (nunique col).
Proof.
  intros Hin. destruct (index_of_some _ _ Hin) as [i Hi].
  exists (map (cell_at i) (rows f)). split.
  - unfold getcol. now rewrite Hi.
  - destruct (nunique_distinct (map (cell_at i) (rows f))) as [Hnd Hin'].
    eexists. split; [exact Hnd|]. split; [reflexivity|].
    intros v. rewrite Hin', in_map_iff. unfold field. rewrite Hi.
    split.
    + intros [r [Hr Hf]]. exists r. tauto.
    + intros [r [Hr [_ Hv]]]. exists r. tauto.
Qed.

Lemma distinct_count_ext (f : DataFrame) (c : string)
  (keep keep' : list cell -> Prop) (n : nat) :
  (forall r, keep r <-> keep' r) ->
  distinct_count f c keep n -> distinct_count f c keep' n.
Proof.
  intros Hext [vs [Hnd [Hlen Hin]]]. exists vs. split; [assumption|].
  split; [assumption|]. intros v. rewrite Hin.
  split; intros [r [Hr [Hk Hv]]]; exists r; rewrite Hext in *; tauto.
Qed.

Lemma notna_cell_true (c : cell) : notna_cell c = true <-> c <> None.
Proof. destruct c; simpl; split; congruence. Qed.

Lemma cell_eq_scalar_true (v : value) (c : cell) :
  cell_eq_scalar v c = true <-> c = Some v.
Proof.
  destruct c as [x|]; simpl.
  - rewrite value_eqb_eq. split; congruence.
  - split; discriminate.
Qed.

Lemma has_columns_In (f : DataFrame) (cs : list string) (c : string) :
  has_columns f cs = true -> In c cs -> In c (columns f).
Proof.
  unfold has_columns. rewrite forallb_forall. intros H Hin.
  apply has_column_In. now apply H.
Qed.

(** Distinct users over the rows in which column [c] passes the test [t]. *)
Lemma stage_count (f : DataFrame) (c : string) (t : cell -> bool) :
  In c (columns f) -> In "user_id" (columns f) ->
  exists col uid,
    getcol f c = Ok col /\
    getcol (select f (map t col)) "user_id" = Ok uid /\
    distinct_count f "user_id" (fun r => t (field f c r) = true)
      (nunique uid).
Proof.
  intros Hc Hu. destruct (getcol_ok f c Hc) as [i [Hi Hg]].
  destruct (nunique_select f "user_id" (fun r => t (cell_at i r)) Hu)
    as [uid [Hsel Hd]].
  exists (map (cell_at i) (rows f)), uid. split; [assumption|].
  rewrite map_map. split; [assumption|].
  eapply distinct_count_ext; [|exact Hd].
  intros r. unfold field. rewrite Hi. tauto.
Qed.

(** ** Funnel stages *)

(** C2. On a merged funnel table that carries the seven analysed columns,
    [calculate_funnel_steps] returns seven stages in the order Downloads,
    Signups, Requests, Accepted, Completed, Payment, Reviews.  The first count
    is the number of distinct download keys, the second the number of distinct
    non-null users, and the others the number of distinct users over the rows
    whose request, accept, drop-off time stamp or review id is non-null, or
    whose charge status is exactly the string "Approved". *)
Theorem funnel_steps_counts
  (self self' : CityCarDataHandler) (f : DataFrame) :
  funnel_table self = (Ok f, self') ->
  has_columns f funnel_step_columns = true ->
  exists (n1 n2 n3 n4 n5 n6 n7 : nat) (d : FunnelData),
    calculate_funnel_steps self = (Ok d, self') /\
    combine (steps d) (counts d) =
      [("Downloads", n1); ("Signups", n2); ("Requests", n3);
       ("Accepted", n4); ("Completed", n5); ("Payment", n6);
       ("Reviews", n7)] /\
    length (steps d) = 7 /\ length (counts d) = 7 /\
    distinct_count f "app_download_key" (fun _ => True) n1 /\
    distinct_count f "user_id" (fun _ => True) n2 /\
    distinct_count f "user_id" (fun r => field f "request_ts" r <> None) n3 /\
    distinct_count f "user_id" (fun r => field f "accept_ts" r <> None) n4 /\
    distinct_count f "user_id" (fun r => field f "dropoff_ts" r <> None) n5 /\
    distinct_count f "user_id"
      (fun r => field f "charge_status" r = Some (VStr "Approved")) n6 /\
    distinct_count f "user_id" (fun r => field f "review_id" r <> None) n7.
Proof.
  intros Hf Hcols.
  assert (forall c, In c funnel_step_columns -> In c (columns f)) as Hin
    by (intros c; apply has_columns_In; assumption).
  assert (In "user_id" (columns f)) as Hu by (apply Hin; simpl; tauto).
  destruct (nunique_column f "app_download_key") as [key [Gkey D1]];
    [apply Hin; simpl; tauto|].
  destruct (nunique_column f "user_id" Hu) as [uid [Guid D2]].
  destruct (stage_count f "request_ts" notna_cell) as [c3 [u3 [G3 [S3 D3]]]];
    [apply Hin; simpl; tauto | assumption |].
  destruct (stage_count f "accept_ts" notna_cell) as [c4 [u4 [G4 [S4 D4]]]];
    [apply Hin; simpl; tauto | assumption |].
  destruct (stage_count f "dropoff_ts" notna_cell) as [c5 [u5 [G5 [S5 D5]]]];
    [apply Hin; simpl; tauto | assumption |].
  destruct (stage_count f "charge_status" (cell_eq_scalar (VStr "Approved")))
    as [c6 [u6 [G6 [S6 D6]]]];
    [apply Hin; simpl; tauto | assumption |].
  destruct (stage_count f "review_id" notna_cell) as [c7 [u7 [G7 [S7 D7]]]];
    [apply Hin; simpl; tauto | assumption |].
  exists (nunique key), (nunique uid), (nunique u3), (nunique u4),
    (nunique u5), (nunique u6), (nunique u7).
  eexists. split.
  - unfold calculate_funnel_steps, bind, lift. rewrite Hf.
    unfold notna, eq_scalar.
    rewrite Gkey, Guid, G3; simpl rbind. rewrite S3, G4; simpl rbind.
    rewrite S4, G5; simpl rbind. rewrite S5, G6; simpl rbind.
    rewrite S6, G7; simpl rbind. rewrite S7; simpl rbind.
    reflexivity.
  - simpl. repeat (split; [reflexivity|]).
    split; [exact D1|]. split; [exact D2|].
    split; [eapply distinct_count_ext; [|exact D3];
            intros r; apply notna_cell_true|].
    split; [eapply distinct_count_ext; [|exact D4];
            intros r; apply notna_cell_true|].
    split; [eapply distinct_count_ext; [|exact D5];
            intros r; apply notna_cell_true|].
    split; [eapply distinct_count_ext; [|exact D6];
            intros r; apply cell_eq_scalar_true|].
    eapply distinct_count_ext; [|exact D7].
    intros r; apply notna_cell_true.
Qed.

Lemma funnel_steps_counts_witness :
  exists (n1 n2 n3 n4 n5 n6 n7 : nat) (d : FunnelData),
    calculate_funnel_steps Scenario.loaded = (Ok d, Scenario.merged) /\
    combine (steps d) (counts d) =
      [("Downloads", n1); ("Signups", n2); ("Requests", n3);
       ("Accepted", n4); ("Completed", n5); ("Payment", n6);
       ("Reviews", n7)] /\
    length (steps d) = 7 /\ length (counts d) = 7 /\
    distinct_count Scenario.funnel "app_download_key" (fun _ => True) n1 /\
    distinct_count Scenario.funnel "user_id" (fun _ => True) n2 /\
    distinct_count Scenario.funnel "user_id"
      (fun r => field Scenario.funnel "request_ts" r <> None) n3 /\
    distinct_count Scenario.funnel "user_id"
      (fun r => field Scenario.funnel "accept_ts" r <> None) n4 /\
    distinct_count Scenario.funnel "user_id"
      (fun r => field Scenario.funnel "dropoff_ts" r <> None) n5 /\
    distinct_count Scenario.funnel "user_id"
      (fun r => field Scenario.funnel "charge_status" r
                = Some (VStr "Approved")) n6 /\
    distinct_count Scenario.funnel "user_id"
      (fun r => field Scenario.funnel "review_id" r <> None) n7.
Proof.
  apply (funnel_steps_counts Scenario.loaded Scenario.merged Scenario.funnel).
  - reflexivity.
  - reflexivity.
Defined.

(** C6. Three downloads (D1, D2, D3 on ios, ios, android), one signup mapping
    D1 to U1, and one request of U1 that was requested, accepted and
    cancelled but never dropped off: the funnel counts are 3, 1, 1, 1, 0, 0, 0
    and the drop-off analysis reports one problem ride, one cancellation and
    a rate of 100 percent.  The three time stamps and the pick-up cell are
    arbitrary. *)
Theorem scenario_funnel_and_dropoff
  (request_ts accept_ts cancel_ts : Z) (pickup_ts : cell) :
  let self := Scenario.handler request_ts accept_ts cancel_ts pickup_ts in
  stage_counts (fst (calculate_funnel_steps self)) =
    Ok [("Downloads", 3); ("Signups", 1); ("Requests", 1); ("Accepted", 1);
        ("Completed", 0); ("Payment", 0); ("Reviews", 0)] /\
  fst (analyze_dropoff_gap self) = Ok (mkDropoff 1 1 (Some (100 # 1)%Q)).
Proof.
  intros self. split; reflexivity.
Qed.

(** ** Left joins *)

Lemma pd_merge_inv (left right : DataFrame) (lk rk : string)
  (out : DataFrame) :
  pd_merge left right lk rk = Ok out ->
  exists i j,
    index_of lk (columns left) = Some i /\
    index_of rk (columns right) = Some j /\
    columns out =
      suffix_overlap "_x" (right_part (String.eqb lk rk) j (columns right))
        (columns left)
      ++ suffix_overlap "_y" (columns left)
           (right_part (String.eqb lk rk) j (columns right)) /\
    rows out =
      flat_map
        (join_row i j (String.eqb lk rk)
           (length (right_part (String.eqb lk rk) j (columns right)))
           (rows right))
        (rows left).
Proof.
  unfold pd_merge. intros H.
  destruct (index_of rk (columns right)) as [j|]; [|discriminate].
  destruct (index_of lk (columns left)) as [i|]; [|discriminate].
  inversion H; subst; clear H. exists i, j. simpl. auto.
Qed.

Lemma pd_merge_keys (left right : DataFrame) (lk rk : string) :
  In lk (columns left) -> In rk (columns right) ->
  exists out, pd_merge left right lk rk = Ok out.
Proof.
  intros Hl Hr. unfold pd_merge.
  destruct (index_of_some _ _ Hr) as [j ->].
  destruct (index_of_some _ _ Hl) as [i ->]. eauto.
Qed.

Lemma pd_merge_missing_right (left right : DataFrame) (lk rk : string) :
  ~ In rk (columns right) -> pd_merge left right lk rk = Err (KeyError rk).
Proof.
  intros H. apply index_of_none in H. unfold pd_merge. now rewrite H.
Qed.

Lemma pd_merge_missing_left (left right : DataFrame) (lk rk : string) :
  In rk (columns right) -> ~ In lk (columns left) ->
  pd_merge left right lk rk = Err (KeyError lk).
Proof.
  intros Hr Hl. apply index_of_none in Hl. unfold pd_merge.
  destruct (index_of_some _ _ Hr) as [j ->]. now rewrite Hl.
Qed.

Lemma suffix_overlap_length (sfx : string) (others cs : list string) :
  length (suffix_overlap sfx others cs) = length cs.
Proof. apply length_map. Qed.

Lemma join_row_length (i j : nat) (same : bool) (w : nat)
  (rr : list (list cell)) (x : list cell) :
  1 <= length (join_row i j same w rr x).
Proof.
  unfold join_row.
  destruct (filter _ rr); simpl; lia.
Qed.

Lemma join_row_prefix (i j : nat) (same : bool) (w : nat)
  (rr : list (list cell)) (x o : list cell) :
  In o (join_row i j same w rr x) -> exists t, o = x ++ t.
Proof.
  unfold join_row. destruct (filter _ rr) as [|m ms].
  - intros [<-|[]]. eauto.
  - intros H. apply in_map_iff in H. destruct H as [r [<- _]]. eauto.
Qed.

Lemma join_row_extends (i j : nat) (same : bool) (w : nat)
  (rr : list (list cell)) (x : list cell) :
  exists t, In (x ++ t) (join_row i j same w rr x).
Proof.
  unfold join_row. destruct (filter _ rr) as [|m ms].
  - eexists. left. reflexivity.
  - eexists. left. reflexivity.
Qed.

Lemma join_row_unmatched (i j : nat) (same : bool) (w : nat)
  (rr : list (list cell)) (x : list cell) :
  (forall y, In y rr -> cell_at i x <> cell_at j y) ->
  join_row i j same w rr x = [x ++ repeat None w].
Proof.
  intros H. unfold join_row.
  destruct (filter _ rr) as [|m ms] eqn:E; [reflexivity|].
  assert (In m (filter (fun r => cell_eqb (cell_at i x) (cell_at j r)) rr))
    as Hm by (rewrite E; now left).
  apply filter_In in Hm. destruct Hm as [Hin Heq].
  apply cell_eqb_eq in Heq. exfalso. exact (H m Hin Heq).
Qed.

Lemma flat_map_length_ge {A B} (g : A -> list B) (l : list A) :
  (forall a, 1 <= length (g a)) -> length l <= length (flat_map g l).
Proof.
  intros Hg. induction l as [|a t IH]; simpl; [lia|].
  rewrite length_app. specialize (Hg a). lia.
Qed.

Lemma pd_merge_complete (left right : DataFrame) (lk rk : string)
  (out : DataFrame) :
  pd_merge left right lk rk = Ok out ->
  left_join_complete left right lk rk out.
Proof.
  intros H. destruct (pd_merge_inv _ _ _ _ _ H) as [i [j [Hi [Hj [Hc Hr]]]]].
  unfold left_join_complete, len. rewrite Hr. split.
  - apply flat_map_length_ge. intros a. apply join_row_length.
  - intros x Hx. split.
    + destruct (join_row_extends i j (String.eqb lk rk)
                  (length (right_part (String.eqb lk rk) j (columns right)))
                  (rows right) x) as [t Ht].
      exists t. apply in_flat_map. eauto.
    + intros Hno. apply in_flat_map. exists x. split; [assumption|].
      rewrite join_row_unmatched.
      * left. f_equal. f_equal. rewrite Hc, length_app.
        rewrite !suffix_overlap_length. lia.
      * intros y Hy. specialize (Hno y Hy). unfold field in Hno.
        now rewrite Hi, Hj in Hno.
Qed.

(** Every output row of a left join extends a left row. *)
Lemma pd_merge_rows_from_left (left right : DataFrame) (lk rk : string)
  (out : DataFrame) :
  pd_merge left right lk rk = Ok out ->
  forall o, In o (rows out) -> exists x t, In x (rows left) /\ o = x ++ t.
Proof.
  intros H o Ho.
  destruct (pd_merge_inv _ _ _ _ _ H) as [i [j [_ [_ [_ Hr]]]]].
  rewrite Hr in Ho. apply in_flat_map in Ho. destruct Ho as [x [Hx Hin]].
  apply join_row_prefix in Hin. destruct Hin as [t ->]. eauto.
Qed.

(** ** The merge chain *)

Lemma merge_all_data_unfold (self : CityCarDataHandler) :
  merge_all_data self =
  match pd_merge (df_downloads self) (df_signups self)
          "app_download_key" "session_id" with
  | Err e => (Err e, self)
  | Ok f1 =>
    match pd_merge f1 (df_requests self) "user_id" "user_id" with
    | Err e => (Err e, set_funnel self f1)
    | Ok f2 =>
      match pd_merge f2 (df_transactions self) "ride_id" "ride_id" with
      | Err e => (Err e, set_funnel self f2)
      | Ok f3 =>
        match pd_merge f3 (df_reviews self) "ride_id" "ride_id" with
        | Err e => (Err e, set_funnel self f3)
        | Ok f4 => (Ok (repair_names f4), set_funnel self (repair_names f4))
        end
      end
    end
  end.
Proof.
  unfold merge_all_data, bind, get, lift, assign_funnel, ret. simpl.
  destruct (pd_merge (df_downloads self) (df_signups self) _ _) as [f1|e];
    [|reflexivity]. simpl.
  destruct (pd_merge f1 (df_requests self) _ _) as [f2|e]; [|reflexivity].
  simpl.
  destruct (pd_merge f2 (df_transactions self) _ _) as [f3|e]; [|reflexivity].
  simpl.
  destruct (pd_merge f3 (df_reviews self) _ _) as [f4|e]; reflexivity.
Qed.

Lemma merge_all_data_inv (self self' : CityCarDataHandler) (f : DataFrame) :
  merge_all_data self = (Ok f, self') ->
  exists f1 f2 f3 f4,
    pd_merge (df_downloads self) (df_signups self)
      "app_download_key" "session_id" = Ok f1 /\
    pd_merge f1 (df_requests self) "user_id" "user_id" = Ok f2 /\
    pd_merge f2 (df_transactions self) "ride_id" "ride_id" = Ok f3 /\
    pd_merge f3 (df_reviews self) "ride_id" "ride_id" = Ok f4 /\
    f = repair_names f4 /\ self' = set_funnel self f.
Proof.
  rewrite merge_all_data_unfold. intros H.
  destruct (pd_merge (df_downloads self) _ _ _) as [f1|e] eqn:E1;
    [|discriminate].
  destruct (pd_merge f1 _ _ _) as [f2|e] eqn:E2; [|discriminate].
  destruct (pd_merge f2 _ _ _) as [f3|e] eqn:E3; [|discriminate].
  destruct (pd_merge f3 _ _ _) as [f4|e] eqn:E4; [|discriminate].
  inversion H; subst. exists f1, f2, f3, f4.
  repeat (split; [assumption || reflexivity|]). reflexivity.
Qed.

Lemma repair_names_rows (f : DataFrame) : rows (repair_names f) = rows f.
Proof.
  unfold repair_names.
  destruct (has_column f "driver_id_x");
    destruct (has_column _ "user_id_x"); reflexivity.
Qed.

(** C3. When the merge succeeds, each of its four left joins is complete
    for its left table (no fewer rows, every left row kept, nulls where the
    key has no match), so the row count never decreases along the chain, the
    merged table has at least as many rows as the download table, and every
    download row is the beginning of some row of the merged table. *)
Theorem merge_keeps_every_download
  (self self' : CityCarDataHandler) (f : DataFrame) :
  merge_all_data self = (Ok f, self') ->
  exists f1 f2 f3 f4,
    pd_merge (df_downloads self) (df_signups self)
      "app_download_key" "session_id" = Ok f1 /\
    pd_merge f1 (df_requests self) "user_id" "user_id" = Ok f2 /\
    pd_merge f2 (df_transactions self) "ride_id" "ride_id" = Ok f3 /\
    pd_merge f3 (df_reviews self) "ride_id" "ride_id" = Ok f4 /\
    rows f = rows f4 /\
    left_join_complete (df_downloads self) (df_signups self)
      "app_download_key" "session_id" f1 /\
    left_join_complete f1 (df_requests self) "user_id" "user_id" f2 /\
    left_join_complete f2 (df_transactions self) "ride_id" "ride_id" f3 /\
    left_join_complete f3 (df_reviews self) "ride_id" "ride_id" f4 /\
    len (df_downloads self) <= len f1 /\ len f1 <= len f2 /\
    len f2 <= len f3 /\ len f3 <= len f4 /\
    len (df_downloads self) <= len f /\
    forall d, In d (rows (df_downloads self)) ->
              exists t, In (d ++ t) (rows f).
Proof.
  intros H.
  destruct (merge_all_data_inv _ _ _ H)
    as [f1 [f2 [f3 [f4 [H1 [H2 [H3 [H4 [Hf _]]]]]]]]].
  pose proof (pd_merge_complete _ _ _ _ _ H1) as C1.
  pose proof (pd_merge_complete _ _ _ _ _ H2) as C2.
  pose proof (pd_merge_complete _ _ _ _ _ H3) as C3.
  pose proof (pd_merge_complete _ _ _ _ _ H4) as C4.
  assert (rows f = rows f4) as Hrows by (subst f; apply repair_names_rows).
  exists f1, f2, f3, f4.
  repeat (split; [assumption|]).
  destruct C1 as [L1 K1], C2 as [L2 K2], C3 as [L3 K3], C4 as [L4 K4].
  repeat (split; [assumption|]).
  split; [unfold len in *; rewrite Hrows; lia|].
  intros d Hd.
  destruct (K1 d Hd) as [[t1 T1] _].
  destruct (K2 _ T1) as [[t2 T2] _].
  destruct (K3 _ T2) as [[t3 T3] _].
  destruct (K4 _ T3) as [[t4 T4] _].
  exists (t1 ++ t2 ++ t3 ++ t4). rewrite Hrows.
  now rewrite !app_assoc in *.
Qed.

Lemma merge_keeps_every_download_witness :
  exists f1 f2 f3 f4,
    pd_merge (df_downloads Scenario.loaded) (df_signups Scenario.loaded)
      "app_download_key" "session_id" = Ok f1 /\
    pd_merge f1 (df_requests Scenario.loaded) "user_id" "user_id" = Ok f2 /\
    pd_merge f2 (df_transactions Scenario.loaded) "ride_id" "ride_id"
      = Ok f3 /\
    pd_merge f3 (df_reviews Scenario.loaded) "ride_id" "ride_id" = Ok f4 /\
    rows Scenario.funnel = rows f4 /\
    left_join_complete (df_downloads Scenario.loaded)
      (df_signups Scenario.loaded) "app_download_key" "session_id" f1 /\
    left_join_complete f1 (df_requests Scenario.loaded)
      "user_id" "user_id" f2 /\
    left_join_complete f2 (df_transactions Scenario.loaded)
      "ride_id" "ride_id" f3 /\
    left_join_complete f3 (df_reviews Scenario.loaded)
      "ride_id" "ride_id" f4 /\
    len (df_downloads Scenario.loaded) <= len f1 /\ len f1 <= len f2 /\
    len f2 <= len f3 /\ len f3 <= len f4 /\
    len (df_downloads Scenario.loaded) <= len Scenario.funnel /\
    forall d, In d (rows (df_downloads Scenario.loaded)) ->
              exists t, In (d ++ t) (rows Scenario.funnel).
Proof.
  apply (merge_keeps_every_download Scenario.loaded Scenario.merged
           Scenario.funnel).
  reflexivity.
Defined.

(** ** What the operations leave untouched *)

Lemma merge_all_data_inputs (self : CityCarDataHandler) :
  inputs (snd (merge_all_data self)) = inputs self.
Proof.
  rewrite merge_all_data_unfold.
  destruct (pd_merge (df_downloads self) _ _ _) as [f1|e]; [|reflexivity].
  destruct (pd_merge f1 _ _ _) as [f2|e]; [|reflexivity].
  destruct (pd_merge f2 _ _ _) as [f3|e]; [|reflexivity].
  destruct (pd_merge f3 _ _ _) as [f4|e]; reflexivity.
Qed.

Lemma funnel_table_inputs (self : CityCarDataHandler) :
  inputs (snd (funnel_table self)) = inputs self.
Proof.
  unfold funnel_table, bind, get. simpl.
  destruct (df_funnel self); [reflexivity | apply merge_all_data_inputs].
Qed.

(** A method that builds the funnel table if needed and then only computes
    leaves the object as the build left it. *)
Lemma bind_lift_state {A B} (m : M A) (g : A -> result B)
  (self : CityCarDataHandler) :
  snd (bind m (fun a => lift (g a)) self) = snd (m self).
Proof.
  unfold bind, lift. destruct (m self) as [[a|e] self']; reflexivity.
Qed.

(** The analyses of the request table read nothing else. *)
Lemma duration_quality_reads_requests (s1 s2 : CityCarDataHandler) :
  df_requests s1 = df_requests s2 ->
  fst (analyze_ride_duration_quality s1)
  = fst (analyze_ride_duration_quality s2).
Proof.
  intros H. unfold analyze_ride_duration_quality, bind, get, lift, ret.
  simpl. rewrite H. destruct (ride_durations (df_requests s2)); reflexivity.
Qed.

Lemma dropoff_gap_reads_requests (s1 s2 : CityCarDataHandler) :
  df_requests s1 = df_requests s2 ->
  fst (analyze_dropoff_gap s1) = fst (analyze_dropoff_gap s2).
Proof.
  intros H. unfold analyze_dropoff_gap, bind, get, lift. simpl.
  now rewrite H.
Qed.

Lemma cancellation_reasons_reads_requests (s1 s2 : CityCarDataHandler) :
  df_requests s1 = df_requests s2 ->
  fst (analyze_cancellation_reasons s1)
  = fst (analyze_cancellation_reasons s2).
Proof.
  intros H. unfold analyze_cancellation_reasons, bind, get, lift. simpl.
  now rewrite H.
Qed.

Lemma surge_demand_reads_requests (parse : string -> option Z)
  (s1 s2 : CityCarDataHandler) :
  df_requests s1 = df_requests s2 ->
  fst (analyze_surge_demand parse s1) = fst (analyze_surge_demand parse s2).
Proof.
  intros H.
  unfold analyze_surge_demand, bind, get, lift, ret, assign_requests.
  simpl. rewrite H.
  destruct (getcol (df_requests s2) "request_ts") as [ts|e]; [|reflexivity].
  destruct (to_datetime parse ts) as [conv|e]; [|reflexivity].
  simpl.
  destruct (project1 _ "request_ts") as [tmp|e]; [|reflexivity].
  destruct (getcol tmp "request_ts") as [ts'|e]; [|reflexivity].
  destruct (dt_hour ts') as [h|e]; reflexivity.
Qed.

Lemma inputs_requests (s1 s2 : CityCarDataHandler) :
  inputs s1 = inputs s2 -> df_requests s1 = df_requests s2.
Proof. unfold inputs. intros H. now inversion H. Qed.

(** ** Missing join keys *)

(** C4. If a join of the chain misses one of its key columns on the side
    where it looks for it, [merge_all_data] raises [KeyError] naming a
    missing key column of that join.  The exception reaches the caller; the
    five input tables are as before, and the analyses of the request table
    give the same results after the failed merge as before it. *)
Theorem merge_fails_on_missing_key (self : CityCarDataHandler) (c : string) :
  missing_join_key self c ->
  exists c',
    missing_join_key self c' /\
    fst (merge_all_data self) = Err (KeyError c') /\
    inputs (snd (merge_all_data self)) = inputs self /\
    fst (analyze_ride_duration_quality (snd (merge_all_data self)))
      = fst (analyze_ride_duration_quality self) /\
    fst (analyze_dropoff_gap (snd (merge_all_data self)))
      = fst (analyze_dropoff_gap self) /\
    fst (analyze_cancellation_reasons (snd (merge_all_data self)))
      = fst (analyze_cancellation_reasons self) /\
    forall parse,
      fst (analyze_surge_demand parse (snd (merge_all_data self)))
      = fst (analyze_surge_demand parse self).
Proof.
  intros Hmiss.
  assert (exists c', missing_join_key self c' /\
                     fst (merge_all_data self) = Err (KeyError c'))
    as [c' [Hc' Herr]].
  { rewrite merge_all_data_unfold.
    destruct Hmiss as [Hs | Hd | f1 E1 Hr | f1 E1 Hl | f1 f2 E1 E2 Hr
                      | f1 f2 E1 E2 Hl | f1 f2 f3 E1 E2 E3 Hr
                      | f1 f2 f3 E1 E2 E3 Hl].
    - exists "session_id". split; [now constructor|].
      now rewrite pd_merge_missing_right.
    - destruct (in_dec string_dec "session_id" (columns (df_signups self)))
        as [Hin|Hnin].
      + exists "app_download_key". split; [now constructor|].
        now rewrite pd_merge_missing_left.
      + exists "session_id". split; [now constructor|].
        now rewrite pd_merge_missing_right.
    - exists "user_id". split; [now apply (missing_in_requests self f1)|].
      rewrite E1. now rewrite pd_merge_missing_right.
    - exists "user_id".
      split; [now apply (missing_left_of_requests self f1)|].
      rewrite E1.
      destruct (in_dec string_dec "user_id" (columns (df_requests self))).
      + now rewrite pd_merge_missing_left.
      + now rewrite pd_merge_missing_right.
    - exists "ride_id".
      split; [now apply (missing_in_transactions self f1 f2)|].
      rewrite E1, E2. now rewrite pd_merge_missing_right.
    - exists "ride_id".
      split; [now apply (missing_left_of_transactions self f1 f2)|].
      rewrite E1, E2.
      destruct (in_dec string_dec "ride_id"
                  (columns (df_transactions self))).
      + now rewrite pd_merge_missing_left.
      + now rewrite pd_merge_missing_right.
    - exists "ride_id".
      split; [now apply (missing_in_reviews self f1 f2 f3)|].
      rewrite E1, E2, E3. now rewrite pd_merge_missing_right.
    - exists "ride_id".
      split; [now apply (missing_left_of_reviews self f1 f2 f3)|].
      rewrite E1, E2, E3.
      destruct (in_dec string_dec "ride_id" (columns (df_reviews self))).
      + now rewrite pd_merge_missing_left.
      + now rewrite pd_merge_missing_right. }
  pose proof (merge_all_data_inputs self) as Hin.
  pose proof (inputs_requests _ _ Hin) as Hreq.
  exists c'. split; [assumption|]. split; [assumption|].
  split; [assumption|].
  split; [now apply duration_quality_reads_requests|].
  split; [now apply dropoff_gap_reads_requests|].
  split; [now apply cancellation_reasons_reads_requests|].
  intros parse. now apply surge_demand_reads_requests.
Qed.


Lemma merge_fails_on_missing_key_witness :
  exists c',
    missing_join_key Scenario.broken c' /\
    fst (merge_all_data Scenario.broken) = Err (KeyError c') /\
    inputs (snd (merge_all_data Scenario.broken)) = inputs Scenario.broken /\
    fst (analyze_ride_duration_quality (snd (merge_all_data Scenario.broken)))
      = fst (analyze_ride_duration_quality Scenario.broken) /\
    fst (analyze_dropoff_gap (snd (merge_all_data Scenario.broken)))
      = fst (analyze_dropoff_gap Scenario.broken) /\
    fst (analyze_cancellation_reasons (snd (merge_all_data Scenario.broken)))
      = fst (analyze_cancellation_reasons Scenario.broken) /\
    forall parse,
      fst (analyze_surge_demand parse (snd (merge_all_data Scenario.broken)))
      = fst (analyze_surge_demand parse Scenario.broken).
Proof.
  apply (merge_fails_on_missing_key Scenario.broken "session_id").
  apply missing_in_signups. simpl.
  intros [H|[H|[]]]; discriminate H.
Defined.

(** The failed merge of the example raises at the first join, and the demand
    histogram is still available afterwards. *)
Example broken_merge_then_demand :
  fst (merge_all_data Scenario.broken) = Err (KeyError "session_id") /\
  fst (analyze_surge_demand (fun _ => None)
         (snd (merge_all_data Scenario.broken))) = Ok [(0%Z, 1)].
Proof. split; reflexivity. Qed.

(** ** Re-converting a datetime column *)

Lemma to_datetime_idempotent (parse : string -> option Z) (s : Series) :
  forallb is_datetime_cell s = true -> to_datetime parse s = Ok s.
Proof.
  unfold to_datetime. induction s as [|c t IH]; simpl; [reflexivity|].
  intros H. apply andb_true_iff in H. destruct H as [Hc Ht].
  rewrite (IH Ht). destruct c as [[s'|n|ns]|]; simpl in *;
    try discriminate; reflexivity.
Qed.

Lemma set_nth_same (i : nat) (r : list cell) :
  set_nth i (cell_at i r) r = r.
Proof.
  unfold cell_at. revert i. induction r as [|x t IH]; intros i.
  - now destruct i.
  - destruct i as [|i']; [reflexivity|]. simpl. now rewrite IH.
Qed.

Lemma map2_set_nth_same (i : nat) (rs : list (list cell)) :
  map2 (set_nth i) (map (cell_at i) rs) rs = rs.
Proof.
  induction rs as [|r t IH]; simpl; [reflexivity|].
  now rewrite set_nth_same, IH.
Qed.

Lemma set_column_same (df : DataFrame) (c : string) (s : Series) :
  getcol df c = Ok s -> set_column df c s = df.
Proof.
  unfold getcol, set_column.
  destruct (index_of c (columns df)) as [i|]; [|discriminate].
  intros H. inversion H; subst. rewrite map2_set_nth_same.
  now destruct df.
Qed.

Lemma set_requests_same (self : CityCarDataHandler) :
  set_requests self (df_requests self) = self.
Proof. now destruct self. Qed.

Lemma surge_demand_state (parse : string -> option Z)
  (self : CityCarDataHandler) :
  datetime_column (df_requests self) "request_ts" = true ->
  snd (analyze_surge_demand parse self) = self.
Proof.
  unfold datetime_column, analyze_surge_demand.
  unfold bind, get, lift, ret, assign_requests. simpl.
  destruct (getcol (df_requests self) "request_ts") as [ts|e] eqn:G;
    [|reflexivity].
  intros Hdt. rewrite (to_datetime_idempotent parse ts Hdt).
  rewrite (set_column_same _ _ _ G), set_requests_same. simpl.
  destruct (project1 _ "request_ts") as [tmp|e]; [|reflexivity].
  destruct (getcol tmp "request_ts") as [ts'|e]; [|reflexivity].
  destruct (dt_hour ts') as [h|e]; reflexivity.
Qed.

(** C9. On a handler whose requests carry datetimes in [request_ts] (the
    state after loading), no operation (the accessor of the raw tables, the
    warm-up statistics, the merge, or any of the seven analyses) changes any
    of the five input tables:
    whatever the operation returns or raises, the only field of the object
    that can differ afterwards is the cached funnel table. *)
Theorem operations_preserve_inputs (parse : string -> option Z)
  (op : operation) (self : CityCarDataHandler) :
  datetime_column (df_requests self) "request_ts" = true ->
  inputs (state_after parse op self) = inputs self.
Proof.
  intros Hdt. destruct op; cbn [state_after].
  - reflexivity.
  - unfold get_warmup_stats, bind, get. simpl. reflexivity.
  - apply merge_all_data_inputs.
  - unfold calculate_funnel_steps. rewrite bind_lift_state.
    apply funnel_table_inputs.
  - unfold analyze_ride_duration_quality, bind, get, lift, ret. simpl.
    destruct (ride_durations (df_requests self)); reflexivity.
  - unfold analyze_dropoff_gap. now rewrite bind_lift_state.
  - unfold analyze_cancellation_reasons. now rewrite bind_lift_state.
  - unfold get_platform_metrics. rewrite bind_lift_state.
    apply funnel_table_inputs.
  - unfold get_funnel_by_age. rewrite bind_lift_state.
    apply funnel_table_inputs.
  - now rewrite surge_demand_state.
Qed.

Lemma operations_preserve_inputs_witness :
  datetime_column (df_requests Scenario.loaded) "request_ts" = true /\
  inputs (state_after (fun _ => None) OpSurgeDemand Scenario.loaded)
  = inputs Scenario.loaded.
Proof.
  split.
  - reflexivity.
  - apply (operations_preserve_inputs (fun _ => None) OpSurgeDemand
             Scenario.loaded).
    reflexivity.
Defined.

Example warmup_stats_of_scenario :
  fst (get_warmup_stats Scenario.loaded)
  = Ok (mkWarmup 3 1 1 0 1 None 1 0
          [(VStr "ios", 2); (VStr "android", 1)]).
Proof. reflexivity. Qed.

(** Without that precondition the write of [analyze_surge_demand] is
    visible: an integer column is replaced by time stamps. *)
Example surge_demand_converts_raw_column :
  let raw := mkHandler Scenario.downloads Scenario.signups
               (mkDF ["request_ts"] [[Some (VNum 5)]])
               Scenario.transactions Scenario.reviews None in
  df_requests (snd (analyze_surge_demand (fun _ => None) raw))
  = mkDF ["request_ts"] [[Some (VTime 5)]].
Proof. reflexivity. Qed.

(** ** Column labels after a join *)

Lemma append_length (a b : string) :
  String.length (String.append a b) = String.length a + String.length b.
Proof. induction a as [|x a IH]; simpl; [reflexivity | now rewrite IH]. Qed.

Lemma append_inj_suffix (a b s : string) :
  String.append a s = String.append b s -> a = b.
Proof.
  revert b. induction a as [|x a IH]; intros [|y b] H; simpl in H.
  - reflexivity.
  - apply (f_equal String.length) in H. simpl in H.
    rewrite append_length in H. lia.
  - apply (f_equal String.length) in H. simpl in H.
    rewrite append_length in H. lia.
  - injection H as Hxy Hab. f_equal; [assumption | now apply IH].
Qed.

Ltac suffix_clash H c :=
  destruct c as [|? c]; simpl in H;
  [ discriminate H
  | first [ discriminate H | injection H as _ H; suffix_clash H c ] ].

Lemma user_id_no_x (c : string) : String.append c "_x" <> "user_id".
Proof. intros H. suffix_clash H c. Qed.

Lemma driver_id_no_x (c : string) : String.append c "_x" <> "driver_id".
Proof. intros H. suffix_clash H c. Qed.

Lemma rename_if_present (f : DataFrame) (old new : string) :
  columns (if has_column f old then rename_column f old new else f)
  = map (rename_label old new) (columns f).
Proof.
  destruct (has_column f old) eqn:E; [reflexivity|].
  rewrite <- (map_id (columns f)) at 1. apply map_ext_in.
  intros c Hc. unfold rename_label.
  destruct (String.eqb_spec c old) as [->|]; [|reflexivity].
  apply has_column_In in Hc. congruence.
Qed.

Lemma repair_names_columns (f : DataFrame) :
  columns (repair_names f) = map repair_label (columns f).
Proof.
  unfold repair_names. cbv zeta.
  rewrite (rename_if_present
             (if has_column f "driver_id_x"
              then rename_column f "driver_id_x" "driver_id" else f)).
  rewrite rename_if_present, map_map. reflexivity.
Qed.

Lemma repair_label_other (c : string) :
  c <> "driver_id_x" -> c <> "user_id_x" -> repair_label c = c.
Proof.
  intros Hd Hu. unfold repair_label, rename_label.
  destruct (String.eqb_spec c "driver_id_x"); [contradiction|].
  destruct (String.eqb_spec c "user_id_x"); [contradiction|reflexivity].
Qed.

Lemma repair_label_user (c : string) :
  repair_label c = "user_id" -> c = "user_id" \/ c = "user_id_x".
Proof.
  unfold repair_label, rename_label.
  destruct (String.eqb_spec c "driver_id_x") as [->|Hd]; simpl.
  - discriminate.
  - destruct (String.eqb_spec c "user_id_x"); auto.
Qed.

Lemma repair_label_driver (c : string) :
  repair_label c = "driver_id" -> c = "driver_id" \/ c = "driver_id_x".
Proof.
  unfold repair_label, rename_label.
  destruct (String.eqb_spec c "driver_id_x") as [->|Hd]; simpl.
  - auto.
  - destruct (String.eqb_spec c "user_id_x"); [discriminate | auto].
Qed.

Lemma index_of_map_keeps (g : string -> string) (k : string)
  (cs rest : list string) (i : nat) :
  index_of k cs = Some i ->
  g k = k ->
  (forall c, In c cs -> c <> k -> g c <> k) ->
  index_of k (map g cs ++ rest) = Some i.
Proof.
  intros Hi Hk Hg. revert i Hi. induction cs as [|x t IH]; simpl; intros i Hi.
  - discriminate.
  - destruct (String.eqb_spec x k) as [->|Hne].
    + rewrite Hk, String.eqb_refl. assumption.
    + destruct (String.eqb_spec (g x) k) as [E|_].
      * exfalso. exact (Hg x (or_introl eq_refl) Hne E).
      * destruct (index_of k t) as [n|]; [|discriminate].
        rewrite (IH (fun c Hc => Hg c (or_intror Hc)) n eq_refl).
        assumption.
Qed.

(** The label under which a left column survives the fourth join and the
    renames: a key label keeps its place when its [_x] form is not already
    taken. *)
Lemma survivor_index (k : string) (left_cols rcols rest : list string)
  (i : nat) :
  k = "user_id" \/ k = "driver_id" ->
  index_of k left_cols = Some i ->
  ~ In (String.append k "_x") left_cols ->
  index_of k
    (map repair_label (suffix_overlap "_x" rcols left_cols ++ rest))
  = Some i.
Proof.
  intros Hk Hi Hx. rewrite map_app. unfold suffix_overlap. rewrite map_map.
  apply index_of_map_keeps; [assumption | |].
  - destruct Hk as [-> | ->]; destruct (existsb _ rcols); reflexivity.
  - intros c Hc Hne E.
    assert (c <> String.append k "_x") as Hcx by congruence.
    destruct (existsb (String.eqb c) rcols).
    + destruct Hk as [-> | ->].
      * apply repair_label_user in E. destruct E as [E|E].
        -- exact (user_id_no_x c E).
        -- apply (append_inj_suffix c "user_id" "_x") in E. contradiction.
      * apply repair_label_driver in E. destruct E as [E|E].
        -- exact (driver_id_no_x c E).
        -- apply (append_inj_suffix c "driver_id" "_x") in E. contradiction.
    + destruct Hk as [-> | ->].
      * apply repair_label_user in E. destruct E; contradiction.
      * apply repair_label_driver in E. destruct E; contradiction.
Qed.

(** ** Well-formed rows through a join *)

Lemma remove_nth_length {A B} (j : nat) (l : list A) (l' : list B) :
  length l = length l' ->
  length (remove_nth j l) = length (remove_nth j l').
Proof.
  intros H. unfold remove_nth.
  rewrite !length_app, !length_firstn, !length_skipn. lia.
Qed.

Lemma right_part_length {A B} (same : bool) (j : nat)
  (l : list A) (l' : list B) :
  length l = length l' ->
  length (right_part same j l) = length (right_part same j l').
Proof.
  intros H. destruct same; simpl; [now apply remove_nth_length | assumption].
Qed.

Lemma pd_merge_well_formed (left right : DataFrame) (lk rk : string)
  (out : DataFrame) :
  well_formed left -> well_formed right ->
  pd_merge left right lk rk = Ok out -> well_formed out.
Proof.
  unfold well_formed. rewrite !Forall_forall. intros Hl Hr H.
  destruct (pd_merge_inv _ _ _ _ _ H) as [i [j [_ [_ [Hc Hrows]]]]].
  intros o Ho. rewrite Hrows in Ho. apply in_flat_map in Ho.
  destruct Ho as [x [Hx Hin]].
  rewrite Hc, length_app, !suffix_overlap_length.
  unfold join_row in Hin.
  destruct (filter _ (rows right)) as [|m ms] eqn:E.
  - destruct Hin as [<-|[]].
    rewrite length_app, repeat_length, (Hl x Hx). reflexivity.
  - apply in_map_iff in Hin. destruct Hin as [y [<- Hy]].
    assert (In y (rows right)) as Hy'.
    { rewrite <- E in Hy. apply filter_In in Hy. tauto. }
    rewrite length_app, (Hl x Hx).
    rewrite (right_part_length _ j y (columns right) (Hr y Hy')).
    reflexivity.
Qed.

Lemma cell_at_app_left (i : nat) (x t : list cell) :
  i < length x -> cell_at i (x ++ t) = cell_at i x.
Proof. intros H. unfold cell_at. now apply app_nth1. Qed.

Lemma in_remove_nth (k : string) (j : nat) (l : list string) :
  In k l -> nth j l "" <> k -> In k (remove_nth j l).
Proof.
  unfold remove_nth. revert j. induction l as [|x t IH]; intros j Hin Hn.
  - destruct Hin.
  - destruct j as [|j']; simpl in *.
    + destruct Hin as [->|Hin]; [contradiction | assumption].
    + destruct Hin as [->|Hin]; [now left|]. right. now apply IH.
Qed.

(** ** Name collisions in the merge *)

(** C1, as stated, fails: the merged table of the example keeps the right
    duplicates [user_id_y] and [driver_id_y] that the fourth join creates. *)
Lemma merge_keeps_right_duplicates :
  merge_all_data Scenario.loaded = (Ok Scenario.funnel, Scenario.merged) /\
  ~ (~ In "user_id_y" (columns Scenario.funnel) /\
     ~ In "driver_id_y" (columns Scenario.funnel)).
Proof.
  split; [reflexivity|].
  intros [Hu _]. apply Hu. simpl. tauto.
Qed.

Lemma existsb_eqb_In (k : string) (cs : list string) :
  In k cs -> existsb (String.eqb k) cs = true.
Proof.
  intros H. apply existsb_exists. exists k.
  split; [assumption | apply String.eqb_refl].
Qed.

(** C1, amended.  The merge is four left joins in the fixed order downloads,
    signups, requests, transactions, reviews, followed by one renaming pass
    over the final table: [driver_id_x] becomes [driver_id], [user_id_x]
    becomes [user_id], every other label and every cell is left as it is.
    In particular a [user_id] or [driver_id] that the reviews share with the
    table merged so far stays in the result under its [_y] label, while the
    plain label carries the values of the left (earlier) table. *)
Theorem merge_joins_then_renames
  (self self' : CityCarDataHandler) (f : DataFrame) :
  well_formed (df_downloads self) ->
  well_formed (df_signups self) ->
  well_formed (df_requests self) ->
  well_formed (df_transactions self) ->
  merge_all_data self = (Ok f, self') ->
  exists f1 f2 f3 f4,
    pd_merge (df_downloads self) (df_signups self)
      "app_download_key" "session_id" = Ok f1 /\
    pd_merge f1 (df_requests self) "user_id" "user_id" = Ok f2 /\
    pd_merge f2 (df_transactions self) "ride_id" "ride_id" = Ok f3 /\
    pd_merge f3 (df_reviews self) "ride_id" "ride_id" = Ok f4 /\
    rows f = rows f4 /\
    columns f = map repair_label (columns f4) /\
    (forall c, In c (columns f4) ->
               c <> "driver_id_x" -> c <> "user_id_x" -> In c (columns f)) /\
    (forall k, k = "user_id" \/ k = "driver_id" ->
       In k (columns f3) ->
       (In k (columns (df_reviews self)) ->
        In (String.append k "_y") (columns f)) /\
       (~ In (String.append k "_x") (columns f3) ->
        forall o, In o (rows f) ->
          exists x t, In x (rows f3) /\ o = x ++ t /\
                      field f k o = field f3 k x)).
Proof.
  intros Wd Ws Wr Wt H.
  destruct (merge_all_data_inv _ _ _ H)
    as [f1 [f2 [f3 [f4 [H1 [H2 [H3 [H4 [Hf _]]]]]]]]].
  assert (rows f = rows f4) as Hrows by (subst f; apply repair_names_rows).
  assert (columns f = map repair_label (columns f4)) as Hcols
    by (subst f; apply repair_names_columns).
  assert (well_formed f3) as W3.
  { eapply pd_merge_well_formed; [| exact Wt | exact H3].
    eapply pd_merge_well_formed; [| exact Wr | exact H2].
    eapply pd_merge_well_formed; [exact Wd | exact Ws | exact H1]. }
  exists f1, f2, f3, f4.
  repeat (split; [assumption|]).
  split.
  - intros c Hc Hd Hu. rewrite Hcols.
    rewrite <- (repair_label_other c Hd Hu). now apply in_map.
  - intros k Hk Hin3.
    destruct (pd_merge_inv _ _ _ _ _ H4) as [i [j [Hi [Hj [Hc4 _]]]]].
    simpl in Hc4. split.
    + intros Hrev. rewrite Hcols, Hc4, map_app. apply in_or_app. right.
      assert (In k (remove_nth j (columns (df_reviews self)))) as Hrc.
      { apply in_remove_nth; [assumption|].
        destruct (index_of_bound _ _ _ Hj) as [_ ->].
        destruct Hk as [-> | ->]; discriminate. }
      apply in_map_iff. exists (String.append k "_y"). split.
      * destruct Hk as [-> | ->]; reflexivity.
      * unfold suffix_overlap. apply in_map_iff. exists k.
        split; [|assumption].
        now rewrite (existsb_eqb_In k (columns f3) Hin3).
    + intros Hx o Ho.
      destruct (index_of_some _ _ Hin3) as [n Hn].
      assert (index_of k (columns f) = Some n) as Hnf.
      { rewrite Hcols, Hc4. now apply survivor_index. }
      rewrite Hrows in Ho.
      destruct (pd_merge_rows_from_left _ _ _ _ _ H4 o Ho)
        as [x [t [Hxin Heq]]].
      exists x, t. split; [assumption|]. split; [assumption|].
      unfold field. rewrite Hnf, Hn, Heq.
      apply cell_at_app_left.
      unfold well_formed in W3. rewrite Forall_forall in W3.
      rewrite (W3 x Hxin). now destruct (index_of_bound _ _ _ Hn).
Qed.

Lemma merge_joins_then_renames_witness :
  exists f1 f2 f3 f4,
    pd_merge (df_downloads Scenario.loaded) (df_signups Scenario.loaded)
      "app_download_key" "session_id" = Ok f1 /\
    pd_merge f1 (df_requests Scenario.loaded) "user_id" "user_id" = Ok f2 /\
    pd_merge f2 (df_transactions Scenario.loaded) "ride_id" "ride_id"
      = Ok f3 /\
    pd_merge f3 (df_reviews Scenario.loaded) "ride_id" "ride_id" = Ok f4 /\
    rows Scenario.funnel = rows f4 /\
    columns Scenario.funnel = map repair_label (columns f4) /\
    (forall c, In c (columns f4) ->
               c <> "driver_id_x" -> c <> "user_id_x" ->
               In c (columns Scenario.funnel)) /\
    (forall k, k = "user_id" \/ k = "driver_id" ->
       In k (columns f3) ->
       (In k (columns (df_reviews Scenario.loaded)) ->
        In (String.append k "_y") (columns Scenario.funnel)) /\
       (~ In (String.append k "_x") (columns f3) ->
        forall o, In o (rows Scenario.funnel) ->
          exists x t, In x (rows f3) /\ o = x ++ t /\
                      field Scenario.funnel k o = field f3 k x)).
Proof.
  apply (merge_joins_then_renames Scenario.loaded Scenario.merged
           Scenario.funnel).
  - repeat constructor.
  - repeat constructor.
  - repeat constructor.
  - repeat constructor.
  - reflexivity.
Defined.

(** ** Insertion sort *)

Section Sorting.

Context {A : Type} (leb : A -> A -> bool).

Lemma insert_by_perm (x : A) (l : list A) :
  Permutation (insert_by leb x l) (x :: l).
Proof.
  induction l as [|y t IH]; simpl.
  - apply Permutation_refl.
  - destruct (leb x y).
    + apply Permutation_refl.
    + apply perm_trans with (y :: x :: t).
      * now apply perm_skip.
      * apply perm_swap.
Qed.

Lemma sort_by_perm (l : list A) : Permutation (sort_by leb l) l.
Proof.
  induction l as [|x t IH]; simpl.
  - apply perm_nil.
  - apply perm_trans with (x :: sort_by leb t).
    + apply insert_by_perm.
    + now apply perm_skip.
Qed.

Hypothesis leb_total : forall a b, leb a b = true \/ leb b a = true.

Let R (a b : A) : Prop := leb a b = true.

Lemma insert_by_sorted (x : A) (l : list A) :
  Sorted R l -> Sorted R (insert_by leb x l).
Proof.
  induction l as [|y t IH]; simpl; intros Hs.
  - repeat constructor.
  - destruct (leb x y) eqn:E.
    + constructor; [assumption | now constructor].
    + inversion Hs as [|? ? Hst Hhd]; subst.
      constructor; [now apply IH|].
      assert (R y x) as Hyx
        by (destruct (leb_total x y) as [H|H]; [congruence | exact H]).
      destruct t as [|z t']; simpl.
      * now constructor.
      * destruct (leb x z); constructor; [assumption|].
        now inversion Hhd.
Qed.

Lemma sort_by_sorted (l : list A) : Sorted R (sort_by leb l).
Proof.
  induction l as [|x t IH]; simpl.
  - constructor.
  - now apply insert_by_sorted.
Qed.

End Sorting.

Lemma sort_index_sorted (h : list (Z * nat)) :
  StronglySorted (fun a b => (fst a <= fst b)%Z) (sort_index h).
Proof.
  apply Sorted_StronglySorted.
  - intros a b c Hab Hbc. lia.
  - unfold sort_index.
    pose proof (sort_by_sorted (fun a b : Z * nat => Z.leb (fst a) (fst b)))
      as Hs.
    eapply Sorted_ind with (P := fun l => Sorted _ l);
      [constructor | | apply Hs].
    + intros a l _ IH Hhd. constructor; [assumption|].
      destruct Hhd; constructor. now apply Z.leb_le.
    + intros a b. destruct (Z.leb_spec (fst a) (fst b)); [now left|].
      right. apply Z.leb_le. lia.
Qed.

Lemma sorted_distinct_strict (h : list (Z * nat)) :
  StronglySorted (fun a b => (fst a <= fst b)%Z) h ->
  NoDup (map fst h) ->
  StronglySorted (fun a b => (fst a < fst b)%Z) h.
Proof.
  induction 1 as [|a l Hs IH Hall]; simpl; intros Hnd.
  - constructor.
  - inversion Hnd as [|? ? Hnotin Hnd']; subst.
    constructor; [now apply IH|].
    rewrite Forall_forall in *. intros b Hb.
    specialize (Hall b Hb).
    assert (fst a <> fst b) as Hne
      by (intros E; apply Hnotin; rewrite E; now apply in_map).
    lia.
Qed.

(** ** The hourly histogram *)

Lemma dt_hour_datetime (s : Series) :
  forallb is_datetime_cell s = true -> dt_hour s = Ok (map hour_cell s).
Proof.
  unfold dt_hour. induction s as [|c t IH]; simpl; [reflexivity|].
  intros H. apply andb_true_iff in H. destruct H as [Hc Ht].
  rewrite (IH Ht).
  destruct c as [[s'|n|ns]|]; simpl in *; try discriminate; reflexivity.
Qed.

Lemma dropnaZ_In (s : list (option Z)) (z : Z) :
  In z (dropnaZ s) <-> In (Some z) s.
Proof.
  induction s as [|[x|] t IH]; simpl; [tauto| |].
  - rewrite IH. split; intros [H|H]; auto; left; congruence.
  - rewrite IH. split; [auto|]. intros [H|H]; [discriminate | assumption].
Qed.

Lemma occurrences_positive (k : Z) (xs : list Z) :
  In k xs <-> 0 < occurrences k xs.
Proof.
  unfold occurrences, count_of. induction xs as [|x t IH]; simpl.
  - split; [intros [] | lia].
  - destruct (Z.eqb_spec k x) as [->|Hne]; simpl.
    + split; [lia | auto].
    + rewrite <- IH. split; [intros [H|H]; [congruence | assumption] | auto].
Qed.

Lemma occurrences_hours (requests : DataFrame) (i : nat) (h : Z) :
  index_of "request_ts" (columns requests) = Some i ->
  occurrences h
    (dropnaZ (map hour_cell (map (cell_at i) (rows requests))))
  = requests_in_hour requests h.
Proof.
  intros Hi. unfold occurrences, count_of, requests_in_hour.
  induction (rows requests) as [|r t IH]; simpl; [reflexivity|].
  unfold requested_in_hour at 1. unfold field. rewrite Hi.
  destruct (cell_at i r) as [[s|n|ns]|]; simpl; try assumption.
  rewrite (Z.eqb_sym h (hour_of ns)).
  destruct (Z.eqb (hour_of ns) h); simpl; now rewrite IH.
Qed.

Lemma hour_of_range (t : Z) : (0 <= hour_of t < 24)%Z.
Proof. unfold hour_of. apply Z.mod_pos_bound. lia. Qed.

(** The entries of [value_counts(..).sort_index()] over a column of hours. *)
Lemma histogram_In (s : list (option Z)) (h : Z) (n : nat) :
  In (h, n) (sort_index (value_counts s)) <->
  0 < n /\ n = occurrences h (dropnaZ s).
Proof.
  unfold sort_index, value_counts, frequencies.
  split.
  - intros H.
    apply (Permutation_in _ (sort_by_perm _ _)) in H.
    apply (Permutation_in _ (sort_by_perm _ _)) in H.
    apply in_map_iff in H. destruct H as [k [E Hk]].
    inversion E; subst. split; [|reflexivity].
    apply occurrences_positive.
    now rewrite (uniq_In Z.eqb Z.eqb_eq) in Hk.
  - intros [Hpos ->].
    apply (Permutation_in _ (Permutation_sym (sort_by_perm _ _))).
    apply (Permutation_in _ (Permutation_sym (sort_by_perm _ _))).
    apply in_map_iff. exists h. split; [reflexivity|].
    apply (uniq_In Z.eqb Z.eqb_eq). now apply occurrences_positive.
Qed.

Lemma histogram_keys_distinct (s : list (option Z)) :
  NoDup (map fst (sort_index (value_counts s))).
Proof.
  unfold sort_index, value_counts, frequencies.
  eapply Permutation_NoDup.
  - apply Permutation_map. apply Permutation_sym.
    eapply perm_trans; apply sort_by_perm.
  - rewrite map_map. simpl. rewrite map_id.
    apply uniq_NoDup, Z.eqb_eq.
Qed.

Lemma surge_demand_result (parse : string -> option Z)
  (self : CityCarDataHandler) (i : nat) :
  index_of "request_ts" (columns (df_requests self)) = Some i ->
  datetime_column (df_requests self) "request_ts" = true ->
  analyze_surge_demand parse self =
  (Ok (sort_index
         (value_counts
            (map hour_cell (map (cell_at i) (rows (df_requests self)))))),
   self).
Proof.
  intros Hi Hdt.
  assert (getcol (df_requests self) "request_ts"
          = Ok (map (cell_at i) (rows (df_requests self)))) as G
    by (unfold getcol; now rewrite Hi).
  unfold datetime_column in Hdt. rewrite G in Hdt.
  unfold analyze_surge_demand, bind, get, lift, ret, assign_requests.
  simpl. rewrite G, (to_datetime_idempotent parse _ Hdt).
  rewrite (set_column_same _ _ _ G), set_requests_same. simpl.
  unfold project1. rewrite Hi. unfold getcol. simpl.
  rewrite map_map. simpl.
  change (map (fun x => cell_at 0 [cell_at i x]) (rows (df_requests self)))
    with (map (cell_at i) (rows (df_requests self))).
  now rewrite (dt_hour_datetime _ Hdt).
Qed.

(** C8. On a request table whose [request_ts] column holds datetimes,
    [analyze_surge_demand] returns a histogram in strictly ascending hour
    order; its keys are hours of the day between 0 and 23, and an hour is
    listed, with the number of requests made in that hour, exactly when at
    least one request falls in it. *)
Theorem hourly_demand_histogram (parse : string -> option Z)
  (self : CityCarDataHandler) :
  In "request_ts" (columns (df_requests self)) ->
  datetime_column (df_requests self) "request_ts" = true ->
  exists hist,
    analyze_surge_demand parse self = (Ok hist, self) /\
    StronglySorted (fun a b => (fst a < fst b)%Z) hist /\
    (forall h n, In (h, n) hist ->
                 (0 <= h < 24)%Z /\
                 n = requests_in_hour (df_requests self) h) /\
    (forall h, 0 < requests_in_hour (df_requests self) h ->
               In (h, requests_in_hour (df_requests self) h) hist) /\
    (forall h n, In (h, n) hist -> 0 < n).
Proof.
  intros Hin Hdt. destruct (index_of_some _ _ Hin) as [i Hi].
  eexists. split; [apply (surge_demand_result parse self i Hi Hdt)|].
  split; [|split; [|split]].
  - apply sorted_distinct_strict;
      [apply sort_index_sorted | apply histogram_keys_distinct].
  - intros h n H. apply histogram_In in H. destruct H as [Hpos ->].
    split; [|now apply occurrences_hours].
    apply occurrences_positive, dropnaZ_In, in_map_iff in Hpos.
    destruct Hpos as [c [Hc _]].
    destruct c as [[s|m|t]|]; simpl in Hc; try discriminate.
    inversion Hc; subst. apply hour_of_range.
  - intros h Hpos. apply histogram_In.
    rewrite (occurrences_hours _ i h Hi). split; [assumption | reflexivity].
  - intros h n H. apply histogram_In in H. tauto.
Qed.

Lemma hourly_demand_histogram_witness :
  exists hist,
    analyze_surge_demand (fun _ => None) Scenario.loaded
      = (Ok hist, Scenario.loaded) /\
    StronglySorted (fun a b => (fst a < fst b)%Z) hist /\
    (forall h n, In (h, n) hist ->
                 (0 <= h < 24)%Z /\
                 n = requests_in_hour (df_requests Scenario.loaded) h) /\
    (forall h, 0 < requests_in_hour (df_requests Scenario.loaded) h ->
               In (h, requests_in_hour (df_requests Scenario.loaded) h)
                  hist) /\
    (forall h n, In (h, n) hist -> 0 < n).
Proof.
  apply (hourly_demand_histogram (fun _ => None) Scenario.loaded).
  - simpl. tauto.
  - reflexivity.
Defined.

(** ** Ride durations *)

Lemma Qgtb_lt (x y : Q) : Qgtb x y = true <-> (y < x)%Q.
Proof.
  unfold Qgtb. rewrite negb_true_iff. split.
  - intros H. apply Qnot_le_lt. intros Hle.
    apply Qle_bool_iff in Hle. congruence.
  - intros H. destruct (Qle_bool x y) eqn:E; [|reflexivity].
    apply Qle_bool_iff in E. lra.
Qed.

Lemma Qltb_lt (x y : Q) : Qltb x y = true <-> (x < y)%Q.
Proof. unfold Qltb. apply (Qgtb_lt y x). Qed.

Lemma dropnaQ_some (l : list Q) : dropnaQ (map Some l) = l.
Proof. induction l; simpl; congruence. Qed.

Lemma describe_dropna (s : list (option Q)) :
  describe s = describe (map Some (dropnaQ s)).
Proof. unfold describe. now rewrite dropnaQ_some. Qed.

(** The model of [describe] on the durations 1, 2, 3, 4. *)
Example describe_one_to_four :
  let st := describe [Some (1 # 1); None; Some (2 # 1); Some (4 # 1);
                      Some (3 # 1)]%Q in
  d_count st = 4 /\
  Qopt_eqb (d_mean st) (Some (5 # 2)%Q) = true /\
  Qopt_eqb (d_var st) (Some (5 # 3)%Q) = true /\
  Qopt_eqb (d_min st) (Some (1 # 1)%Q) = true /\
  Qopt_eqb (d_q25 st) (Some (7 # 4)%Q) = true /\
  Qopt_eqb (d_q50 st) (Some (5 # 2)%Q) = true /\
  Qopt_eqb (d_q75 st) (Some (13 # 4)%Q) = true /\
  Qopt_eqb (d_max st) (Some (4 # 1)%Q) = true.
Proof. repeat split; reflexivity. Qed.

Lemma series_sub_datetime (rs : list (list cell)) (i j : nat) :
  forallb is_datetime_cell (map (cell_at i) rs) = true ->
  forallb is_datetime_cell (map (cell_at j) rs) = true ->
  series_sub (map (cell_at i) rs) (map (cell_at j) rs)
  = Ok (map (fun r => sub_cells (cell_at i r) (cell_at j r)) rs).
Proof.
  induction rs as [|r t IH]; simpl; [reflexivity|].
  intros Hi Hj. apply andb_true_iff in Hi, Hj.
  destruct Hi as [Hi Hti], Hj as [Hj Htj]. rewrite (IH Hti Htj).
  destruct (cell_at i r) as [[s|n|x]|], (cell_at j r) as [[s'|n'|y]|];
    simpl in *; try discriminate; reflexivity.
Qed.

Lemma datetime_column_cells (df : DataFrame) (c : string) (i : nat) :
  index_of c (columns df) = Some i ->
  datetime_column df c = true ->
  forallb is_datetime_cell (map (cell_at i) (rows df)) = true.
Proof.
  unfold datetime_column, getcol. now intros ->.
Qed.

Lemma ride_durations_ok (requests : DataFrame) :
  In "dropoff_ts" (columns requests) ->
  In "pickup_ts" (columns requests) ->
  datetime_column requests "dropoff_ts" = true ->
  datetime_column requests "pickup_ts" = true ->
  ride_durations requests
  = Ok (map (ride_minutes requests) (rows requests)).
Proof.
  intros Hd Hp Td Tp.
  destruct (index_of_some _ _ Hd) as [i Hi].
  destruct (index_of_some _ _ Hp) as [j Hj].
  unfold ride_durations, getcol. rewrite Hi, Hj. simpl.
  rewrite (series_sub_datetime _ i j
             (datetime_column_cells _ _ _ Hi Td)
             (datetime_column_cells _ _ _ Hj Tp)).
  simpl. rewrite map_map. f_equal. apply map_ext. intros r.
  unfold ride_minutes, field. rewrite Hi, Hj.
  destruct (cell_at i r) as [[s|n|x]|], (cell_at j r) as [[s'|n'|y]|];
    reflexivity.
Qed.

(** On datetime columns a ride has a duration exactly when it has both its
    drop-off and its pick-up time. *)
Lemma ride_minutes_defined (requests : DataFrame) (r : list cell) :
  In r (rows requests) ->
  In "dropoff_ts" (columns requests) ->
  In "pickup_ts" (columns requests) ->
  datetime_column requests "dropoff_ts" = true ->
  datetime_column requests "pickup_ts" = true ->
  (notna_cell (field requests "dropoff_ts" r)
   && notna_cell (field requests "pickup_ts" r)
   = match ride_minutes requests r with Some _ => true | None => false end).
Proof.
  intros Hr Hd Hp Td Tp.
  destruct (index_of_some _ _ Hd) as [i Hi].
  destruct (index_of_some _ _ Hp) as [j Hj].
  pose proof (datetime_column_cells _ _ _ Hi Td) as Fd.
  pose proof (datetime_column_cells _ _ _ Hj Tp) as Fp.
  rewrite forallb_forall in Fd, Fp.
  specialize (Fd (cell_at i r) (in_map _ _ _ Hr)).
  specialize (Fp (cell_at j r) (in_map _ _ _ Hr)).
  unfold ride_minutes, field. rewrite Hi, Hj.
  destruct (cell_at i r) as [[s|n|x]|], (cell_at j r) as [[s'|n'|y]|];
    simpl in *; try discriminate; reflexivity.
Qed.

Lemma dropnaQ_filter {A} (g : A -> option Q) (p : A -> bool) (l : list A) :
  (forall a, In a l ->
             p a = match g a with Some _ => true | None => false end) ->
  map Some (dropnaQ (map g l)) = map g (filter p l).
Proof.
  induction l as [|a t IH]; simpl; intros H; [reflexivity|].
  rewrite (H a (or_introl eq_refl)).
  destruct (g a) as [q|] eqn:E; simpl.
  - rewrite E, IH; [reflexivity|]. intros b Hb. apply H. now right.
  - apply IH. intros b Hb. apply H. now right.
Qed.

Lemma filter_disjoint_length {A} (p q : A -> bool) (l : list A) :
  (forall a, p a = true -> q a = true -> False) ->
  length (filter p l) + length (filter q l) <= length l.
Proof.
  intros H. induction l as [|a t IH]; simpl; [lia|].
  destruct (p a) eqn:Ep, (q a) eqn:Eq; simpl; try lia.
  exfalso. exact (H a Ep Eq).
Qed.

(** C7, as stated, fails: a ride with a drop-off time but no pick-up time
    has no duration, so the number of durations differs from the number of
    rides with a non-null drop-off time. *)
Lemma dropped_off_ride_without_duration :
  exists stats long neg,
    fst (analyze_ride_duration_quality Scenario.no_pickup)
      = Ok (stats, long, neg) /\
    d_count stats <> length (dropped_off (df_requests Scenario.no_pickup)).
Proof.
  eexists. eexists. eexists. split; [reflexivity|]. simpl. discriminate.
Qed.

(** C7, amended.  On a request table whose pick-up and drop-off columns hold
    datetimes, [analyze_ride_duration_quality] computes the duration
    (drop-off minus pick-up, in minutes) exactly for the rides that have both
    time stamps, in table order; the statistics are those of these durations,
    their count is the number of such rides, the long count is the number of
    durations above 300 and the negative count the number of durations below
    0.  Negative durations are counted, not dropped, and nothing is raised. *)
Theorem ride_duration_quality (self : CityCarDataHandler) :
  In "dropoff_ts" (columns (df_requests self)) ->
  In "pickup_ts" (columns (df_requests self)) ->
  datetime_column (df_requests self) "dropoff_ts" = true ->
  datetime_column (df_requests self) "pickup_ts" = true ->
  exists stats long neg durations,
    analyze_ride_duration_quality self = (Ok (stats, long, neg), self) /\
    map Some durations
      = map (ride_minutes (df_requests self))
          (timed_rides (df_requests self)) /\
    stats = describe (map Some durations) /\
    d_count stats = length (timed_rides (df_requests self)) /\
    long = length (filter (fun q => Qgtb q (300 # 1)) durations) /\
    neg = length (filter (fun q => Qltb q (0 # 1)) durations) /\
    long + neg <= d_count stats.
Proof.
  intros Hd Hp Td Tp.
  set (requests := df_requests self) in *.
  set (s := map (ride_minutes requests) (rows requests)).
  assert (map Some (dropnaQ s)
          = map (ride_minutes requests) (timed_rides requests)) as Hdur.
  { apply dropnaQ_filter. intros r Hr.
    now apply ride_minutes_defined. }
  exists (describe s), (count_gt (300 # 1) s), (count_lt (0 # 1) s),
    (dropnaQ s).
  split.
  - unfold analyze_ride_duration_quality, bind, get, lift, ret. simpl.
    fold requests. now rewrite (ride_durations_ok requests Hd Hp Td Tp).
  - split; [exact Hdur|]. split; [apply describe_dropna|].
    split.
    + unfold describe. simpl.
      rewrite <- (length_map Some), Hdur. apply length_map.
    + split; [reflexivity|]. split; [reflexivity|].
      unfold describe, count_gt, count_lt. simpl.
      apply filter_disjoint_length. intros q Hgt Hlt.
      apply Qgtb_lt in Hgt. apply Qltb_lt in Hlt. lra.
Qed.

Lemma ride_duration_quality_witness :
  exists stats long neg durations,
    analyze_ride_duration_quality Scenario.completed_only
      = (Ok (stats, long, neg), Scenario.completed_only) /\
    map Some durations
      = map (ride_minutes (df_requests Scenario.completed_only))
          (timed_rides (df_requests Scenario.completed_only)) /\
    stats = describe (map Some durations) /\
    d_count stats = length (timed_rides (df_requests Scenario.completed_only)) /\
    long = length (filter (fun q => Qgtb q (300 # 1)) durations) /\
    neg = length (filter (fun q => Qltb q (0 # 1)) durations) /\
    long + neg <= d_count stats.
Proof.
  apply (ride_duration_quality Scenario.completed_only).
  - simpl. tauto.
  - simpl. tauto.
  - reflexivity.
  - reflexivity.
Defined.

(** ** Zero denominators *)

Lemma forallb_map_filter {A B} (t : B -> bool) (g : A -> B) (p : A -> bool)
  (l : list A) :
  forallb t (map g l) = true -> forallb t (map g (filter p l)) = true.
Proof.
  rewrite !forallb_forall. intros H b Hb. apply H.
  apply in_map_iff in Hb. destruct Hb as [a [<- Ha]].
  apply filter_In in Ha. apply in_map. tauto.
Qed.

Lemma select_by_mask (f : DataFrame) (c : string) (i : nat)
  (p : list cell -> bool) :
  index_of c (columns f) = Some i ->
  getcol (select f (map p (rows f))) c
  = Ok (map (cell_at i) (filter p (rows f))).
Proof.
  intros Hi. unfold getcol.
  now rewrite select_columns, Hi, select_rows_filter.
Qed.


Lemma filter_none {A} (p : A -> bool) (l : list A) :
  (forall a, In a l -> p a = false) -> filter p l = [].
Proof.
  induction l as [|a t IH]; simpl; intros H; [reflexivity|].
  rewrite (H a (or_introl eq_refl)). apply IH. intros b Hb. apply H.
  now right.
Qed.


(** The sibling computation in [analyze_dropoff_gap] is guarded: it never
    raises on a table that has its three columns, and with no problem ride
    it reports that no case was found. *)
Lemma dropoff_gap_guarded (self : CityCarDataHandler) :
  has_columns (df_requests self) ["accept_ts"; "dropoff_ts"; "cancel_ts"]
    = true ->
  exists report,
    analyze_dropoff_gap self = (Ok report, self) /\
    count_problems report
      = length (filter (problem_ride (df_requests self))
                  (rows (df_requests self))) /\
    (count_problems report = 0 -> quote report = None) /\
    cancelled_count report <= count_problems report.
Proof.
  intros Hcols. set (requests := df_requests self) in *.
  assert (forall c, In c ["accept_ts"; "dropoff_ts"; "cancel_ts"]
                    -> In c (columns requests)) as Hin
    by (intros c; now apply has_columns_In).
  destruct (index_of_some "accept_ts" (columns requests)) as [a Ha];
    [apply Hin; simpl; tauto|].
  destruct (index_of_some "dropoff_ts" (columns requests)) as [d Hd];
    [apply Hin; simpl; tauto|].
  destruct (index_of_some "cancel_ts" (columns requests)) as [c Hc];
    [apply Hin; simpl; tauto|].
  eexists. split.
  - unfold analyze_dropoff_gap, bind, get, lift. simpl. fold requests.
    unfold getcol at 1 2. rewrite Ha, Hd. simpl. unfold notna, isna.
    rewrite !map_map, mask_and_map.
    rewrite (select_by_mask requests "cancel_ts" c _ Hc). simpl.
    reflexivity.
  - simpl. unfold len. rewrite select_rows_filter. split; [|split].
    + f_equal. apply filter_ext. intros r.
      unfold problem_ride, field. now rewrite Ha, Hd.
    + intros H0. now rewrite H0.
    + unfold mask_sum. rewrite !map_map.
      set (rs := filter _ (rows requests)).
      clearbody rs. induction rs as [|r t IH]; simpl; [lia|].
      destruct (notna_cell (cell_at c r)); simpl; lia.
Qed.

(** C5.  With no cancelled-after-accept ride, the long-waiter percentage of
    [analyze_cancellation_reasons] raises [ZeroDivisionError]; on the same
    table the guarded rate of [analyze_dropoff_gap] reports no case, and a
    platform group without download keys gets NaN or an infinity as its
    conversion rate, not an exception. *)
Theorem zero_denominators :
  fst (analyze_cancellation_reasons Scenario.completed_only)
    = Err ZeroDivisionError /\
  fst (analyze_dropoff_gap Scenario.completed_only)
    = Ok (mkDropoff 0 0 None) /\
  fst (get_platform_metrics Scenario.null_keys)
    = Ok [mkPlatformRow (VStr "ios") 0 0 NaN;
          mkPlatformRow (VStr "web") 0 1 Inf].
Proof. repeat split; reflexivity. Qed.

(** ** The funnel by age group *)

Lemma getcol_index (f : DataFrame) (c : string) (i : nat) :
  index_of c (columns f) = Some i ->
  getcol f c = Ok (map (cell_at i) (rows f)).
Proof. intros H. unfold getcol. now rewrite H. Qed.

Lemma eq_cell_map (s : Series) (g : cell) :
  eq_cell s g = map (cell_matches g) s.
Proof. destruct g; reflexivity. Qed.

Lemma nunique_filter_le {A} (g : A -> cell) (q : A -> bool) (l : list A) :
  nunique (map g (filter q l)) <= nunique (map g l).
Proof.
  unfold nunique. apply NoDup_incl_length.
  - apply uniq_NoDup, value_eqb_eq.
  - intros v Hv.
    rewrite (uniq_In _ value_eqb_eq), dropna_In in *.
    apply in_map_iff in Hv. destruct Hv as [a [Ha Hin]].
    apply filter_In in Hin. apply in_map_iff. exists a. tauto.
Qed.

Lemma rmap_ok {A B} (f : A -> result B) (P : A -> B -> Prop) (l : list A) :
  (forall a, In a l -> exists b, f a = Ok b /\ P a b) ->
  exists bs, rmap f l = Ok bs /\ Forall2 P l bs.
Proof.
  induction l as [|a t IH]; simpl; intros H.
  - exists []. split; [reflexivity | constructor].
  - destruct (H a (or_introl eq_refl)) as [b [Hb Pb]].
    destruct IH as [bs [Hbs Pbs]]; [intros x Hx; apply H; now right|].
    exists (b :: bs). rewrite Hb, Hbs. split; [reflexivity|].
    now constructor.
Qed.

Lemma age_group_row_ok (df : DataFrame) (group : cell) :
  has_columns df age_columns = true ->
  exists row,
    age_group_row df group = Ok row /\
    Age_Group row = group /\ age_row_consistent row.
Proof.
  intros Hcols.
  assert (forall c, In c age_columns -> In c (columns df)) as Hin
    by (intros c; now apply has_columns_In).
  destruct (index_of_some "age_range" (columns df)) as [a Ha];
    [apply Hin; simpl; tauto|].
  destruct (index_of_some "user_id" (columns df)) as [u Hu];
    [apply Hin; simpl; tauto|].
  destruct (index_of_some "request_ts" (columns df)) as [q Hq];
    [apply Hin; simpl; tauto|].
  destruct (index_of_some "dropoff_ts" (columns df)) as [d Hd];
    [apply Hin; simpl; tauto|].
  destruct (index_of_some "review_id" (columns df)) as [v Hv];
    [apply Hin; simpl; tauto|].
  unfold age_group_row. rewrite (getcol_index df _ a Ha). simpl.
  set (group_data := select df (eq_cell (map (cell_at a) (rows df)) group)).
  assert (columns group_data = columns df) as Hc by reflexivity.
  rewrite (getcol_index group_data "user_id" u) by now rewrite Hc.
  simpl.
  rewrite (getcol_index group_data "request_ts" q) by now rewrite Hc.
  simpl. unfold notna at 1. rewrite map_map.
  rewrite (select_by_mask group_data "user_id" u) by now rewrite Hc.
  simpl.
  rewrite (getcol_index group_data "dropoff_ts" d) by now rewrite Hc.
  simpl. unfold notna at 1. rewrite map_map.
  rewrite (select_by_mask group_data "user_id" u) by now rewrite Hc.
  simpl.
  rewrite (getcol_index group_data "review_id" v) by now rewrite Hc.
  simpl. unfold notna at 1. rewrite map_map.
  rewrite (select_by_mask group_data "user_id" u) by now rewrite Hc.
  simpl.
  eexists. split; [reflexivity|]. split; [reflexivity|].
  unfold age_row_consistent. simpl.
  repeat split; apply nunique_filter_le.
Qed.

Lemma Forall2_labels (groups : list cell) (results : list AgeRow) :
  Forall2 (fun g row => Age_Group row = g /\ age_row_consistent row)
    groups results ->
  map Age_Group results = groups /\ Forall age_row_consistent results.
Proof.
  induction 1 as [|g row gs rs [Hg Hc] _ [IHm IHf]]; simpl.
  - split; [reflexivity | constructor].
  - split; [congruence | now constructor].
Qed.

(** X14. Apart from a table without any age range, the segments are as
    expected: when some row has an age range and the labels are of one kind,
    the operation
    returns one row per distinct non-null [age_range], and in every row the
    later counts are bounded by the signups. *)
Lemma age_funnel_rows (self self' : CityCarDataHandler) (f : DataFrame) :
  funnel_table self = (Ok f, self') ->
  has_columns f age_columns = true ->
  (exists r, In r (rows f) /\ field f "age_range" r <> None) ->
  homogeneous
    (dropna (uniq cell_eqb
               (map (field f "age_range")
                  (filter (fun r => notna_cell (field f "age_range" r))
                     (rows f))))) = true ->
  exists out,
    get_funnel_by_age self = (Ok out, self') /\
    NoDup (map Age_Group out) /\
    (forall g, In g (map Age_Group out) <->
               g <> None /\
               exists r, In r (rows f) /\ field f "age_range" r = g) /\
    Forall age_row_consistent out.
Proof.
  intros Hf Hcols [r0 [Hr0 Hage0]] Hhom.
  destruct (index_of_some "age_range" (columns f)) as [a Ha];
    [eapply has_columns_In; [exact Hcols | simpl; tauto]|].
  assert (forall r, field f "age_range" r = cell_at a r) as Hfield
    by (intros r; unfold field; now rewrite Ha).
  set (rows_age := filter (fun r => notna_cell (cell_at a r)) (rows f)).
  set (df_age := select f (map (fun r => notna_cell (cell_at a r)) (rows f))).
  assert (rows df_age = rows_age) as Hrows by apply select_rows_filter.
  set (groups := uniq cell_eqb (map (cell_at a) rows_age)).
  assert (forall g, In g groups <->
                    g <> None /\ exists r, In r (rows f) /\ cell_at a r = g)
    as Hgroups.
  { intros g. unfold groups. rewrite (uniq_In _ cell_eqb_eq), in_map_iff.
    split.
    - intros [r [<- Hr]]. apply filter_In in Hr. destruct Hr as [Hr Hn].
      split; [now apply notna_cell_true | eauto].
    - intros [Hg [r [Hr <-]]]. exists r. split; [reflexivity|].
      apply filter_In. split; [assumption | now apply notna_cell_true]. }
  destruct (rmap_ok (age_group_row df_age)
              (fun g row => Age_Group row = g /\ age_row_consistent row)
              groups) as [results [Hres Hall]].
  { intros g _. now apply age_group_row_ok. }
  destruct (Forall2_labels _ _ Hall) as [Hlabels Hcons].
  assert (results <> []) as Hne.
  { intros ->. simpl in Hlabels.
    assert (In (cell_at a r0) groups) as Hin.
    { apply Hgroups. split; [now rewrite <- Hfield | eauto]. }
    now rewrite <- Hlabels in Hin. }
  assert (homogeneous (dropna (map Age_Group results)) = true) as Hhom'.
  { rewrite Hlabels. unfold groups.
    rewrite (filter_ext _ (fun r => notna_cell (cell_at a r))) in Hhom
      by (intros r; now rewrite Hfield).
    rewrite (map_ext _ (cell_at a) Hfield) in Hhom. exact Hhom. }
  exists (sort_by (fun x y => cell_leb (Age_Group x) (Age_Group y)) results).
  split.
  - unfold get_funnel_by_age, bind, lift. rewrite Hf.
    rewrite (getcol_index f _ a Ha). cbn [rbind]. unfold notna.
    rewrite map_map. fold df_age.
    rewrite (getcol_index df_age "age_range" a Ha). cbn [rbind].
    rewrite Hrows. fold groups. rewrite Hres. cbn [rbind].
    unfold sort_values_age. rewrite Hhom'.
    destruct results; [contradiction | reflexivity].
  - pose proof (sort_by_perm
                  (fun x y => cell_leb (Age_Group x) (Age_Group y)) results)
      as Hperm.
    split; [|split].
    + apply (Permutation_NoDup
               (Permutation_map Age_Group (Permutation_sym Hperm))).
      rewrite Hlabels. apply uniq_NoDup, cell_eqb_eq.
    + intros g.
      assert (forall g0, In g0 groups <-> g0 <> None /\ exists r, In r (rows f) /\ field f "age_range" r = g0) as Hgroups'
        by (intros g0; rewrite Hgroups; split; intros [H1 [r [H2 H3]]]; (split; [assumption|]); exists r; rewrite Hfield in *; tauto).
      rewrite <- Hgroups', <- Hlabels.
      split; apply Permutation_in; apply Permutation_map;
        [assumption | now apply Permutation_sym].
    + rewrite Forall_forall in *. intros row Hrow. apply Hcons.
      now apply (Permutation_in _ Hperm).
Qed.

Example age_funnel_of_scenario :
  fst (get_funnel_by_age Scenario.loaded)
  = Ok [mkAgeRow (Some (VStr "18-24")) 1 1 0 0].
Proof. reflexivity. Qed.

(** C10.  On a funnel table in which no row has an age range (downloads
    without any signup), [get_funnel_by_age] does not return the empty
    table: the frame built from an empty result list has no [Age_Group]
    column and sorting by it raises [KeyError]. *)
Theorem age_funnel_without_age_range :
  fst (merge_all_data Scenario.no_signups)
    = Ok (mkDF
            ["app_download_key"; "platform"; "user_id"; "session_id";
             "age_range"; "ride_id"; "driver_id"; "request_ts"; "accept_ts";
             "pickup_ts"; "dropoff_ts"; "cancel_ts"; "purchase_amount_usd";
             "charge_status"; "review_id"; "user_id_y"; "driver_id_y"]
            [[Some (VStr "D1"); Some (VStr "ios"); None; None; None; None;
              None; None; None; None; None; None; None; None; None; None;
              None];
             [Some (VStr "D2"); Some (VStr "ios"); None; None; None; None;
              None; None; None; None; None; None; None; None; None; None;
              None];
             [Some (VStr "D3"); Some (VStr "android"); None; None; None;
              None; None; None; None; None; None; None; None; None; None;
              None; None]]) /\
  fst (get_funnel_by_age Scenario.no_signups) = Err (KeyError "Age_Group").
Proof. split; reflexivity. Qed.

(** * Further properties of the handler *)

(** ** The cache of the merged table *)

Lemma funnel_table_caches (self s1 : CityCarDataHandler) (f : DataFrame) :
  funnel_table self = (Ok f, s1) ->
  df_funnel s1 = Some f /\ inputs s1 = inputs self.
Proof.
  unfold funnel_table, bind, get. simpl.
  destruct (df_funnel self) as [f0|] eqn:E.
  - unfold ret. intros H. inversion H; subst. auto.
  - intros H. destruct (merge_all_data_inv _ _ _ H)
      as [f1 [f2 [f3 [f4 [_ [_ [_ [_ [_ ->]]]]]]]]].
    split; reflexivity.
Qed.

Lemma funnel_table_cached (self : CityCarDataHandler) (f : DataFrame) :
  df_funnel self = Some f -> funnel_table self = (Ok f, self).
Proof.
  intros H. unfold funnel_table, bind, get, ret. simpl. now rewrite H.
Qed.

(** X2. Running the merge a second time gives the same result and the same
    object as running it once: the merge reads the five input tables only,
    whatever the cache holds, and overwrites the cache. *)
Theorem merge_all_data_idempotent (self : CityCarDataHandler) :
  merge_all_data (snd (merge_all_data self)) = merge_all_data self.
Proof.
  rewrite (merge_all_data_unfold self).
  destruct (pd_merge (df_downloads self) (df_signups self) _ _)
    as [f1|e] eqn:E1.
  - destruct (pd_merge f1 (df_requests self) _ _) as [f2|e] eqn:E2.
    + destruct (pd_merge f2 (df_transactions self) _ _) as [f3|e] eqn:E3.
      * destruct (pd_merge f3 (df_reviews self) _ _) as [f4|e] eqn:E4;
          rewrite merge_all_data_unfold; simpl;
          rewrite E1, E2, E3, E4; reflexivity.
      * rewrite merge_all_data_unfold. simpl.
        rewrite E1, E2, E3. reflexivity.
    + rewrite merge_all_data_unfold. simpl. rewrite E1, E2. reflexivity.
  - rewrite merge_all_data_unfold. simpl. rewrite E1. reflexivity.
Qed.

(** X3. The three operations on the merged table are memoised: once one of
    them has returned, the merged table is cached, and calling the operation
    again returns the same result and leaves the object as it is. *)
Theorem funnel_operations_memoised (self self' : CityCarDataHandler) :
  (forall d, calculate_funnel_steps self = (Ok d, self') ->
             df_funnel self' <> None /\
             calculate_funnel_steps self' = (Ok d, self')) /\
  (forall t, get_platform_metrics self = (Ok t, self') ->
             df_funnel self' <> None /\
             get_platform_metrics self' = (Ok t, self')) /\
  (forall t, get_funnel_by_age self = (Ok t, self') ->
             df_funnel self' <> None /\
             get_funnel_by_age self' = (Ok t, self')).
Proof.
  assert (forall (B : Type) (g : DataFrame -> result B) (b : B),
            bind funnel_table (fun f => lift (g f)) self = (Ok b, self') ->
            df_funnel self' <> None /\
            bind funnel_table (fun f => lift (g f)) self' = (Ok b, self'))
    as Hgen.
  { intros B g b. unfold bind at 1.
    destruct (funnel_table self) as [[f|e] s1] eqn:E; [|discriminate].
    unfold lift. intros H. inversion H; subst.
    destruct (funnel_table_caches _ _ _ E) as [Hc _].
    split; [congruence|].
    unfold bind. rewrite (funnel_table_cached _ _ Hc). unfold lift.
    congruence. }
  split; [|split]; intros x H; exact (Hgen _ _ _ H).
Qed.

Lemma funnel_operations_memoised_witness :
  df_funnel Scenario.merged <> None /\
  calculate_funnel_steps Scenario.merged
  = (Ok (mkFunnelData
           ["Downloads"; "Signups"; "Requests"; "Accepted"; "Completed";
            "Payment"; "Reviews"] [3; 1; 1; 1; 0; 0; 0]),
     Scenario.merged).
Proof.
  apply (proj1 (funnel_operations_memoised Scenario.loaded Scenario.merged)).
  reflexivity.
Defined.



(** ** Bounds on the funnel counts *)

Lemma uniq_length_le {A} (eqb : A -> A -> bool) (l : list A) :
  length (uniq eqb l) <= length l.
Proof.
  induction l as [|a t IH]; simpl; [lia|].
  pose proof (filter_length_le (fun y => negb (eqb a y)) (uniq eqb t)). lia.
Qed.

Lemma dropna_length_le (s : Series) : length (dropna s) <= length s.
Proof. induction s as [|[v|] t IH]; simpl; lia. Qed.

Lemma nunique_le_length (s : Series) : nunique s <= length s.
Proof.
  unfold nunique. pose proof (uniq_length_le value_eqb (dropna s)).
  pose proof (dropna_length_le s). lia.
Qed.

Lemma nunique_map_le {A} (g : A -> cell) (l : list A) :
  nunique (map g l) <= length l.
Proof. rewrite <- (length_map g l). apply nunique_le_length. Qed.

(** X5. On a merged table with the seven analysed columns, no funnel count
    exceeds the number of rows of the table, and none of the five later
    stages (Requests, Accepted, Completed, Payment, Reviews) counts more
    users than the Signups stage. *)
Theorem funnel_counts_bounded
  (self self' : CityCarDataHandler) (f : DataFrame) :
  funnel_table self = (Ok f, self') ->
  has_columns f funnel_step_columns = true ->
  exists n1 n2 n3 n4 n5 n6 n7,
    calculate_funnel_steps self
    = (Ok (mkFunnelData
             ["Downloads"; "Signups"; "Requests"; "Accepted"; "Completed";
              "Payment"; "Reviews"] [n1; n2; n3; n4; n5; n6; n7]), self') /\
    n1 <= len f /\ n2 <= len f /\
    n3 <= n2 /\ n4 <= n2 /\ n5 <= n2 /\ n6 <= n2 /\ n7 <= n2.
Proof.
  intros Hf Hcols.
  assert (forall c, In c funnel_step_columns -> In c (columns f)) as Hin
    by (intros c; now apply has_columns_In).
  destruct (index_of_some "app_download_key" (columns f)) as [k Hk];
    [apply Hin; simpl; tauto|].
  destruct (index_of_some "user_id" (columns f)) as [u Hu];
    [apply Hin; simpl; tauto|].
  destruct (index_of_some "request_ts" (columns f)) as [q Hq];
    [apply Hin; simpl; tauto|].
  destruct (index_of_some "accept_ts" (columns f)) as [a Ha];
    [apply Hin; simpl; tauto|].
  destruct (index_of_some "dropoff_ts" (columns f)) as [d Hd];
    [apply Hin; simpl; tauto|].
  destruct (index_of_some "charge_status" (columns f)) as [c Hc];
    [apply Hin; simpl; tauto|].
  destruct (index_of_some "review_id" (columns f)) as [v Hv];
    [apply Hin; simpl; tauto|].
  do 7 eexists. split.
  - unfold calculate_funnel_steps, bind, lift. rewrite Hf.
    rewrite (getcol_index f _ k Hk), (getcol_index f _ u Hu),
      (getcol_index f _ q Hq), (getcol_index f _ a Ha),
      (getcol_index f _ d Hd), (getcol_index f _ c Hc),
      (getcol_index f _ v Hv).
    cbn [rbind]. unfold notna, eq_scalar. rewrite !map_map.
    rewrite !(select_by_mask f "user_id" u _ Hu). cbn [rbind].
    reflexivity.
  - unfold len.
    repeat split;
      first [apply nunique_filter_le | apply nunique_map_le].
Qed.

Lemma funnel_counts_bounded_witness :
  exists n1 n2 n3 n4 n5 n6 n7,
    calculate_funnel_steps Scenario.loaded
    = (Ok (mkFunnelData
             ["Downloads"; "Signups"; "Requests"; "Accepted"; "Completed";
              "Payment"; "Reviews"] [n1; n2; n3; n4; n5; n6; n7]),
       Scenario.merged) /\
    n1 <= len Scenario.funnel /\ n2 <= len Scenario.funnel /\
    n3 <= n2 /\ n4 <= n2 /\ n5 <= n2 /\ n6 <= n2 /\ n7 <= n2.
Proof.
  apply (funnel_counts_bounded Scenario.loaded Scenario.merged
           Scenario.funnel).
  - reflexivity.
  - reflexivity.
Defined.

(** ** Shape of the merged table *)

Lemma remove_nth_shorter {A} (j : nat) (l : list A) :
  j < length l -> length (remove_nth j l) + 1 = length l.
Proof.
  intros H. unfold remove_nth.
  rewrite length_app, length_firstn, length_skipn. lia.
Qed.

Lemma pd_merge_width (left right : DataFrame) (k : string) (out : DataFrame) :
  pd_merge left right k k = Ok out ->
  length (columns out) + 1 = length (columns left) + length (columns right).
Proof.
  intros H. destruct (pd_merge_inv _ _ _ _ _ H) as [i [j [_ [Hj [Hc _]]]]].
  rewrite Hc, length_app, !suffix_overlap_length, String.eqb_refl. simpl.
  destruct (index_of_bound _ _ _ Hj) as [Hlt _].
  pose proof (remove_nth_shorter j (columns right) Hlt). lia.
Qed.

Lemma pd_merge_width_two_keys (left right : DataFrame) (lk rk : string)
  (out : DataFrame) :
  String.eqb lk rk = false ->
  pd_merge left right lk rk = Ok out ->
  length (columns out) = length (columns left) + length (columns right).
Proof.
  intros Hne H.
  destruct (pd_merge_inv _ _ _ _ _ H) as [i [j [_ [_ [Hc _]]]]].
  rewrite Hc, length_app, !suffix_overlap_length, Hne. reflexivity.
Qed.

(** X6. The merged table has three columns fewer than the five input tables
    together (the second, third and fourth join keep one copy of their key;
    the first keeps both [app_download_key] and [session_id]), and its rows
    have one cell per column whenever the rows of the input tables do. *)
Theorem merged_table_shape
  (self self' : CityCarDataHandler) (f : DataFrame) :
  merge_all_data self = (Ok f, self') ->
  length (columns f) + 3 = input_width self /\
  (well_formed (df_downloads self) -> well_formed (df_signups self) ->
   well_formed (df_requests self) -> well_formed (df_transactions self) ->
   well_formed (df_reviews self) -> well_formed f).
Proof.
  intros H.
  destruct (merge_all_data_inv _ _ _ H)
    as [f1 [f2 [f3 [f4 [H1 [H2 [H3 [H4 [Hf _]]]]]]]]].
  assert (length (columns f) = length (columns f4)) as Hlen
    by (subst f; rewrite repair_names_columns; apply length_map).
  split.
  - pose proof (pd_merge_width_two_keys _ _ "app_download_key" "session_id"
                  _ eq_refl H1).
    pose proof (pd_merge_width _ _ _ _ H2).
    pose proof (pd_merge_width _ _ _ _ H3).
    pose proof (pd_merge_width _ _ _ _ H4).
    unfold input_width. lia.
  - intros Wd Ws Wr Wt Wv.
    assert (well_formed f4) as W4.
    { eapply pd_merge_well_formed; [| exact Wv | exact H4].
      eapply pd_merge_well_formed; [| exact Wt | exact H3].
      eapply pd_merge_well_formed; [| exact Wr | exact H2].
      eapply pd_merge_well_formed; [exact Wd | exact Ws | exact H1]. }
    unfold well_formed in *. rewrite Hlen.
    subst f. now rewrite repair_names_rows.
Qed.

Lemma merged_table_shape_witness :
  length (columns Scenario.funnel) + 3 = input_width Scenario.loaded /\
  (well_formed (df_downloads Scenario.loaded) ->
   well_formed (df_signups Scenario.loaded) ->
   well_formed (df_requests Scenario.loaded) ->
   well_formed (df_transactions Scenario.loaded) ->
   well_formed (df_reviews Scenario.loaded) ->
   well_formed Scenario.funnel).
Proof.
  apply (merged_table_shape Scenario.loaded Scenario.merged Scenario.funnel).
  reflexivity.
Defined.

Lemma merged_rows_extend_downloads_aux
  (self self' : CityCarDataHandler) (f : DataFrame) :
  merge_all_data self = (Ok f, self') ->
  forall o, In o (rows f) ->
            exists d t, In d (rows (df_downloads self)) /\ o = d ++ t.
Proof.
  intros H o Ho.
  destruct (merge_all_data_inv _ _ _ H)
    as [f1 [f2 [f3 [f4 [H1 [H2 [H3 [H4 [Hf _]]]]]]]]].
  subst f. rewrite repair_names_rows in Ho.
  destruct (pd_merge_rows_from_left _ _ _ _ _ H4 o Ho) as [x3 [t4 [I3 ->]]].
  destruct (pd_merge_rows_from_left _ _ _ _ _ H3 x3 I3) as [x2 [t3 [I2 ->]]].
  destruct (pd_merge_rows_from_left _ _ _ _ _ H2 x2 I2) as [x1 [t2 [I1 ->]]].
  destruct (pd_merge_rows_from_left _ _ _ _ _ H1 x1 I1) as [d [t1 [Id ->]]].
  exists d, (t1 ++ t2 ++ t3 ++ t4). split; [assumption|].
  now rewrite !app_assoc.
Qed.

(** X7. The merge invents no row: every row of the merged table begins with
    a row of the download table, so an empty download table gives an empty
    merged table whatever the other four tables hold. *)
Theorem merged_rows_extend_downloads
  (self self' : CityCarDataHandler) (f : DataFrame) :
  merge_all_data self = (Ok f, self') ->
  (forall o, In o (rows f) ->
             exists d t, In d (rows (df_downloads self)) /\ o = d ++ t) /\
  (rows (df_downloads self) = [] -> rows f = []).
Proof.
  intros H. split; [now apply (merged_rows_extend_downloads_aux _ _ _ H)|].
  intros Hempty. destruct (rows f) as [|o t] eqn:E; [reflexivity|].
  destruct (merged_rows_extend_downloads_aux _ _ _ H o) as [d [_ [Hd _]]].
  - rewrite E. now left.
  - rewrite Hempty in Hd. destruct Hd.
Qed.

Lemma merged_rows_extend_downloads_witness :
  (forall o, In o (rows Scenario.funnel) ->
             exists d t, In d (rows (df_downloads Scenario.loaded)) /\
                         o = d ++ t) /\
  (rows (df_downloads Scenario.loaded) = [] -> rows Scenario.funnel = []).
Proof.
  apply (merged_rows_extend_downloads Scenario.loaded Scenario.merged
           Scenario.funnel).
  reflexivity.
Defined.

(** ** Row counts under unique keys *)

Lemma filter_unique_key {A} (g : A -> cell) (k : cell) (l : list A) :
  NoDup (map g l) ->
  length (filter (fun r => cell_eqb k (g r)) l) <= 1.
Proof.
  induction l as [|a t IH]; simpl; [lia|].
  intros Hnd. inversion Hnd as [|? ? Hnotin Hnd']; subst.
  specialize (IH Hnd').
  destruct (cell_eqb k (g a)) eqn:E; [|assumption].
  apply cell_eqb_eq in E. subst k. simpl.
  rewrite (filter_none (fun r => cell_eqb (g a) (g r)) t); [simpl; lia|].
  intros b Hb. destruct (cell_eqb (g a) (g b)) eqn:E'; [|reflexivity].
  apply cell_eqb_eq in E'. exfalso. apply Hnotin. rewrite E'.
  now apply in_map.
Qed.

Lemma join_row_single (i j : nat) (same : bool) (w : nat)
  (rr : list (list cell)) (x : list cell) :
  NoDup (map (cell_at j) rr) ->
  length (join_row i j same w rr x) = 1.
Proof.
  intros Hnd. unfold join_row.
  pose proof (filter_unique_key (cell_at j) (cell_at i x) rr Hnd) as Hle.
  destruct (filter _ rr) as [|m [|m' ms]]; simpl in *; try reflexivity; lia.
Qed.

Lemma flat_map_length_one {A B} (g : A -> list B) (l : list A) :
  (forall a, length (g a) = 1) -> length (flat_map g l) = length l.
Proof.
  intros Hg. induction l as [|a t IH]; simpl; [reflexivity|].
  rewrite length_app, Hg, IH. reflexivity.
Qed.

Lemma pd_merge_unique_right (left right : DataFrame) (lk rk : string)
  (out : DataFrame) :
  unique_key right rk ->
  pd_merge left right lk rk = Ok out -> len out = len left.
Proof.
  intros Hu H.
  destruct (pd_merge_inv _ _ _ _ _ H) as [i [j [_ [Hj [_ Hr]]]]].
  unfold unique_key in Hu. rewrite (getcol_index _ _ _ Hj) in Hu.
  unfold len. rewrite Hr. apply flat_map_length_one.
  intros x. now apply join_row_single.
Qed.

(** X8. A join whose right key column has no repeated entry adds no row:
    with unique [session_id] in the signups the first join has exactly as
    many rows as there are downloads, and with unique [ride_id] in the
    transactions and in the reviews the merged table has exactly as many
    rows as the table after the join with the requests. *)
Theorem merge_row_count_unique_keys
  (self self' : CityCarDataHandler) (f : DataFrame) :
  merge_all_data self = (Ok f, self') ->
  exists f1 f2,
    pd_merge (df_downloads self) (df_signups self)
      "app_download_key" "session_id" = Ok f1 /\
    pd_merge f1 (df_requests self) "user_id" "user_id" = Ok f2 /\
    (unique_key (df_signups self) "session_id" ->
     len f1 = len (df_downloads self)) /\
    (unique_key (df_requests self) "user_id" -> len f2 = len f1) /\
    (unique_key (df_transactions self) "ride_id" ->
     unique_key (df_reviews self) "ride_id" -> len f = len f2).
Proof.
  intros H.
  destruct (merge_all_data_inv _ _ _ H)
    as [f1 [f2 [f3 [f4 [H1 [H2 [H3 [H4 [Hf _]]]]]]]]].
  exists f1, f2. split; [assumption|]. split; [assumption|].
  split; [|split].
  - intros U. now apply (pd_merge_unique_right _ _ _ _ _ U H1).
  - intros U. now apply (pd_merge_unique_right _ _ _ _ _ U H2).
  - intros Ut Uv.
    rewrite <- (pd_merge_unique_right _ _ _ _ _ Ut H3).
    rewrite <- (pd_merge_unique_right _ _ _ _ _ Uv H4).
    unfold len. subst f. now rewrite repair_names_rows.
Qed.

Lemma merge_row_count_unique_keys_witness :
  exists f1 f2,
    pd_merge (df_downloads Scenario.loaded) (df_signups Scenario.loaded)
      "app_download_key" "session_id" = Ok f1 /\
    pd_merge f1 (df_requests Scenario.loaded) "user_id" "user_id" = Ok f2 /\
    (unique_key (df_signups Scenario.loaded) "session_id" ->
     len f1 = len (df_downloads Scenario.loaded)) /\
    (unique_key (df_requests Scenario.loaded) "user_id" ->
     len f2 = len f1) /\
    (unique_key (df_transactions Scenario.loaded) "ride_id" ->
     unique_key (df_reviews Scenario.loaded) "ride_id" ->
     len Scenario.funnel = len f2).
Proof.
  apply (merge_row_count_unique_keys Scenario.loaded Scenario.merged
           Scenario.funnel).
  reflexivity.
Defined.

(** ** The download stage *)

Lemma in_remove_nth_inv {A} (k : A) (j : nat) (l : list A) :
  In k (remove_nth j l) -> In k l.
Proof.
  unfold remove_nth. intros H. apply in_app_or in H.
  rewrite <- (firstn_skipn j l).
  destruct H as [H|H]; apply in_or_app; [now left | right].
  rewrite <- (firstn_skipn 1 (skipn j l)). apply in_or_app. right.
  now rewrite skipn_skipn.
Qed.

Lemma in_right_part {A} (same : bool) (j : nat) (k : A) (l : list A) :
  In k (right_part same j l) -> In k l.
Proof. destruct same; simpl; [apply in_remove_nth_inv | auto]. Qed.

Lemma download_key_no_x (c : string) :
  String.append c "_x" <> "app_download_key".
Proof. intros H. suffix_clash H c. Qed.

(** A left label that the right table does not carry keeps its place in a
    join. *)
Lemma pd_merge_keeps_download_key (left right : DataFrame) (lk rk : string)
  (out : DataFrame) (i : nat) :
  pd_merge left right lk rk = Ok out ->
  index_of "app_download_key" (columns left) = Some i ->
  ~ In "app_download_key" (columns right) ->
  index_of "app_download_key" (columns out) = Some i.
Proof.
  intros H Hi Hr.
  destruct (pd_merge_inv _ _ _ _ _ H) as [a [j [_ [_ [Hc _]]]]].
  rewrite Hc. unfold suffix_overlap at 1.
  assert (forall c, In c (right_part (String.eqb lk rk) j (columns right)) ->
                    c <> "app_download_key") as Hrc.
  { intros c Hc' ->. apply Hr. eapply in_right_part. exact Hc'. }
  apply index_of_map_keeps; [assumption | |].
  - destruct (existsb _ _) eqn:E; [|reflexivity].
    apply existsb_exists in E. destruct E as [c [Hc' Heq]].
    apply String.eqb_eq in Heq. subst c. exfalso. now apply (Hrc _ Hc').
  - intros c _ Hne. destruct (existsb _ _); [apply download_key_no_x|].
    assumption.
Qed.

Lemma repair_keeps_download_key (f : DataFrame) (i : nat) :
  index_of "app_download_key" (columns f) = Some i ->
  index_of "app_download_key" (columns (repair_names f)) = Some i.
Proof.
  intros Hi. rewrite repair_names_columns.
  rewrite <- (app_nil_r (map repair_label (columns f))).
  apply index_of_map_keeps; [assumption | reflexivity |].
  intros c _ Hne E. unfold repair_label, rename_label in E.
  destruct (String.eqb_spec c "driver_id_x"); simpl in E;
    [discriminate|].
  destruct (String.eqb_spec c "user_id_x"); [discriminate | contradiction].
Qed.

Lemma nunique_same_values (s1 s2 : Series) :
  (forall v, In (Some v) s1 <-> In (Some v) s2) -> nunique s1 = nunique s2.
Proof.
  intros H. unfold nunique. apply Nat.le_antisymm;
    (apply NoDup_incl_length; [apply uniq_NoDup, value_eqb_eq|]);
    intros v Hv; rewrite (uniq_In _ value_eqb_eq), dropna_In in *;
    now apply H.
Qed.

(** X9. When only the download table carries an [app_download_key] column,
    the merged table keeps that column, and its number of distinct keys (the
    Downloads stage of the funnel) is the number of distinct keys of the
    download table: joins may repeat a download but neither lose nor add
    one. *)
Theorem downloads_stage_counts_download_keys
  (self self' : CityCarDataHandler) (f : DataFrame) :
  merge_all_data self = (Ok f, self') ->
  well_formed (df_downloads self) ->
  In "app_download_key" (columns (df_downloads self)) ->
  ~ In "app_download_key" (columns (df_signups self)) ->
  ~ In "app_download_key" (columns (df_requests self)) ->
  ~ In "app_download_key" (columns (df_transactions self)) ->
  ~ In "app_download_key" (columns (df_reviews self)) ->
  exists merged_keys download_keys,
    getcol f "app_download_key" = Ok merged_keys /\
    getcol (df_downloads self) "app_download_key" = Ok download_keys /\
    nunique merged_keys = nunique download_keys.
Proof.
  intros H Wd Hin Ns Nr Nt Nv.
  destruct (merge_all_data_inv _ _ _ H)
    as [f1 [f2 [f3 [f4 [H1 [H2 [H3 [H4 [Hf _]]]]]]]]].
  destruct (index_of_some _ _ Hin) as [i Hi].
  pose proof (pd_merge_keeps_download_key _ _ _ _ _ i H1 Hi Ns) as I1.
  pose proof (pd_merge_keeps_download_key _ _ _ _ _ i H2 I1 Nr) as I2.
  pose proof (pd_merge_keeps_download_key _ _ _ _ _ i H3 I2 Nt) as I3.
  pose proof (pd_merge_keeps_download_key _ _ _ _ _ i H4 I3 Nv) as I4.
  pose proof (repair_keeps_download_key f4 i I4) as If. rewrite <- Hf in If.
  exists (map (cell_at i) (rows f)),
    (map (cell_at i) (rows (df_downloads self))).
  split; [now apply getcol_index|]. split; [now apply getcol_index|].
  assert (forall d, In d (rows (df_downloads self)) -> i < length d) as Hlen.
  { intros d Hd. unfold well_formed in Wd. rewrite Forall_forall in Wd.
    rewrite (Wd d Hd). now destruct (index_of_bound _ _ _ Hi). }
  apply nunique_same_values. intros v. rewrite !in_map_iff. split.
  - intros [o [Ho Hino]].
    destruct (merged_rows_extend_downloads_aux _ _ _ H o Hino)
      as [d [t [Hd ->]]].
    exists d. split; [|assumption].
    rewrite <- Ho. symmetry. apply cell_at_app_left. now apply Hlen.
  - intros [d [Hd Hind]].
    assert (exists t, In (d ++ t) (rows f)) as [t Ht].
    { destruct (pd_merge_complete _ _ _ _ _ H1) as [_ K1].
      destruct (pd_merge_complete _ _ _ _ _ H2) as [_ K2].
      destruct (pd_merge_complete _ _ _ _ _ H3) as [_ K3].
      destruct (pd_merge_complete _ _ _ _ _ H4) as [_ K4].
      destruct (K1 d Hind) as [[t1 T1] _].
      destruct (K2 _ T1) as [[t2 T2] _].
      destruct (K3 _ T2) as [[t3 T3] _].
      destruct (K4 _ T3) as [[t4 T4] _].
      exists (t1 ++ t2 ++ t3 ++ t4). subst f. rewrite repair_names_rows.
      now rewrite !app_assoc in *. }
    exists (d ++ t). split; [|assumption].
    rewrite <- Hd. apply cell_at_app_left. now apply Hlen.
Qed.

Lemma downloads_stage_counts_download_keys_witness :
  exists merged_keys download_keys,
    getcol Scenario.funnel "app_download_key" = Ok merged_keys /\
    getcol (df_downloads Scenario.loaded) "app_download_key"
      = Ok download_keys /\
    nunique merged_keys = nunique download_keys.
Proof.
  apply (downloads_stage_counts_download_keys Scenario.loaded Scenario.merged
           Scenario.funnel).
  - reflexivity.
  - repeat constructor.
  - simpl. tauto.
  - simpl. intuition discriminate.
  - simpl. intuition discriminate.
  - simpl. intuition discriminate.
  - simpl. intuition discriminate.
Defined.

(** ** The drop-off gap *)

Lemma filter_and_length {A} (p q : A -> bool) (l : list A) :
  length (filter (fun r => p r && q r) l) = mask_sum (map q (filter p l)).
Proof.
  unfold mask_sum. induction l as [|r t IH]; simpl; [reflexivity|].
  destruct (p r); simpl; [|assumption].
  destruct (q r); simpl; now rewrite IH.
Qed.

Lemma dropoff_gap_explicit (self : CityCarDataHandler) :
  has_columns (df_requests self) ["accept_ts"; "dropoff_ts"; "cancel_ts"]
    = true ->
  let n := length (filter (problem_ride (df_requests self))
                     (rows (df_requests self))) in
  let c := length (filter (cancelled_after_accept (df_requests self))
                     (rows (df_requests self))) in
  analyze_dropoff_gap self
  = (Ok (mkDropoff n c
           (if Nat.ltb 0 n
            then Some ((Qnat c / Qnat n) * (100 # 1))%Q else None)), self)
  /\ c <= n.
Proof.
  intros Hcols. set (requests := df_requests self) in *.
  assert (forall k, In k ["accept_ts"; "dropoff_ts"; "cancel_ts"]
                    -> In k (columns requests)) as Hin
    by (intros k; now apply has_columns_In).
  destruct (index_of_some "accept_ts" (columns requests)) as [a Ha];
    [apply Hin; simpl; tauto|].
  destruct (index_of_some "dropoff_ts" (columns requests)) as [d Hd];
    [apply Hin; simpl; tauto|].
  destruct (index_of_some "cancel_ts" (columns requests)) as [c Hc];
    [apply Hin; simpl; tauto|].
  assert (filter (problem_ride requests) (rows requests)
          = filter (fun r => notna_cell (cell_at a r)
                             && isna_cell (cell_at d r)) (rows requests))
    as Ep.
  { apply filter_ext. intros r. unfold problem_ride, field.
    now rewrite Ha, Hd. }
  assert (length (filter (cancelled_after_accept requests) (rows requests))
          = mask_sum (map (fun r => notna_cell (cell_at c r))
                        (filter (fun r => notna_cell (cell_at a r)
                                          && isna_cell (cell_at d r))
                           (rows requests)))) as Ec.
  { rewrite (filter_ext (cancelled_after_accept requests)
               (fun r => (notna_cell (cell_at a r) && isna_cell (cell_at d r))
                         && notna_cell (cell_at c r)))
      by (intros r; unfold cancelled_after_accept, field;
          now rewrite Ha, Hd, Hc).
    apply filter_and_length. }
  cbv zeta. rewrite Ec, Ep. split.
  - unfold analyze_dropoff_gap, bind, get, lift. simpl. fold requests.
    rewrite (getcol_index requests _ a Ha), (getcol_index requests _ d Hd).
    cbn [rbind]. unfold notna, isna. rewrite !map_map, mask_and_map.
    rewrite (select_by_mask requests "cancel_ts" c _ Hc). cbn [rbind].
    unfold len. rewrite select_rows_filter, map_map. reflexivity.
  - unfold mask_sum. rewrite <- (length_map (fun r => notna_cell (cell_at c r))
                                   (filter _ (rows requests))).
    apply filter_length_le.
Qed.

Lemma Qnat_ratio_bounds (c n : nat) :
  c <= n -> 0 < n ->
  (0 <= (Qnat c / Qnat n) * (100 # 1) <= 100 # 1)%Q.
Proof.
  intros Hcn Hn. unfold Qnat.
  assert (0 < inject_Z (Z.of_nat n))%Q as Hpos
    by (rewrite <- (Zlt_Qlt 0); lia).
  assert (0 <= inject_Z (Z.of_nat c))%Q as Hc0
    by (rewrite <- (Zle_Qle 0); lia).
  assert (inject_Z (Z.of_nat c) <= inject_Z (Z.of_nat n))%Q as Hle
    by (rewrite <- Zle_Qle; lia).
  assert (0 <= inject_Z (Z.of_nat c) / inject_Z (Z.of_nat n))%Q as H0
    by (apply Qle_shift_div_l; [assumption | lra]).
  assert (inject_Z (Z.of_nat c) / inject_Z (Z.of_nat n) <= 1)%Q as H1
    by (apply Qle_shift_div_r; [assumption | lra]).
  split; lra.
Qed.

(** X10. On a request table with its accept, drop-off and cancel columns,
    [analyze_dropoff_gap] never raises: it reports the number of rides that
    were accepted but never dropped off and, among them, the number with a
    cancel time; the rate is left out exactly when there is no such ride and
    is otherwise a percentage between 0 and 100. *)
Theorem dropoff_gap_rate (self : CityCarDataHandler) :
  has_columns (df_requests self) ["accept_ts"; "dropoff_ts"; "cancel_ts"]
    = true ->
  exists report,
    analyze_dropoff_gap self = (Ok report, self) /\
    count_problems report
      = length (filter (problem_ride (df_requests self))
                  (rows (df_requests self))) /\
    cancelled_count report
      = length (filter (cancelled_after_accept (df_requests self))
                  (rows (df_requests self))) /\
    cancelled_count report <= count_problems report /\
    (quote report = None <-> count_problems report = 0) /\
    (forall q, quote report = Some q -> (0 <= q <= 100 # 1)%Q).
Proof.
  intros Hcols. destruct (dropoff_gap_explicit self Hcols) as [Heq Hle].
  cbv zeta in Heq.
  eexists. split; [exact Heq|]. simpl.
  split; [reflexivity|]. split; [reflexivity|]. split; [exact Hle|].
  set (n := length (filter (problem_ride _) _)) in *.
  set (c := length (filter (cancelled_after_accept _) _)) in *.
  destruct (Nat.ltb_spec 0 n) as [Hpos|Hz].
  - split; [split; [discriminate | lia]|].
    intros q Hq. inversion Hq; subst. now apply Qnat_ratio_bounds.
  - split; [split; [lia | reflexivity] | discriminate].
Qed.

Lemma dropoff_gap_rate_witness :
  exists report,
    analyze_dropoff_gap Scenario.loaded = (Ok report, Scenario.loaded) /\
    count_problems report
      = length (filter (problem_ride (df_requests Scenario.loaded))
                  (rows (df_requests Scenario.loaded))) /\
    cancelled_count report
      = length (filter (cancelled_after_accept (df_requests Scenario.loaded))
                  (rows (df_requests Scenario.loaded))) /\
    cancelled_count report <= count_problems report /\
    (quote report = None <-> count_problems report = 0) /\
    (forall q, quote report = Some q -> (0 <= q <= 100 # 1)%Q).
Proof.
  apply (dropoff_gap_rate Scenario.loaded). reflexivity.
Defined.

(** ** Waiting times *)


Lemma dropnaQ_nonempty {A} (g : A -> option Q) (l : list A) (x : A) :
  In x l -> g x <> None -> dropnaQ (map g l) <> [].
Proof.
  induction l as [|a t IH]; simpl; [tauto|].
  intros [->|Hin] Hg.
  - destruct (g x); [discriminate | contradiction].
  - destruct (g a); [discriminate | now apply IH].
Qed.

Lemma meanQ_some (l : list Q) : l <> [] -> meanQ l <> None.
Proof. destruct l; [contradiction | discriminate]. Qed.

(** X12. On a request table with datetime columns in which at least one ride
    was cancelled after its acceptance, [analyze_cancellation_reasons]
    returns, without raising, the mean minutes from acceptance to pick-up
    over the rides that were dropped off and the mean minutes from acceptance
    to cancellation over the rides cancelled after acceptance; the second
    mean is always a number. *)
Theorem cancellation_reasons_result (self : CityCarDataHandler) :
  has_columns (df_requests self)
    ["dropoff_ts"; "pickup_ts"; "accept_ts"; "cancel_ts"] = true ->
  datetime_column (df_requests self) "pickup_ts" = true ->
  datetime_column (df_requests self) "accept_ts" = true ->
  datetime_column (df_requests self) "cancel_ts" = true ->
  (exists r, In r (rows (df_requests self)) /\
             cancelled_after_accept (df_requests self) r = true) ->
  analyze_cancellation_reasons self
  = (Ok (mean (map (wait_minutes (df_requests self))
                 (dropped_off (df_requests self))),
         mean (map (patience_minutes (df_requests self))
                 (filter (cancelled_after_accept (df_requests self))
                    (rows (df_requests self))))), self) /\
  mean (map (patience_minutes (df_requests self))
          (filter (cancelled_after_accept (df_requests self))
             (rows (df_requests self)))) <> None.
Proof.
  intros Hcols Tp Ta Tc [r0 [Hr0 Hc0]].
  set (requests := df_requests self) in *.
  assert (forall c, In c ["dropoff_ts"; "pickup_ts"; "accept_ts"; "cancel_ts"]
                    -> In c (columns requests)) as Hin
    by (intros c; now apply has_columns_In).
  destruct (index_of_some "dropoff_ts" (columns requests)) as [d Hd];
    [apply Hin; simpl; tauto|].
  destruct (index_of_some "pickup_ts" (columns requests)) as [p Hp];
    [apply Hin; simpl; tauto|].
  destruct (index_of_some "accept_ts" (columns requests)) as [a Ha];
    [apply Hin; simpl; tauto|].
  destruct (index_of_some "cancel_ts" (columns requests)) as [c Hc];
    [apply Hin; simpl; tauto|].
  pose proof (datetime_column_cells _ _ _ Hp Tp) as Fp.
  pose proof (datetime_column_cells _ _ _ Ha Ta) as Fa.
  pose proof (datetime_column_cells _ _ _ Hc Tc) as Fc.
  set (pc := fun r => notna_cell (cell_at a r) && isna_cell (cell_at d r)
                      && notna_cell (cell_at c r)).
  assert (filter (cancelled_after_accept requests) (rows requests)
          = filter pc (rows requests)) as Ecan.
  { apply filter_ext. intros r. unfold cancelled_after_accept, field, pc.
    now rewrite Ha, Hd, Hc. }
  assert (dropped_off requests
          = filter (fun r => notna_cell (cell_at d r)) (rows requests))
    as Edro.
  { apply filter_ext. intros r. unfold field. now rewrite Hd. }
  assert (forall l, map (wait_minutes requests) l
                    = map (fun r => minutes (sub_cells (cell_at p r)
                                               (cell_at a r))) l) as Ew.
  { intros l. apply map_ext. intros r. unfold wait_minutes, field.
    rewrite Hp, Ha.
    destruct (cell_at p r) as [[?|?|?]|], (cell_at a r) as [[?|?|?]|];
      reflexivity. }
  assert (forall l, map (patience_minutes requests) l
                    = map (fun r => minutes (sub_cells (cell_at c r)
                                               (cell_at a r))) l) as Epa.
  { intros l. apply map_ext. intros r. unfold patience_minutes, field.
    rewrite Hc, Ha.
    destruct (cell_at c r) as [[?|?|?]|], (cell_at a r) as [[?|?|?]|];
      reflexivity. }
  assert (In r0 (filter pc (rows requests))) as Hr0'.
  { rewrite <- Ecan. apply filter_In. tauto. }
  rewrite Ecan, Edro, Ew, Epa. split.
  - unfold analyze_cancellation_reasons, bind, get, lift. simpl.
    fold requests. f_equal.
    rewrite (getcol_index requests _ d Hd). cbn [rbind].
    unfold notna, isna. rewrite !map_map.
    rewrite (select_by_mask requests "pickup_ts" p
               (fun r => notna_cell (cell_at d r)) Hp). cbn [rbind].
    rewrite (select_by_mask requests "accept_ts" a
               (fun r => notna_cell (cell_at d r)) Ha). cbn [rbind].
    rewrite series_sub_datetime by (now apply forallb_map_filter).
    cbn [rbind].
    rewrite (getcol_index requests _ a Ha). cbn [rbind].
    rewrite (getcol_index requests _ c Hc). cbn [rbind].
    rewrite !map_map, !mask_and_map. fold pc.
    rewrite (select_by_mask requests "cancel_ts" c pc Hc). cbn [rbind].
    rewrite (select_by_mask requests "accept_ts" a pc Ha). cbn [rbind].
    rewrite series_sub_datetime by (now apply forallb_map_filter).
    cbn [rbind].
    assert (len (select requests (map pc (rows requests)))
            = length (filter pc (rows requests))) as Elen
      by (unfold len; now rewrite select_rows_filter).
    rewrite Elen.
    destruct (length (filter pc (rows requests))) eqn:En.
    { apply length_zero_iff_nil in En. rewrite En in Hr0'. destruct Hr0'. }
    cbn [py_div rbind].
    rewrite (dt_hour_datetime _ (forallb_map_filter _ _ pc _ Fc)).
    cbn [rbind]. rewrite !map_map. reflexivity.
  - unfold mean. apply meanQ_some.
    apply (dropnaQ_nonempty _ _ r0 Hr0').
    apply filter_In in Hr0'. destruct Hr0' as [Hin0 Hpc0].
    rewrite forallb_forall in Fa, Fc.
    specialize (Fa (cell_at a r0) (in_map _ _ _ Hin0)).
    specialize (Fc (cell_at c r0) (in_map _ _ _ Hin0)).
    unfold pc in Hpc0.
    destruct (cell_at a r0) as [[?|?|?]|], (cell_at c r0) as [[?|?|?]|];
      simpl in *; try discriminate;
      rewrite ?andb_false_r in Hpc0; discriminate.
Qed.

Lemma cancellation_reasons_result_witness :
  analyze_cancellation_reasons Scenario.loaded
  = (Ok (mean (map (wait_minutes (df_requests Scenario.loaded))
                 (dropped_off (df_requests Scenario.loaded))),
         mean (map (patience_minutes (df_requests Scenario.loaded))
                 (filter (cancelled_after_accept (df_requests Scenario.loaded))
                    (rows (df_requests Scenario.loaded))))),
     Scenario.loaded) /\
  mean (map (patience_minutes (df_requests Scenario.loaded))
          (filter (cancelled_after_accept (df_requests Scenario.loaded))
             (rows (df_requests Scenario.loaded)))) <> None.
Proof.
  apply (cancellation_reasons_result Scenario.loaded).
  - reflexivity.
  - reflexivity.
  - reflexivity.
  - reflexivity.
  - eexists. split; [left; reflexivity | reflexivity].
Defined.

(** ** Platform segments *)

Lemma string_leb_total (s t : string) :
  String.leb s t = true \/ String.leb t s = true.
Proof.
  unfold String.leb. rewrite (String.compare_antisym t s).
  destruct (String.compare s t); simpl; auto.
Qed.

Lemma value_leb_total (a b : value) :
  value_leb a b = true \/ value_leb b a = true.
Proof.
  destruct a, b; simpl; auto.
  - apply string_leb_total.
  - destruct (Z.leb_spec n n0); [now left | right; apply Z.leb_le; lia].
  - destruct (Z.leb_spec ns ns0); [now left | right; apply Z.leb_le; lia].
Qed.

Lemma Forall2_map_eq {A B} (P : A -> B -> Prop) (h : B -> A)
  (Q : B -> Prop) (l : list A) (bs : list B) :
  Forall2 (fun a b => h b = a /\ Q b) l bs ->
  map h bs = l /\ Forall Q bs.
Proof.
  induction 1 as [|a b l' bs' [Ha Hq] _ [IHm IHf]]; simpl.
  - split; [reflexivity | constructor].
  - split; [congruence | now constructor].
Qed.

Lemma platform_group_ok (f : DataFrame) (pi ki di : nat) (g : value) :
  index_of "platform" (columns f) = Some pi ->
  index_of "app_download_key" (columns f) = Some ki ->
  index_of "dropoff_ts" (columns f) = Some di ->
  exists row,
    (key <~ getcol (select f (eq_scalar (map (cell_at pi) (rows f)) g))
              "app_download_key" ;;
     dro <~ getcol (select f (eq_scalar (map (cell_at pi) (rows f)) g))
              "dropoff_ts" ;;
     Ok (mkPlatformRow g (nunique key) (mask_sum (notna dro))
           (np_scale (np_div (mask_sum (notna dro)) (nunique key))
              (100 # 1)))) = Ok row /\
    Platform row = g /\ platform_row_correct f row.
Proof.
  intros Hp Hk Hd.
  set (p := fun r => cell_eq_scalar g (cell_at pi r)).
  assert (eq_scalar (map (cell_at pi) (rows f)) g = map p (rows f)) as Em
    by (unfold eq_scalar; now rewrite map_map).
  rewrite Em.
  assert (In "app_download_key" (columns f)) as Hkin.
  { destruct (in_dec string_dec "app_download_key" (columns f)) as [H|H];
      [exact H|]. apply index_of_none in H. congruence. }
  destruct (nunique_select f "app_download_key" p Hkin) as [uid [Gk Dk]].
  rewrite Gk. cbn [rbind].
  rewrite (select_by_mask f "dropoff_ts" di p Hd). cbn [rbind].
  eexists. split; [reflexivity|]. split; [reflexivity|].
  unfold platform_row_correct.
  cbn [Completed_Rides Downloads Conversion_Rate Platform].
  split; [|split].
  - eapply distinct_count_ext; [|exact Dk].
    intros r. unfold p, field. rewrite Hp. apply cell_eq_scalar_true.
  - unfold notna. rewrite map_map, <- filter_and_length.
    f_equal. apply filter_ext. intros r. unfold p, field.
    now rewrite Hp, Hd.
  - destruct (nunique uid); [destruct (mask_sum _)|]; reflexivity.
Qed.

(** X13. On a merged table with its platform, download-key and drop-off
    columns, [get_platform_metrics] returns one row per distinct non-null
    platform, in ascending order of the label.  A row gives the number of
    distinct download keys and the number of dropped-off rides among the
    rows of its platform; the conversion rate is their quotient times 100,
    and NaN or an infinity (never an exception) when the group has no
    download key. *)
Theorem platform_metrics_rows
  (self self' : CityCarDataHandler) (f : DataFrame) :
  funnel_table self = (Ok f, self') ->
  has_columns f ["platform"; "app_download_key"; "dropoff_ts"] = true ->
  exists out,
    get_platform_metrics self = (Ok out, self') /\
    Sorted (fun a b => value_leb a b = true) (map Platform out) /\
    NoDup (map Platform out) /\
    (forall p, In p (map Platform out) <->
               exists r, In r (rows f) /\ field f "platform" r = Some p) /\
    Forall (platform_row_correct f) out.
Proof.
  intros Hf Hcols.
  assert (forall c, In c ["platform"; "app_download_key"; "dropoff_ts"]
                    -> In c (columns f)) as Hin
    by (intros c; now apply has_columns_In).
  destruct (index_of_some "platform" (columns f)) as [pi Hp];
    [apply Hin; simpl; tauto|].
  destruct (index_of_some "app_download_key" (columns f)) as [ki Hk];
    [apply Hin; simpl; tauto|].
  destruct (index_of_some "dropoff_ts" (columns f)) as [di Hd];
    [apply Hin; simpl; tauto|].
  set (plat := map (cell_at pi) (rows f)).
  set (groups := sort_by value_leb (uniq value_eqb (dropna plat))).
  destruct (rmap_ok
              (fun g =>
                 key <~ getcol (select f (eq_scalar plat g))
                          "app_download_key" ;;
                 dro <~ getcol (select f (eq_scalar plat g)) "dropoff_ts" ;;
                 Ok (mkPlatformRow g (nunique key) (mask_sum (notna dro))
                       (np_scale (np_div (mask_sum (notna dro)) (nunique key))
                          (100 # 1))))
              (fun g row => Platform row = g /\ platform_row_correct f row)
              groups) as [out [Hout Hall]].
  { intros g _. now apply platform_group_ok with (ki := ki) (di := di). }
  destruct (Forall2_map_eq (fun _ _ => True) Platform _ _ _ Hall)
    as [Hlabels Hrows].
  pose proof (sort_by_perm value_leb (uniq value_eqb (dropna plat)))
    as Hperm. fold groups in Hperm.
  exists out. split.
  - unfold get_platform_metrics, bind, lift. rewrite Hf.
    rewrite (getcol_index f _ pi Hp), (getcol_index f _ ki Hk),
      (getcol_index f _ di Hd). cbn [rbind]. fold plat. fold groups.
    now rewrite Hout.
  - rewrite Hlabels. split; [|split; [|split]].
    + unfold groups. apply sort_by_sorted. apply value_leb_total.
    + apply (Permutation_NoDup (Permutation_sym Hperm)).
      apply uniq_NoDup, value_eqb_eq.
    + intros p. split.
      * intros H. apply (Permutation_in _ Hperm) in H.
        rewrite (uniq_In _ value_eqb_eq), dropna_In in H.
        unfold plat in H. apply in_map_iff in H.
        destruct H as [r [Hr Hinr]]. exists r. split; [assumption|].
        unfold field. now rewrite Hp.
      * intros [r [Hr Hv]].
        apply (Permutation_in _ (Permutation_sym Hperm)).
        rewrite (uniq_In _ value_eqb_eq), dropna_In.
        unfold plat. apply in_map_iff. exists r. split; [|assumption].
        unfold field in Hv. now rewrite Hp in Hv.
    + exact Hrows.
Qed.

Lemma platform_metrics_rows_witness :
  exists out,
    get_platform_metrics Scenario.loaded = (Ok out, Scenario.merged) /\
    Sorted (fun a b => value_leb a b = true) (map Platform out) /\
    NoDup (map Platform out) /\
    (forall p, In p (map Platform out) <->
               exists r, In r (rows Scenario.funnel) /\
                         field Scenario.funnel "platform" r = Some p) /\
    Forall (platform_row_correct Scenario.funnel) out.
Proof.
  apply (platform_metrics_rows Scenario.loaded Scenario.merged
           Scenario.funnel).
  - reflexivity.
  - reflexivity.
Defined.


(** ** Age segments *)

Lemma age_funnel_rows_witness :
  exists out,
    get_funnel_by_age Scenario.loaded = (Ok out, Scenario.merged) /\
    NoDup (map Age_Group out) /\
    (forall g, In g (map Age_Group out) <->
               g <> None /\
               exists r, In r (rows Scenario.funnel) /\
                         field Scenario.funnel "age_range" r = g) /\
    Forall age_row_consistent out.
Proof.
  apply (age_funnel_rows Scenario.loaded Scenario.merged Scenario.funnel).
  - reflexivity.
  - reflexivity.
  - eexists. split; [left; reflexivity | discriminate].
  - reflexivity.
Defined.

(** X15. Whenever the merged table has an [age_range] column without any
    non-null entry (in particular when it has no row), [get_funnel_by_age]
    raises [KeyError] for [Age_Group]: no group is visited, the result frame
    is built from an empty list, and the sort finds no such column. *)
Theorem age_funnel_needs_an_age
  (self self' : CityCarDataHandler) (f : DataFrame) :
  funnel_table self = (Ok f, self') ->
  In "age_range" (columns f) ->
  (forall r, In r (rows f) -> field f "age_range" r = None) ->
  get_funnel_by_age self = (Err (KeyError "Age_Group"), self').
Proof.
  intros Hf Hin Hnull.
  destruct (index_of_some _ _ Hin) as [a Ha].
  unfold get_funnel_by_age, bind, lift. rewrite Hf.
  rewrite (getcol_index f _ a Ha). cbn [rbind]. unfold notna.
  rewrite map_map.
  rewrite (select_by_mask f "age_range" a _ Ha). cbn [rbind].
  rewrite (filter_none (fun r => notna_cell (cell_at a r)) (rows f)).
  - reflexivity.
  - intros r Hr. specialize (Hnull r Hr). unfold field in Hnull.
    rewrite Ha in Hnull. now rewrite Hnull.
Qed.

Lemma age_funnel_needs_an_age_witness :
  get_funnel_by_age Scenario.no_signups
  = (Err (KeyError "Age_Group"),
     snd (funnel_table Scenario.no_signups)).
Proof.
  apply (age_funnel_needs_an_age Scenario.no_signups
           (snd (funnel_table Scenario.no_signups))
           (mkDF
              ["app_download_key"; "platform"; "user_id"; "session_id";
               "age_range"; "ride_id"; "driver_id"; "request_ts";
               "accept_ts"; "pickup_ts"; "dropoff_ts"; "cancel_ts";
               "purchase_amount_usd"; "charge_status"; "review_id";
               "user_id_y"; "driver_id_y"]
              [[Some (VStr "D1"); Some (VStr "ios"); None; None; None; None;
                None; None; None; None; None; None; None; None; None; None;
                None];
               [Some (VStr "D2"); Some (VStr "ios"); None; None; None; None;
                None; None; None; None; None; None; None; None; None; None;
                None];
               [Some (VStr "D3"); Some (VStr "android"); None; None; None;
                None; None; None; None; None; None; None; None; None; None;
                None; None]])).
  - reflexivity.
  - simpl. tauto.
  - intros r [<-|[<-|[<-|[]]]]; reflexivity.
Defined.

(** ** Totals of the hourly histogram *)

Lemma list_sum_perm (l l' : list nat) :
  Permutation l l' -> list_sum l = list_sum l'.
Proof.
  induction 1; simpl; lia.
Qed.

Lemma indicator_absent (x : Z) (ks : list Z) :
  ~ In x ks ->
  list_sum (map (fun k => if Z.eqb k x then 1 else 0) ks) = 0.
Proof.
  induction ks as [|k t IH]; simpl; [reflexivity|].
  intros H. destruct (Z.eqb_spec k x) as [->|_].
  - exfalso. apply H. now left.
  - apply IH. intros Hin. apply H. now right.
Qed.

Lemma indicator_present (x : Z) (ks : list Z) :
  NoDup ks -> In x ks ->
  list_sum (map (fun k => if Z.eqb k x then 1 else 0) ks) = 1.
Proof.
  induction 1 as [|k t Hnotin Hnd IH]; simpl; [tauto|].
  intros [->|Hin].
  - rewrite Z.eqb_refl, indicator_absent; [reflexivity | assumption].
  - destruct (Z.eqb_spec k x) as [->|_]; [contradiction|].
    now apply IH.
Qed.

Lemma counts_sum (ks xs : list Z) :
  NoDup ks -> (forall x, In x xs -> In x ks) ->
  list_sum (map (fun k => count_of Z.eqb k xs) ks) = length xs.
Proof.
  intros Hnd. induction xs as [|x t IH]; intros Hcov.
  - unfold count_of. simpl. clear.
    induction ks as [|k ks IHk]; simpl; [reflexivity | exact IHk].
  - assert (list_sum (map (fun k => count_of Z.eqb k (x :: t)) ks)
            = list_sum (map (fun k => if Z.eqb k x then 1 else 0) ks)
              + list_sum (map (fun k => count_of Z.eqb k t) ks)) as E.
    { clear. induction ks as [|k ks IHk]; simpl; [reflexivity|].
      rewrite IHk. unfold count_of. simpl.
      destruct (Z.eqb k x); simpl; lia. }
    rewrite E, (indicator_present x ks Hnd) by (apply Hcov; now left).
    rewrite IH by (intros y Hy; apply Hcov; now right).
    reflexivity.
Qed.

Lemma value_counts_total (s : list (option Z)) :
  list_sum (map snd (sort_index (value_counts s))) = length (dropnaZ s).
Proof.
  unfold sort_index, value_counts, frequencies.
  rewrite (list_sum_perm _ _
             (Permutation_map snd
                (perm_trans (sort_by_perm _ _) (sort_by_perm _ _)))).
  rewrite map_map. simpl.
  apply counts_sum.
  - apply uniq_NoDup, Z.eqb_eq.
  - intros x Hx. now apply (uniq_In Z.eqb Z.eqb_eq).
Qed.

Lemma dropnaZ_hours_length (cs : Series) :
  forallb is_datetime_cell cs = true ->
  length (dropnaZ (map hour_cell cs)) = length (filter notna_cell cs).
Proof.
  induction cs as [|c t IH]; simpl; [reflexivity|].
  intros H. apply andb_true_iff in H. destruct H as [Hc Ht].
  destruct c as [[?|?|?]|]; simpl in *; try discriminate;
    now rewrite (IH Ht).
Qed.

(** X16. The counts of the hourly histogram add up to the number of requests
    that have a request time: every such request is counted in exactly one
    hour, and requests without a time are left out. *)
Theorem hourly_demand_total (parse : string -> option Z)
  (self : CityCarDataHandler) :
  In "request_ts" (columns (df_requests self)) ->
  datetime_column (df_requests self) "request_ts" = true ->
  exists hist,
    analyze_surge_demand parse self = (Ok hist, self) /\
    list_sum (map snd hist)
    = length (filter (fun r => notna_cell
                                 (field (df_requests self) "request_ts" r))
                (rows (df_requests self))).
Proof.
  intros Hin Hdt. destruct (index_of_some _ _ Hin) as [i Hi].
  eexists. split; [apply (surge_demand_result parse self i Hi Hdt)|].
  rewrite value_counts_total.
  rewrite (dropnaZ_hours_length _ (datetime_column_cells _ _ _ Hi Hdt)).
  rewrite (filter_ext _ (fun r => notna_cell (cell_at i r)))
    by (intros r; unfold field; now rewrite Hi).
  induction (rows (df_requests self)) as [|r t IH]; simpl; [reflexivity|].
  destruct (notna_cell (cell_at i r)); simpl; now rewrite IH.
Qed.

Lemma hourly_demand_total_witness :
  exists hist,
    analyze_surge_demand (fun _ => None) Scenario.loaded
      = (Ok hist, Scenario.loaded) /\
    list_sum (map snd hist)
    = length (filter (fun r => notna_cell
                                 (field (df_requests Scenario.loaded)
                                    "request_ts" r))
                (rows (df_requests Scenario.loaded))).
Proof.
  apply (hourly_demand_total (fun _ => None) Scenario.loaded).
  - simpl. tauto.
  - reflexivity.
Defined.

(** ** The conversion inside [analyze_surge_demand] *)

Lemma rmap_length {A B} (g : A -> result B) (l : list A) (bs : list B) :
  rmap g l = Ok bs -> length bs = length l.
Proof.
  revert bs. induction l as [|a t IH]; simpl; intros bs H.
  - inversion H. reflexivity.
  - destruct (g a) as [b|e]; [|discriminate]. simpl in H.
    destruct (rmap g t) as [bs'|e]; [|discriminate]. simpl in H.
    inversion H; subst. simpl. now rewrite (IH bs' eq_refl).
Qed.

Lemma to_datetime_datetime (parse : string -> option Z) (s c : Series) :
  to_datetime parse s = Ok c -> forallb is_datetime_cell c = true.
Proof.
  unfold to_datetime. revert c.
  induction s as [|x t IH]; simpl; intros c H.
  - inversion H. reflexivity.
  - destruct (to_datetime_cell parse x) as [y|e] eqn:Ex; [|discriminate].
    simpl in H.
    destruct (rmap (to_datetime_cell parse) t) as [ys|e]; [|discriminate].
    simpl in H. inversion H; subst. simpl. rewrite (IH ys eq_refl).
    destruct x as [[str|n|ns]|]; simpl in Ex.
    + destruct (parse str); inversion Ex; reflexivity.
    + inversion Ex; reflexivity.
    + inversion Ex; reflexivity.
    + inversion Ex; reflexivity.
Qed.

Lemma cell_at_set_nth (i : nat) (v : cell) (r : list cell) :
  i < length r -> cell_at i (set_nth i v r) = v.
Proof.
  unfold cell_at. revert i. induction r as [|x t IH]; intros i H; simpl in H.
  - lia.
  - destruct i as [|i']; simpl; [reflexivity|]. apply IH. lia.
Qed.

Lemma map2_set_nth_get (i : nat) (vals : Series) (rs : list (list cell)) :
  length vals = length rs ->
  (forall r, In r rs -> i < length r) ->
  map (cell_at i) (map2 (set_nth i) vals rs) = vals.
Proof.
  revert rs. induction vals as [|v t IH]; intros [|r rs] Hlen Hrows;
    simpl in *; try discriminate; [reflexivity|].
  rewrite cell_at_set_nth by (apply Hrows; now left).
  rewrite IH; [reflexivity | lia | intros x Hx; apply Hrows; now right].
Qed.

(** X17. [analyze_surge_demand] writes the converted time stamps back into
    the request table.  Whenever it returns on a well-formed request table,
    the [request_ts] column of the object holds datetimes afterwards, the
    labels and every other table are as before, and calling it again returns
    the same histogram without changing the object any further. *)
Theorem surge_demand_normalises (parse : string -> option Z)
  (self self' : CityCarDataHandler) (h : list (Z * nat)) :
  well_formed (df_requests self) ->
  analyze_surge_demand parse self = (Ok h, self') ->
  datetime_column (df_requests self') "request_ts" = true /\
  columns (df_requests self') = columns (df_requests self) /\
  set_requests self' (df_requests self) = self /\
  analyze_surge_demand parse self' = (Ok h, self').
Proof.
  intros Wf H.
  unfold analyze_surge_demand, bind, get, lift, ret, assign_requests in H.
  simpl in H.
  destruct (getcol (df_requests self) "request_ts") as [ts|e] eqn:G;
    [|discriminate].
  destruct (to_datetime parse ts) as [conv|e] eqn:T; [|discriminate].
  simpl in H. unfold getcol in G.
  destruct (index_of "request_ts" (columns (df_requests self)))
    as [i|] eqn:Hi; [|discriminate].
  inversion G; subst ts; clear G.
  pose proof (to_datetime_datetime _ _ _ T) as Hdt.
  assert (length conv = length (rows (df_requests self))) as Hlen.
  { unfold to_datetime in T. rewrite (rmap_length _ _ _ T).
    apply length_map. }
  assert (forall r, In r (rows (df_requests self)) -> i < length r) as Hrows.
  { intros r Hr. unfold well_formed in Wf. rewrite Forall_forall in Wf.
    rewrite (Wf r Hr). now destruct (index_of_bound _ _ _ Hi). }
  set (requests' := set_column (df_requests self) "request_ts" conv) in *.
  assert (columns requests' = columns (df_requests self)) as Hcols
    by (unfold requests', set_column; now rewrite Hi).
  assert (map (cell_at i) (rows requests') = conv) as Hget.
  { unfold requests', set_column. rewrite Hi. simpl.
    now apply map2_set_nth_get. }
  unfold project1 in H. rewrite Hcols, Hi in H. unfold getcol in H.
  simpl in H. rewrite map_map in H. simpl in H.
  change (map (fun x => cell_at 0 [cell_at i x]) (rows requests'))
    with (map (cell_at i) (rows requests')) in H.
  rewrite Hget, (dt_hour_datetime _ Hdt) in H. simpl in H.
  inversion H; subst h self'; clear H.
  assert (index_of "request_ts"
            (columns (df_requests (set_requests self requests'))) = Some i)
    as Hi' by (simpl; now rewrite Hcols).
  assert (datetime_column (df_requests (set_requests self requests'))
            "request_ts" = true) as Hdt'.
  { unfold datetime_column. rewrite (getcol_index _ _ i Hi'). simpl.
    now rewrite Hget. }
  split; [exact Hdt'|]. split; [exact Hcols|].
  split; [now destruct self|].
  rewrite (surge_demand_result parse _ i Hi' Hdt'). simpl.
  now rewrite Hget.
Qed.

Lemma surge_demand_normalises_witness :
  datetime_column (df_requests Scenario.converted) "request_ts" = true /\
  columns (df_requests Scenario.converted)
    = columns (df_requests Scenario.raw) /\
  set_requests Scenario.converted (df_requests Scenario.raw)
    = Scenario.raw /\
  analyze_surge_demand (fun _ => None) Scenario.converted
    = (Ok [(2%Z, 1)], Scenario.converted).
Proof.
  apply (surge_demand_normalises (fun _ => None) Scenario.raw
           Scenario.converted [(2%Z, 1)]).
  - repeat constructor.
  - reflexivity.
Defined.

(** ** The warm-up statistics *)

Lemma getcol_inv (df : DataFrame) (c : string) (s : Series) :
  getcol df c = Ok s ->
  exists i, index_of c (columns df) = Some i /\
            s = map (cell_at i) (rows df).
Proof.
  unfold getcol. destruct (index_of c (columns df)) as [i|]; [|discriminate].
  intros H. inversion H. eauto.
Qed.

Lemma count_notna_le (g : list cell -> cell) (l : list (list cell)) :
  count_notna (map g l) <= length l.
Proof.
  unfold count_notna. rewrite <- (length_map g l). apply dropna_length_le.
Qed.

Lemma accepted_completed_or_problem (a d : nat) (l : list (list cell)) :
  count_notna (map (cell_at a) l)
  <= count_notna (map (cell_at d) l)
     + length (filter (fun r => notna_cell (cell_at a r)
                                && isna_cell (cell_at d r)) l).
Proof.
  unfold count_notna, isna_cell. induction l as [|r t IH]; simpl; [lia|].
  destruct (cell_at a r), (cell_at d r); simpl; lia.
Qed.

Lemma durations_le_dropoffs (dro pic : Series) (diff : list (option Z)) :
  series_sub dro pic = Ok diff ->
  length (dropnaQ (map minutes diff)) <= count_notna dro.
Proof.
  unfold count_notna. revert pic diff.
  induction dro as [|x t IH]; intros pic diff S; simpl in S.
  - inversion S. simpl. lia.
  - destruct pic as [|y pic']; [inversion S; simpl; lia|].
    destruct (ts_sub x y) as [z|e] eqn:Ez; [|discriminate]. simpl in S.
    destruct (series_sub t pic') as [zs|e] eqn:Es; [|discriminate].
    simpl in S. inversion S; subst diff; clear S.
    specialize (IH pic' zs Es).
    destruct x as [[?|?|?]|], y as [[?|?|?]|]; simpl in Ez;
      inversion Ez; subst; simpl; lia.
Qed.

(** X18. Whenever [get_warmup_stats] returns, the object is unchanged and
    its numbers are consistent with each other and with the other analyses
    of the same request table: completed rides, accepted rides and distinct
    requesting users do not exceed the requested rides; every accepted ride
    is either completed or one of the problem rides of
    [analyze_dropoff_gap]; and the average duration is the mean reported by
    [analyze_ride_duration_quality], rounded to two decimals. *)
Theorem warmup_stats_consistent
  (self self' : CityCarDataHandler) (w : WarmupStats) :
  get_warmup_stats self = (Ok w, self') ->
  self' = self /\
  rides_completed_4 w <= rides_requested_3 w /\
  rides_accepted_7 w <= rides_requested_3 w /\
  unique_users_requesting_5 w <= rides_requested_3 w /\
  (forall rep, fst (analyze_dropoff_gap self) = Ok rep ->
               rides_accepted_7 w
               <= rides_completed_4 w + count_problems rep) /\
  (forall st long neg,
      fst (analyze_ride_duration_quality self) = Ok (st, long, neg) ->
      avg_duration_minutes_6 w = py_round2 (d_mean st) /\
      d_count st <= rides_completed_4 w).
Proof.
  unfold get_warmup_stats, bind, get, lift. simpl.
  destruct (getcol (df_requests self) "dropoff_ts") as [dro|e] eqn:Gd;
    [|discriminate]. cbn [rbind].
  destruct (getcol (df_requests self) "user_id") as [uid|e] eqn:Gu;
    [|discriminate]. cbn [rbind].
  destruct (getcol (df_requests self) "pickup_ts") as [pic|e] eqn:Gp;
    [|discriminate]. cbn [rbind].
  destruct (series_sub dro pic) as [diff|e] eqn:S; [|discriminate].
  cbn [rbind].
  destruct (getcol (df_requests self) "accept_ts") as [acc|e] eqn:Ga;
    [|discriminate]. cbn [rbind].
  destruct (getcol (df_transactions self) "purchase_amount_usd")
    as [amount|e]; [|discriminate]. cbn [rbind].
  destruct (series_sum amount) as [revenue|e]; [|discriminate].
  cbn [rbind].
  destruct (getcol (df_downloads self) "platform") as [plat|e];
    [|discriminate]. cbn [rbind].
  intros H. inversion H; subst w self'; clear H. simpl.
  destruct (getcol_inv _ _ _ Gd) as [d [Hd ->]].
  destruct (getcol_inv _ _ _ Gu) as [u [Hu ->]].
  destruct (getcol_inv _ _ _ Ga) as [a [Ha ->]].
  unfold len.
  split; [reflexivity|]. split; [apply count_notna_le|].
  split; [apply count_notna_le|]. split; [apply nunique_map_le|].
  split.
  - intros rep. unfold analyze_dropoff_gap, bind, get, lift.
    cbv beta iota. cbn [fst]. rewrite ?Ga, ?Gd. cbn [rbind].
    unfold notna, isna.
    rewrite !map_map, mask_and_map.
    destruct (getcol _ "cancel_ts") as [can|e]; [|discriminate].
    cbn [rbind]. intros H. inversion H; subst rep; clear H.
    cbn [count_problems].
    pose proof (select_rows_filter (df_requests self)
                  (fun x => notna_cell (cell_at a x)
                            && isna_cell (cell_at d x))) as E.
    unfold select in E. simpl in E. rewrite E.
    apply accepted_completed_or_problem.
  - intros st long neg.
    unfold analyze_ride_duration_quality, bind, get, lift, ret.
    cbv beta iota. unfold ride_durations. rewrite ?Gd, ?Gp. cbn [rbind].
    rewrite S. cbn [rbind fst]. intros H. inversion H; subst; clear H. simpl.
    split; [reflexivity|].
    unfold describe. simpl. now apply (durations_le_dropoffs _ pic).
Qed.

Lemma warmup_stats_consistent_witness :
  let w := mkWarmup 3 1 1 0 1 None 1 0
             [(VStr "ios", 2); (VStr "android", 1)] in
  Scenario.loaded = Scenario.loaded /\
  rides_completed_4 w <= rides_requested_3 w /\
  rides_accepted_7 w <= rides_requested_3 w /\
  unique_users_requesting_5 w <= rides_requested_3 w /\
  (forall rep, fst (analyze_dropoff_gap Scenario.loaded) = Ok rep ->
               rides_accepted_7 w
               <= rides_completed_4 w + count_problems rep) /\
  (forall st long neg,
      fst (analyze_ride_duration_quality Scenario.loaded)
        = Ok (st, long, neg) ->
      avg_duration_minutes_6 w = py_round2 (d_mean st) /\
      d_count st <= rides_completed_4 w).
Proof.
  apply (warmup_stats_consistent Scenario.loaded Scenario.loaded).
  reflexivity.
Defined.

(** ** Errors of the duration analysis *)



(** ** Errors of the funnel steps *)

Lemma has_column_false (f : DataFrame) (c : string) :
  has_column f c = false -> getcol f c = Err (KeyError c).
Proof.
  intros H. apply getcol_missing. intros Hin.
  apply has_column_In in Hin. congruence.
Qed.

Lemma has_column_true (f : DataFrame) (c : string) :
  has_column f c = true ->
  exists i, index_of c (columns f) = Some i /\
            getcol f c = Ok (map (cell_at i) (rows f)).
Proof. intros H. apply getcol_ok. now apply has_column_In. Qed.

(** X20. When the merged table lacks one of the seven analysed columns,
    [calculate_funnel_steps] raises [KeyError] naming the first missing one
    in the order download key, user, request, accept, drop-off, charge
    status, review; the merged table stays cached. *)
Theorem funnel_steps_missing_column
  (self self' : CityCarDataHandler) (f : DataFrame) (c : string) :
  funnel_table self = (Ok f, self') ->
  find (fun k => negb (has_column f k)) funnel_step_columns = Some c ->
  calculate_funnel_steps self = (Err (KeyError c), self') /\
  df_funnel self' = Some f.
Proof.
  intros Hf Hfind.
  split; [|now destruct (funnel_table_caches _ _ _ Hf)].
  unfold calculate_funnel_steps, bind, lift. rewrite Hf. f_equal.
  unfold funnel_step_columns in Hfind. simpl in Hfind.
  destruct (has_column f "app_download_key") eqn:E1; simpl in Hfind;
    [|inversion Hfind; now rewrite (has_column_false _ _ E1)].
  destruct (has_column_true _ _ E1) as [i1 [_ ->]]. cbn [rbind].
  destruct (has_column f "user_id") eqn:E2; simpl in Hfind;
    [|inversion Hfind; now rewrite (has_column_false _ _ E2)].
  destruct (has_column_true _ _ E2) as [u [Hu ->]]. cbn [rbind].
  destruct (has_column f "request_ts") eqn:E3; simpl in Hfind;
    [|inversion Hfind; now rewrite (has_column_false _ _ E3)].
  destruct (has_column_true _ _ E3) as [i3 [_ ->]]. cbn [rbind].
  unfold notna at 1. rewrite map_map, (select_by_mask f _ u _ Hu).
  cbn [rbind].
  destruct (has_column f "accept_ts") eqn:E4; simpl in Hfind;
    [|inversion Hfind; now rewrite (has_column_false _ _ E4)].
  destruct (has_column_true _ _ E4) as [i4 [_ ->]]. cbn [rbind].
  unfold notna at 1. rewrite map_map, (select_by_mask f _ u _ Hu).
  cbn [rbind].
  destruct (has_column f "dropoff_ts") eqn:E5; simpl in Hfind;
    [|inversion Hfind; now rewrite (has_column_false _ _ E5)].
  destruct (has_column_true _ _ E5) as [i5 [_ ->]]. cbn [rbind].
  unfold notna at 1. rewrite map_map, (select_by_mask f _ u _ Hu).
  cbn [rbind].
  destruct (has_column f "charge_status") eqn:E6; simpl in Hfind;
    [|inversion Hfind; now rewrite (has_column_false _ _ E6)].
  destruct (has_column_true _ _ E6) as [i6 [_ ->]]. cbn [rbind].
  unfold eq_scalar. rewrite map_map, (select_by_mask f _ u _ Hu).
  cbn [rbind].
  destruct (has_column f "review_id") eqn:E7; simpl in Hfind;
    [discriminate|].
  inversion Hfind. now rewrite (has_column_false _ _ E7).
Qed.

Lemma funnel_steps_missing_column_witness :
  calculate_funnel_steps Scenario.null_keys
  = (Err (KeyError "user_id"), Scenario.null_keys) /\
  df_funnel Scenario.null_keys
  = Some (mkDF ["app_download_key"; "platform"; "dropoff_ts"]
            [[None; Scenario.str "ios"; None];
             [None; Scenario.str "web"; Scenario.time 9000]]).
Proof.
  apply (funnel_steps_missing_column Scenario.null_keys Scenario.null_keys).
  - reflexivity.
  - reflexivity.
Defined.

(** ** The cache and the conversion of the request times *)

Lemma surge_demand_keeps_funnel (parse : string -> option Z)
  (self : CityCarDataHandler) :
  df_funnel (snd (analyze_surge_demand parse self)) = df_funnel self.
Proof.
  unfold analyze_surge_demand, bind, get, lift, ret, assign_requests.
  simpl.
  destruct (getcol (df_requests self) "request_ts") as [ts|e];
    [|reflexivity].
  destruct (to_datetime parse ts) as [conv|e]; [|reflexivity]. simpl.
  destruct (project1 _ "request_ts") as [tmp|e]; [|reflexivity].
  destruct (getcol tmp "request_ts") as [ts'|e]; [|reflexivity].
  destruct (dt_hour ts') as [h|e]; reflexivity.
Qed.

(** X21. The cached merged table is never invalidated: once it is cached,
    the operations on it return the same results after
    [analyze_surge_demand] as before, even when that call has rewritten the
    [request_ts] column of the request table. *)
Theorem cached_funnel_survives_conversion (parse : string -> option Z)
  (self : CityCarDataHandler) (f : DataFrame) :
  df_funnel self = Some f ->
  let self' := snd (analyze_surge_demand parse self) in
  df_funnel self' = Some f /\
  fst (calculate_funnel_steps self') = fst (calculate_funnel_steps self) /\
  fst (get_platform_metrics self') = fst (get_platform_metrics self) /\
  fst (get_funnel_by_age self') = fst (get_funnel_by_age self).
Proof.
  intros Hc self'.
  assert (df_funnel self' = Some f) as Hc'
    by (unfold self'; now rewrite surge_demand_keeps_funnel).
  split; [exact Hc'|].
  unfold calculate_funnel_steps, get_platform_metrics, get_funnel_by_age,
    bind.
  rewrite (funnel_table_cached _ _ Hc), (funnel_table_cached _ _ Hc').
  unfold lift. cbn [fst]. repeat split; reflexivity.
Qed.

Lemma cached_funnel_survives_conversion_witness :
  let self := set_funnel Scenario.raw Scenario.funnel in
  let self' := snd (analyze_surge_demand (fun _ => None) self) in
  df_funnel self' = Some Scenario.funnel /\
  fst (calculate_funnel_steps self') = fst (calculate_funnel_steps self) /\
  fst (get_platform_metrics self') = fst (get_platform_metrics self) /\
  fst (get_funnel_by_age self') = fst (get_funnel_by_age self).
Proof.
  apply (cached_funnel_survives_conversion (fun _ => None)
           (set_funnel Scenario.raw Scenario.funnel) Scenario.funnel).
  reflexivity.
Defined.

